(** * Floe rules engine: a shallow embedding and its verified properties

    The development embeds the three rule engines of the repository:

    - [LLM_Rules_Engine.py]  (module [LLM]): the semantic parser and the
      confidence-scoring [RuleEngine];
    - [syntax_rules_engine.py]  (module [Syntax]): the pattern-table parser,
      the boolean evaluator and [simple_datetime_diff];
    - [floe_rules_engine/rules_engine/engine.py] and [utils.py]
      (module [Events]): the event-driven [RulesEngine];
    - the loaders of the three (module [Loading]) and the functions of
      [built_in_rules_engine.py] that are those of
      [syntax_rules_engine.py] under another name.

    Conventions of the embedding.

    - Python [str] is Rocq's [string]; rule texts are taken to be ASCII,
      so [lower], [strip] and the regular-expression classes are the
      ASCII ones.
    - Python [float] is idealised as an exact rational ([Q]); rounding is
      not modelled.
    - A function that may raise returns [result]; [Raise] stands for any
      Python exception.
    - [RuleEngine] is passed explicitly: [evaluate_rule] returns the list
      and the engine with its updated cache.  The thread pool of
      [evaluate_rule] runs pure functions and its results are read in
      submission order, so the loop is written sequentially.
    - The parts of the Python runtime that are not modelled in detail
      ([str] of a float or of a container, the format mini-language
      beyond a field name, [datetime]) are the methods of the class
      [PyRuntime]; every general theorem holds for all of its instances.

    The file has the embedding first, then the vocabulary of the
    statements, the lemmas, the theorems of the claims, and the further
    properties of the code. *)

From Stdlib Require Import String Ascii List ZArith QArith Lia Lqa Bool.
From Stdlib Require Import Sorting.Sorted.
From Stdlib Require DecimalString DecimalPos DecimalZ.
From stdpp Require Import base option list gmap strings.

Local Open Scope Z_scope.

(** ** Python strings *)

Module PyStr.

(** [str.isspace] on an ASCII character: TAB, LF, VT, FF, CR, the four
    separators 0x1c-0x1f and the space.  This is also the class [\s]. *)
Definition is_space (c : ascii) : bool :=
  let n := nat_of_ascii c in
  ((9 <=? n) && (n <=? 13))%nat || ((28 <=? n) && (n <=? 32))%nat.

Definition is_digit (c : ascii) : bool :=
  let n := nat_of_ascii c in ((48 <=? n) && (n <=? 57))%nat.

Definition is_upper (c : ascii) : bool :=
  let n := nat_of_ascii c in ((65 <=? n) && (n <=? 90))%nat.

Definition is_lower (c : ascii) : bool :=
  let n := nat_of_ascii c in ((97 <=? n) && (n <=? 122))%nat.

Definition is_alpha (c : ascii) : bool := is_upper c || is_lower c.

(** [\w] restricted to ASCII. *)
Definition is_word (c : ascii) : bool :=
  is_alpha c || is_digit c || Ascii.eqb c "_"%char.

Definition lower_char (c : ascii) : ascii :=
  if is_upper c then ascii_of_nat (nat_of_ascii c + 32) else c.

Definition upper_char (c : ascii) : ascii :=
  if is_lower c then ascii_of_nat (nat_of_ascii c - 32) else c.

(** [s.lower()] and [s.upper()] *)
Fixpoint lower (s : string) : string :=
  match s with
  | EmptyString => EmptyString
  | String c s' => String (lower_char c) (lower s')
  end.

Fixpoint upper (s : string) : string :=
  match s with
  | EmptyString => EmptyString
  | String c s' => String (upper_char c) (upper s')
  end.

(** [s.title()]: the first letter of every run of letters is upper-cased,
    the others lower-cased. *)
Fixpoint title_from (prev_cased : bool) (s : string) : string :=
  match s with
  | EmptyString => EmptyString
  | String c s' =>
      String (if prev_cased then lower_char c else upper_char c)
             (title_from (is_alpha c) s')
  end.

Definition title (s : string) : string := title_from false s.

Fixpoint rev_onto (s acc : string) : string :=
  match s with
  | EmptyString => acc
  | String c s' => rev_onto s' (String c acc)
  end.

Definition rev (s : string) : string := rev_onto s EmptyString.

Fixpoint lstrip (s : string) : string :=
  match s with
  | String c s' => if is_space c then lstrip s' else s
  | EmptyString => EmptyString
  end.

Definition rstrip (s : string) : string := rev (lstrip (rev s)).

(** [s.strip()] *)
Definition strip (s : string) : string := rstrip (lstrip s).

(** [s.startswith(p)] *)
Fixpoint startswith (p s : string) : bool :=
  match p, s with
  | EmptyString, _ => true
  | String a p', String b s' => Ascii.eqb a b && startswith p' s'
  | String _ _, EmptyString => false
  end.

(** [sub in s] *)
Fixpoint contains (sub s : string) : bool :=
  startswith sub s ||
  match s with
  | EmptyString => false
  | String _ s' => contains sub s'
  end.

(** [any(w in s for w in ws)] *)
Definition contains_any (ws : list string) (s : string) : bool :=
  existsb (fun w => contains w s) ws.

Fixpoint drop (n : nat) (s : string) : string :=
  match n, s with
  | O, _ => s
  | S n', String _ s' => drop n' s'
  | S _, EmptyString => EmptyString
  end.

Fixpoint take (n : nat) (s : string) : string :=
  match n, s with
  | O, _ => EmptyString
  | S n', String c s' => String c (take n' s')
  | S _, EmptyString => EmptyString
  end.

(** [s.replace(old, new)] for a non-empty [old]: the occurrences are
    replaced from left to right and do not overlap.  [skip] counts the
    characters of an occurrence that was just replaced. *)
Fixpoint replace_from (old new : string) (skip : nat) (s : string) : string :=
  match s with
  | EmptyString => EmptyString
  | String c s' =>
      match skip with
      | S k => replace_from old new k s'
      | O =>
          if startswith old s
          then new +:+ replace_from old new (String.length old - 1) s'
          else String c (replace_from old new O s')
      end
  end.

Definition replace (old new s : string) : string := replace_from old new O s.

(** [s.split(sep)[0]] for a non-empty [sep]: the text before the first
    occurrence of [sep], or all of [s]. *)
Fixpoint split_head (sep s : string) : string :=
  match s with
  | EmptyString => EmptyString
  | String c s' => if startswith sep s then EmptyString else String c (split_head sep s')
  end.

(** [str(n)] for an [int]. *)
Definition of_Z (z : Z) : string := DecimalString.NilZero.string_of_int (Z.to_int z).

(** [int(s)] for a string of ASCII digits (what [\d+] captures). *)
Fixpoint digits_value (acc : Z) (s : string) : Z :=
  match s with
  | EmptyString => acc
  | String c s' => digits_value (10 * acc + Z.of_nat (nat_of_ascii c - 48)) s'
  end.

Definition int_of_digits (s : string) : Z := digits_value 0 s.

(** [s.split(c)] for a separator of one character: the parts between
    its occurrences; a text without the separator is the only part. *)
Fixpoint split_on (c : ascii) (s : string) : list string :=
  match s with
  | EmptyString => [EmptyString]
  | String x s' =>
      if Ascii.eqb x c then EmptyString :: split_on c s'
      else
        match split_on c s' with
        | part :: parts => String x part :: parts
        | [] => [String x EmptyString]
        end
  end.

End PyStr.

(** ** Regular expressions

    The fragment of Python's [re] that the engines use, with the
    backtracking order of [re]: alternatives left to right, greedy
    repetition longest first, lazy repetition shortest first.  Every
    repetition in the sources ranges over a character class, so [RPlus],
    [RPlusLazy] and [RStar] take a class. *)

Module Re.

Inductive regex : Type :=
| REps
| RChar (c : ascii)
| RSet (p : ascii -> bool)
| RSeq (r1 r2 : regex)
| RAlt (r1 r2 : regex)
| ROpt (r : regex)
| RPlus (p : ascii -> bool)
| RPlusLazy (p : ascii -> bool)
| RStar (p : ascii -> bool)
| RGroup (r : regex).

(** A literal string. *)
Fixpoint RStr (s : string) : regex :=
  match s with
  | EmptyString => REps
  | String c EmptyString => RChar c
  | String c s' => RSeq (RChar c) (RStr s')
  end.

Fixpoint RCat (rs : list regex) : regex :=
  match rs with
  | [] => REps
  | [r] => r
  | r :: rs' => RSeq r (RCat rs')
  end.

(** [.] matches everything but a newline. *)
Definition dot (c : ascii) : bool := negb (Ascii.eqb c "010"%char).

Definition dquote : ascii := ascii_of_nat 34.

(** The class of every character but the two quotes. *)
Definition not_quote (c : ascii) : bool :=
  negb (Ascii.eqb c dquote) && negb (Ascii.eqb c "'"%char).

(** The class of the two quotes. *)
Definition quote (c : ascii) : bool :=
  Ascii.eqb c dquote || Ascii.eqb c "'"%char.

Section Matcher.
Context (ic : bool) {R : Type}.      (* ic: re.IGNORECASE *)

Definition char_eq (a b : ascii) : bool :=
  if ic then Ascii.eqb (PyStr.lower_char a) (PyStr.lower_char b) else Ascii.eqb a b.

(** [p+] greedy: consume one character, then prefer to consume more. *)
Fixpoint plus_greedy (p : ascii -> bool) (s : string) (k : string -> option R) : option R :=
  match s with
  | String c s' =>
      if p c then
        match plus_greedy p s' k with
        | Some x => Some x
        | None => k s'
        end
      else None
  | EmptyString => None
  end.

(** [p+?] lazy: consume one character, then prefer to stop. *)
Fixpoint plus_lazy (p : ascii -> bool) (s : string) (k : string -> option R) : option R :=
  match s with
  | String c s' =>
      if p c then
        match k s' with
        | Some x => Some x
        | None => plus_lazy p s' k
        end
      else None
  | EmptyString => None
  end.

Definition star_greedy (p : ascii -> bool) (s : string) (k : string -> option R) : option R :=
  match plus_greedy p s k with
  | Some x => Some x
  | None => k s
  end.

(** [rmatch r s caps k]: match [r] at the start of [s]; [caps] are the
    groups closed so far; [k] is the rest of the pattern. *)
Fixpoint rmatch (r : regex) (s : string) (caps : list string)
         (k : string -> list string -> option R) : option R :=
  match r with
  | REps => k s caps
  | RChar c =>
      match s with
      | String c' s' => if char_eq c c' then k s' caps else None
      | EmptyString => None
      end
  | RSet p =>
      match s with
      | String c' s' => if p c' then k s' caps else None
      | EmptyString => None
      end
  | RSeq r1 r2 => rmatch r1 s caps (fun s' caps' => rmatch r2 s' caps' k)
  | RAlt r1 r2 =>
      match rmatch r1 s caps k with
      | Some x => Some x
      | None => rmatch r2 s caps k
      end
  | ROpt r1 =>
      match rmatch r1 s caps k with
      | Some x => Some x
      | None => k s caps
      end
  | RPlus p => plus_greedy p s (fun s' => k s' caps)
  | RPlusLazy p => plus_lazy p s (fun s' => k s' caps)
  | RStar p => star_greedy p s (fun s' => k s' caps)
  | RGroup r1 =>
      rmatch r1 s caps
        (fun s' caps' =>
           k s' (caps' ++ [PyStr.take (String.length s - String.length s') s]))
  end.
End Matcher.

(** A match: the captured groups and the text after the match. *)
Definition rmatch_here (ic : bool) (r : regex) (s : string) : option (list string * string) :=
  rmatch ic r s [] (fun s' caps => Some (caps, s')).

(** [re.search]: the leftmost position at which the pattern matches. *)
Fixpoint search (ic : bool) (r : regex) (s : string) : option (list string * string) :=
  match rmatch_here ic r s with
  | Some m => Some m
  | None =>
      match s with
      | EmptyString => None
      | String _ s' => search ic r s'
      end
  end.

(** [m.group(i)], groups numbered from 1. *)
Definition group (i : nat) (m : list string * string) : string :=
  nth (i - 1) (fst m) EmptyString.

Definition matches (ic : bool) (r : regex) (s : string) : bool :=
  match search ic r s with Some _ => true | None => false end.

End Re.

(** ** Exceptions *)

(** The outcome of a call that may raise.  The engines only ever catch
    [Exception] as a whole, so one [Raise] stands for every exception. *)
Inductive result (A : Type) : Type :=
| Ok (a : A)
| Raise.
Arguments Ok {A} a.
Arguments Raise {A}.

#[global] Instance result_ret : MRet result := fun A a => Ok a.

#[global] Instance result_bind : MBind result := fun A B f m =>
  match m with
  | Ok a => f a
  | Raise => Raise
  end.

Definition is_ok {A : Type} (m : result A) : bool :=
  match m with Ok _ => true | Raise => false end.

(** ** The record store

    The five data sets, with the fields and the types of the spec's data
    model (identifiers, names and time stamps are strings, flags are
    booleans).  A key that the code reads with [d.get(k)] or inside a
    [try] is an optional field; a key it reads with [d[k]] is a
    mandatory one. *)

Module Data.

Record Practice : Type := {
  practice_id : string;
  practice_name : option string;
  practice_timezone : option string;
  reply_to_email : option string;
  default_sender_phone : option string;
  practice_domain : option string }.

Record CommPrefs : Type := {
  pref_sms : option bool;
  pref_email : option bool;
  pref_call : option bool }.

Record Patient : Type := {
  patient_id : string;
  first_name : option string;
  last_name : option string;
  patient_email : option string;
  patient_phone : option string;
  patient_language : option string;
  comm_prefs : option CommPrefs;
  dnc : option bool;
  tags : option (list string) }.

Record Appointment : Type := {
  appt_id : string;
  appt_patient_id : string;
  appt_practice_id : string;
  start_time : option string;
  appt_status : option string;
  appt_type : option string;
  appt_location : option string;
  no_show_risk : option string }.

Record Intake : Type := {
  intake_appointment_id : string;
  intake_status : option string;
  intake_last_updated : option string;
  intake_link : option string }.

Record Payload : Type := {
  payload_appointment_id : option string;
  payload_patient_id : option string;
  payload_practice_id : option string }.

Record Event : Type := {
  event_type : option string;
  occurred_at : option string;
  payload : option Payload }.

(** An intake as the files hold it: the comprehensions of the loaders
    test for the key [appointment_id] before they read it. *)
Record IntakeDoc : Type := {
  doc_appointment_id : option string;
  doc_status : option string;
  doc_last_updated : option string;
  doc_link : option string }.

Definition intake_of_doc (d : IntakeDoc) : option Intake :=
  match doc_appointment_id d with
  | Some k =>
      Some {| intake_appointment_id := k; intake_status := doc_status d;
              intake_last_updated := doc_last_updated d; intake_link := doc_link d |}
  | None => None
  end.

End Data.
Import Data.

(** ** Python values *)

(** The values a context dictionary holds. *)
Inductive pyval : Type :=
| VNone
| VBool (b : bool)
| VInt (z : Z)
| VFloat (q : Q)
| VStr (s : string)
| VList (l : list Event).

(** [d.get(k)] on an optional string or boolean field. *)
Definition of_opt_str (o : option string) : pyval :=
  match o with Some s => VStr s | None => VNone end.

Definition of_opt_bool (o : option bool) : pyval :=
  match o with Some b => VBool b | None => VNone end.

(** What the embedding takes from the Python runtime without modelling
    it: [str] of a float and of a list of events, the part of the format
    mini-language beyond a plain [{name}] field, and [datetime]. *)
Class PyRuntime : Type := {
  (** [str(x)] for a float [x] *)
  float_repr : Q -> string;
  (** [str(l)] for a list of event dictionaries *)
  events_repr : list Event -> string;
  (** a replacement field with an attribute, an index, a conversion or a
      format specification: the keyword arguments (a specification may
      nest fields), the value and the text after the name *)
  format_ext : gmap string pyval -> pyval -> string -> result string;
  datetime : Type;
  (** [datetime.fromisoformat(s)]; [None] when it raises *)
  fromisoformat : string -> option datetime;
  (** [(a - b).total_seconds()]; [None] when the subtraction raises (an
      aware and a naive datetime) *)
  seconds_between : datetime -> datetime -> option Q;
  (** [d.strftime("%b %d, %I:%M %p")] *)
  strftime_short : datetime -> string }.

Module Py.

(** [bool(v)] *)
Definition truthy (v : pyval) : bool :=
  match v with
  | VNone => false
  | VBool b => b
  | VInt z => negb (z =? 0)
  | VFloat q => negb (Qeq_bool q 0)
  | VStr s => negb (String.eqb s "")
  | VList l => match l with [] => false | _ => true end
  end.

(** [str(v)] *)
Definition str `{PyRuntime} (v : pyval) : string :=
  match v with
  | VNone => "None"
  | VBool true => "True"
  | VBool false => "False"
  | VInt z => PyStr.of_Z z
  | VFloat q => float_repr q
  | VStr s => s
  | VList l => events_repr l
  end.

Fixpoint all_digits (s : string) : bool :=
  match s with
  | EmptyString => true
  | String c s' => PyStr.is_digit c && all_digits s'
  end.

(** [float(s)] on the plain decimal literals [[+-]digits[.digits]] (with
    surrounding white space); exponents, [inf], [nan] and digit
    separators are outside the modelled fragment. *)
Definition float_of_unsigned (s : string) : option Q :=
  let ip := PyStr.split_head "." s in
  let rest := PyStr.drop (String.length ip) s in
  let fp := match rest with String _ r => r | EmptyString => EmptyString end in
  if all_digits ip && all_digits fp
     && negb (String.eqb ip "" && String.eqb fp "")
  then Some (Qmake (PyStr.int_of_digits (ip +:+ fp))
                   (Nat.iter (String.length fp) (Pos.mul 10) 1%positive))
  else None.

Definition float_of_str (s : string) : option Q :=
  match PyStr.strip s with
  | String "-" s' => Qopp <$> float_of_unsigned s'
  | String "+" s' => float_of_unsigned s'
  | s' => float_of_unsigned s'
  end.

(** [float(v)] *)
Definition to_float (v : pyval) : result Q :=
  match v with
  | VNone => Raise
  | VBool b => Ok (if b then 1%Q else 0%Q)
  | VInt z => Ok (inject_Z z)
  | VFloat q => Ok q
  | VStr s => match float_of_str s with Some q => Ok q | None => Raise end
  | VList _ => Raise
  end.

(** *** [str.format] with keyword arguments *)

(** The pieces of a format string: a literal character or a replacement
    field (the text between its braces). *)
Inductive piece : Type :=
| Lit (c : ascii)
| Field (body : string).

(** The scanner's state, after CPython's [MarkupIterator]: in literal
    text; just after an opening or a closing brace; in a field name; in
    an index of a field name; just after the [!] of a conversion and
    after its character; in a format specification nested [depth] deep. *)
Inductive scan_state : Type :=
| SText
| SOpen
| SClose
| SName (acc : string)
| SIndex (acc : string)
| SBang (acc : string)
| SConv (acc : string)
| SSpec (depth : nat) (acc : string).

Definition snoc (acc : string) (c : ascii) : string := acc +:+ String c EmptyString.

Fixpoint scan (st : scan_state) (s : string) : option (list piece) :=
  match s with
  | EmptyString => match st with SText => Some [] | _ => None end
  | String c s' =>
      let lbrace := Ascii.eqb c "{"%char in
      let rbrace := Ascii.eqb c "}"%char in
      let name_char (acc : string) :=
        if lbrace then None
        else if rbrace then cons (Field acc) <$> scan SText s'
        else if Ascii.eqb c "["%char then scan (SIndex (snoc acc c)) s'
        else if Ascii.eqb c "!"%char then scan (SBang (snoc acc c)) s'
        else if Ascii.eqb c ":"%char then scan (SSpec 0 (snoc acc c)) s'
        else scan (SName (snoc acc c)) s' in
      match st with
      | SText =>
          if lbrace then scan SOpen s'
          else if rbrace then scan SClose s'
          else cons (Lit c) <$> scan SText s'
      | SOpen =>
          if lbrace then cons (Lit c) <$> scan SText s'
          else name_char EmptyString
      | SClose =>
          if rbrace then cons (Lit c) <$> scan SText s' else None
      | SName acc => name_char acc
      | SIndex acc =>
          if Ascii.eqb c "]"%char then scan (SName (snoc acc c)) s'
          else scan (SIndex (snoc acc c)) s'
      | SBang acc => scan (SConv (snoc acc c)) s'
      | SConv acc =>
          if rbrace then cons (Field acc) <$> scan SText s'
          else if Ascii.eqb c ":"%char then scan (SSpec 0 (snoc acc c)) s'
          else None
      | SSpec depth acc =>
          if lbrace then scan (SSpec (S depth) (snoc acc c)) s'
          else if rbrace then
            match depth with
            | O => cons (Field acc) <$> scan SText s'
            | S d => scan (SSpec d (snoc acc c)) s'
            end
          else scan (SSpec depth (snoc acc c)) s'
      end
  end.

Definition parse_format (tpl : string) : option (list piece) := scan SText tpl.

(** The argument name of a field: its text up to the first [.], [[],
    [!] or [:]. *)
Fixpoint arg_name (body : string) : string :=
  match body with
  | EmptyString => EmptyString
  | String c s' =>
      if Ascii.eqb c "."%char || Ascii.eqb c "["%char
         || Ascii.eqb c "!"%char || Ascii.eqb c ":"%char
      then EmptyString
      else String c (arg_name s')
  end.

(** One replacement field against the keyword arguments [kw].  An empty
    or numeric name is positional, and [format] gets no positional
    argument; a name that is not a key raises [KeyError]. *)
Definition render_field `{PyRuntime} (kw : gmap string pyval) (body : string) : result string :=
  let name := arg_name body in
  let tail := PyStr.drop (String.length name) body in
  if all_digits name then Raise
  else
    match kw !! name with
    | None => Raise
    | Some v => if String.eqb tail "" then Ok (str v) else format_ext kw v tail
    end.

Fixpoint render_pieces `{PyRuntime} (kw : gmap string pyval) (ps : list piece) : result string :=
  match ps with
  | [] => Ok EmptyString
  | Lit c :: ps' => r ← render_pieces kw ps'; Ok (String c r)
  | Field body :: ps' =>
      f ← render_field kw body;
      r ← render_pieces kw ps';
      Ok (f +:+ r)
  end.

(** [tpl.format] applied to the keyword arguments [kw] *)
Definition format `{PyRuntime} (tpl : string) (kw : gmap string pyval) : result string :=
  match parse_format tpl with
  | None => Raise
  | Some ps => render_pieces kw ps
  end.

(** [int(s)] on the signed runs of digits (with surrounding white
    space); digit separators and other bases are outside the modelled
    fragment. *)
Definition int_of_str (s : string) : option Z :=
  let unsigned (d : string) :=
    if all_digits d && negb (String.eqb d "") then Some (PyStr.int_of_digits d) else None in
  match PyStr.strip s with
  | String "-" d => Z.opp <$> unsigned d
  | String "+" d => unsigned d
  | d => unsigned d
  end.

(** [int(v)]: a float is truncated toward zero. *)
Definition to_int (v : pyval) : result Z :=
  match v with
  | VNone => Raise
  | VBool b => Ok (if b then 1 else 0)
  | VInt z => Ok z
  | VFloat q => Ok (Z.quot (Qnum q) (Z.pos (Qden q)))
  | VStr s => match int_of_str s with Some z => Ok z | None => Raise end
  | VList _ => Raise
  end.

End Py.

(** ** JSON values

    What [json.load] returns: the rule object of the event-driven engine
    and the expected values of its conditions.  A number is a rational,
    as a float is; a dictionary is the list of its entries, in their
    order and with a key once. *)

#[warnings="-register-all"]
Inductive json : Type :=
| JNull
| JBool (b : bool)
| JNum (q : Q)
| JStr (s : string)
| JList (l : list json)
| JDict (d : list (string * json)).

Module Json.

(** [d.get(k)] *)
Definition get (d : list (string * json)) (k : string) : option json :=
  snd <$> List.find (fun kv => String.eqb (fst kv) k) d.

(** [bool(v)] *)
Definition truthy (v : json) : bool :=
  match v with
  | JNull => false
  | JBool b => b
  | JNum q => negb (Qeq_bool q 0)
  | JStr s => negb (String.eqb s "")
  | JList l => match l with [] => false | _ => true end
  | JDict d => match d with [] => false | _ => true end
  end.

(** [float(v)]; [None] when it raises. *)
Definition to_float (v : json) : option Q :=
  match v with
  | JBool b => Some (if b then 1%Q else 0%Q)
  | JNum q => Some q
  | JStr s => Py.float_of_str s
  | JNull | JList _ | JDict _ => None
  end.

(** [a == b]: [None] equals itself only, a boolean is the number 0 or
    1, lists are equal item by item, dictionaries entry by entry
    whatever their order. *)
Fixpoint eqb (a b : json) : bool :=
  match a, b with
  | JNull, JNull => true
  | JBool x, JBool y => Bool.eqb x y
  | JBool x, JNum q => Qeq_bool (if x then 1 else 0) q
  | JNum q, JBool x => Qeq_bool q (if x then 1 else 0)
  | JNum p, JNum q => Qeq_bool p q
  | JStr s, JStr t => String.eqb s t
  | JList l, JList m =>
      (fix items (l m : list json) : bool :=
         match l, m with
         | [], [] => true
         | x :: l', y :: m' => eqb x y && items l' m'
         | _, _ => false
         end) l m
  | JDict d, JDict e =>
      (length d =? length e)%nat
      && (fix entries (d : list (string * json)) : bool :=
            match d with
            | [] => true
            | (k, v) :: d' =>
                match get e k with
                | Some w => eqb v w && entries d'
                | None => false
                end
            end) d
  | _, _ => false
  end.

End Json.

(** ** [LLM_Rules_Engine.py] *)

Module LLM.

Inductive ConditionType : Type :=
| RISK_LEVEL | TIME_BASED | STATUS | LANGUAGE | APPOINTMENT_TYPE | LOCATION | PRACTICE.

Inductive ActionType : Type := SMS | EMAIL | CALL.

Record ParsedCondition : Type := {
  cond_type : ConditionType;
  field : string;
  operator : string;
  value : pyval;
  confidence : Q }.

(** [ParsedAction.template] is a string, or for an e-mail the dictionary
    with the keys [subject] and [body]. *)
Inductive Template : Type :=
| TStr (s : string)
| TDict (subject body : string).

Record ParsedAction : Type := {
  action_type : ActionType;
  template : Template;
  custom_message : option string;
  subject : option string }.

(** A rendered action: the dictionary with [type], [to] and the texts. *)
Inductive Rendered : Type :=
| RSms (to : pyval) (message : string)
| REmail (to : pyval) (subject body : string)
| RCall (to : pyval) (script : string).

Record RuleMatch : Type := {
  appointment_id : string;
  match_patient_id : pyval;
  match_confidence : Q;
  triggered_actions : list Rendered }.

(** The dictionary [semantic_parse] returns. *)
Record ParsedRule : Type := {
  conditions : list ParsedCondition;
  actions : list ParsedAction;
  original_text : string;
  rule_confidence : Q }.

Definition nl : string := String (ascii_of_nat 10) EmptyString.

(** *** [SemanticRuleParser] *)

Import Re.

(** [if\s+(.+?)\s+then\s+(.+)] *)
Definition if_then_re : regex :=
  RCat [RStr "if"; RPlus PyStr.is_space; RGroup (RPlusLazy dot);
        RPlus PyStr.is_space; RStr "then"; RPlus PyStr.is_space; RGroup (RPlus dot)].

(** [within (\d+) hours?] *)
Definition within_re : regex :=
  RCat [RStr "within "; RGroup (RPlus PyStr.is_digit); RStr " hour"; ROpt (RChar "s")].

(** [(\d+) hours? (?:or less|before)] *)
Definition or_less_re : regex :=
  RCat [RGroup (RPlus PyStr.is_digit); RStr " hour"; ROpt (RChar "s"); RChar " ";
        RAlt (RStr "or less") (RStr "before")].

(** [appointment (?:is )?tomorrow] and [appointment (?:is )?soon] *)
Definition tomorrow_re : regex :=
  RCat [RStr "appointment "; ROpt (RStr "is "); RStr "tomorrow"].

Definition soon_re : regex :=
  RCat [RStr "appointment "; ROpt (RStr "is "); RStr "soon"].

(** The entries of [time_patterns]: a pattern whose group is the hour
    count, or a pattern with a fixed hour count. *)
Inductive time_pattern : Type :=
| Counted (r : regex)
| Fixed (r : regex) (hours : Z).

Definition time_patterns : list time_pattern :=
  [Counted within_re; Counted or_less_re; Fixed tomorrow_re 24; Fixed soon_re 48].

Definition mk_cond (t : ConditionType) (f op : string) (v : pyval) (c : Q) : ParsedCondition :=
  {| cond_type := t; field := f; operator := op; value := v; confidence := c |}.

Definition risk_conditions (text : string) : list ParsedCondition :=
  if PyStr.contains_any ["risk"; "likelihood"] text then
    flat_map (fun level =>
      if PyStr.contains level text then
        [mk_cond RISK_LEVEL "no_show_risk" "equals" (VStr level)
           (if PyStr.contains ("risk is " +:+ level) text then 9 # 10 else 7 # 10)]
      else [])
      ["high"; "medium"; "low"]
  else [].

Definition time_conditions (text : string) : list ParsedCondition :=
  flat_map (fun pattern =>
    match pattern with
    | Fixed r hours =>
        if matches false r text
        then [mk_cond TIME_BASED "hours_until" "<=" (VInt hours) (8 # 10)]
        else []
    | Counted r =>
        match search false r text with
        | Some m =>
            [mk_cond TIME_BASED "hours_until" "<="
               (VInt (PyStr.int_of_digits (group 1 m))) (9 # 10)]
        | None => []
        end
    end) time_patterns.

Definition intake_conditions (text : string) : list ParsedCondition :=
  if PyStr.contains "intake" text then
    if PyStr.contains_any ["incomplete"; "missing"; "not"] text then
      [mk_cond STATUS "intake_status" "equals" (VStr "INCOMPLETE") (8 # 10)]
    else if PyStr.contains "complete" text then
      [mk_cond STATUS "intake_status" "equals" (VStr "COMPLETE") (8 # 10)]
    else []
  else [].

Definition language_conditions (text : string) : list ParsedCondition :=
  if PyStr.contains "spanish" text || PyStr.contains "es" text then
    [mk_cond LANGUAGE "patient_language" "equals" (VStr "es") (9 # 10)]
  else if PyStr.contains "english" text || PyStr.contains "en" text then
    [mk_cond LANGUAGE "patient_language" "equals" (VStr "en") (9 # 10)]
  else [].

Definition appointment_types : list string :=
  ["oncology"; "ortho"; "mri"; "ob/gyn"; "pt session"].

Definition appointment_type_conditions (text : string) : list ParsedCondition :=
  flat_map (fun apt_type =>
    if PyStr.contains (PyStr.lower apt_type) text then
      [mk_cond APPOINTMENT_TYPE "appointment_type" "contains"
         (VStr (PyStr.title apt_type)) (8 # 10)]
    else []) appointment_types.

Definition _parse_conditions_semantic (text : string) : list ParsedCondition :=
  risk_conditions text ++ time_conditions text ++ intake_conditions text
  ++ language_conditions text ++ appointment_type_conditions text.

(** The table [base_templates]. *)
Inductive tone : Type := Urgent | Reminder | Spanish | Default.

Definition base_templates (a : ActionType) (t : tone) : string :=
  match a, t with
  | SMS, Urgent => "URGENT: {patient_first_name}, please {action_needed} for your {appointment_type} appointment."
  | SMS, Reminder => "Hi {patient_first_name}, reminder about your {appointment_type} appointment at {practice_name}."
  | SMS, Spanish => "Hola {patient_first_name}, recordatorio sobre su cita de {appointment_type}."
  | SMS, Default => "Hi {patient_first_name}, this is a reminder about your {appointment_type} appointment."
  | EMAIL, Urgent =>
      "Dear {patient_first_name}," +:+ nl +:+ nl
      +:+ "This is an urgent reminder about your {appointment_type} appointment." +:+ nl +:+ nl
      +:+ "Please contact us immediately." +:+ nl +:+ nl
      +:+ "Best regards," +:+ nl +:+ "{practice_name}"
  | EMAIL, Reminder =>
      "Dear {patient_first_name}," +:+ nl +:+ nl
      +:+ "This is a friendly reminder about your upcoming {appointment_type} appointment." +:+ nl +:+ nl
      +:+ "Thank you," +:+ nl +:+ "{practice_name}"
  | EMAIL, Spanish =>
      "Estimado/a {patient_first_name}," +:+ nl +:+ nl
      +:+ "Este es un recordatorio sobre su cita de {appointment_type}." +:+ nl +:+ nl
      +:+ "Gracias," +:+ nl +:+ "{practice_name}"
  | EMAIL, Default =>
      "Dear {patient_first_name}," +:+ nl +:+ nl
      +:+ "This is a reminder about your {appointment_type} appointment." +:+ nl +:+ nl
      +:+ "Best regards," +:+ nl +:+ "{practice_name}"
  | CALL, Urgent => "Hi {patient_first_name}, this is {practice_name} calling urgently about your {appointment_type} appointment."
  | CALL, Reminder => "Hi {patient_first_name}, this is {practice_name} calling to remind you about your {appointment_type} appointment."
  | CALL, Spanish => "Hola {patient_first_name}, le llama {practice_name} sobre su cita de {appointment_type}."
  | CALL, Default => "Hi {patient_first_name}, this is {practice_name} calling about your {appointment_type} appointment."
  end.

(** The word [espanol] with its tilde, in UTF-8. *)
Definition espanol : string :=
  "espa" +:+ String (ascii_of_nat 195) (String (ascii_of_nat 177) "ol").

Definition _generate_smart_template (a : ActionType) (context : string) : string :=
  let template_type :=
    if PyStr.contains_any ["urgent"; "important"; "asap"] context then Urgent
    else if PyStr.contains_any ["spanish"; espanol] context then Spanish
    else if PyStr.contains_any ["reminder"; "remind"] context then Reminder
    else Default in
  base_templates a template_type.

(** A keyword, a space, a quote, the captured run of characters that are
    not quotes, and a quote: the patterns of the custom message
    ([saying], [message], [with]) and of the subject. *)
Definition quoted_after (keyword : string) : regex :=
  RCat [RStr keyword; RChar " "; RSet quote; RGroup (RPlus not_quote); RSet quote].

Definition _extract_custom_message (text : string) : option string :=
  let try_pattern (keyword : string) :=
    group 1 <$> search false (quoted_after keyword) text in
  match try_pattern "saying" with
  | Some m => Some m
  | None =>
      match try_pattern "message" with
      | Some m => Some m
      | None => try_pattern "with"
      end
  end.

Definition _extract_subject (text : string) : option string :=
  group 1 <$> search false (quoted_after "subject") text.

(** [a or b] on an optional string: a missing or empty [a] yields [b]. *)
Definition or_else (a : option string) (b : string) : string :=
  match a with
  | Some s => if String.eqb s "" then b else s
  | None => b
  end.

Definition _parse_actions_semantic (text : string) : list ParsedAction :=
  (if PyStr.contains_any ["sms"; "text"; "message"] text then
     let custom_msg := _extract_custom_message text in
     [{| action_type := SMS;
         template := TStr (or_else custom_msg (_generate_smart_template SMS text));
         custom_message := custom_msg; subject := None |}]
   else [])
  ++
  (if PyStr.contains "email" text then
     let custom_msg := _extract_custom_message text in
     let subj := or_else (_extract_subject text) "Appointment Reminder" in
     [{| action_type := EMAIL;
         template := TDict subj (or_else custom_msg (_generate_smart_template EMAIL text));
         custom_message := custom_msg; subject := Some subj |}]
   else [])
  ++
  (if PyStr.contains_any ["call"; "phone"] text then
     let custom_msg := _extract_custom_message text in
     [{| action_type := CALL;
         template := TStr (or_else custom_msg (_generate_smart_template CALL text));
         custom_message := custom_msg; subject := None |}]
   else []).

(** [min(qs)] of a non-empty list, as Python computes it: the first
    minimal element. *)
Definition py_min (q : Q) (qs : list Q) : Q :=
  fold_left (fun m x => if Qle_bool m x then m else x) qs q.

(** [semantic_parse]: [None] is the parse failure. *)
Definition semantic_parse (rule_text : string) : option ParsedRule :=
  let rule_text := PyStr.lower (PyStr.strip rule_text) in
  match search false if_then_re rule_text with
  | None => None
  | Some if_then_match =>
      let conditions_text := group 1 if_then_match in
      let actions_text := group 2 if_then_match in
      let conds := _parse_conditions_semantic conditions_text in
      let acts := _parse_actions_semantic actions_text in
      Some {| conditions := conds;
              actions := acts;
              original_text := rule_text;
              rule_confidence :=
                match map confidence conds with
                | [] => 5 # 10
                | q :: qs => py_min q qs
                end |}
  end.

(** *** [RuleEngine] *)

(** [data_cache] after a successful [load_data].  The appointments keep
    the insertion order of the dictionary, which [evaluate_rule] iterates
    (a dictionary holds a key once); the other dictionaries are only
    looked up. *)
Record DataCache : Type := {
  practices : gmap string Practice;
  patients : gmap string Patient;
  appointments : list (string * Appointment);
  intakes : gmap string Intake;
  events : list Event }.

(** [d.get(k)] on the ordered dictionary of appointments. *)
Definition appointments_get (d : list (string * Appointment)) (k : string) : option Appointment :=
  snd <$> List.find (fun kv => String.eqb (fst kv) k) d.

Record RuleEngine : Type := {
  data_cache : DataCache;
  rule_cache : gmap string (list RuleMatch) }.

Definition opt_eqb (o : option string) (s : string) : bool :=
  match o with Some x => String.eqb x s | None => false end.

Definition get_or_none (context : gmap string pyval) (k : string) : pyval :=
  default VNone (context !! k).

(** [v in names] for an optional string [v]. *)
Definition opt_in (o : option string) (names : list string) : bool :=
  match o with Some x => existsb (String.eqb x) names | None => false end.

(** [l[:limit]] *)
Definition slice_to {A : Type} (limit : Z) (l : list A) : list A :=
  if 0 <=? limit then take (Z.to_nat limit) l
  else take (length l - Z.to_nat (- limit)) l.

(** [l.sort(key=lambda x: x.confidence, reverse=True)].  Python's sort is
    stable, also with [reverse=True]; the result of a stable sort is
    determined by the list and the key ([stable_sort_unique] below), so
    it is written here as the insertion sort that puts an element before
    the elements of the sorted tail that do not have a greater key. *)
Fixpoint insert_desc (m : RuleMatch) (l : list RuleMatch) : list RuleMatch :=
  match l with
  | [] => [m]
  | y :: l' =>
      if Qle_bool (match_confidence y) (match_confidence m)
      then m :: y :: l'
      else y :: insert_desc m l'
  end.

Fixpoint sort_desc (l : list RuleMatch) : list RuleMatch :=
  match l with
  | [] => []
  | m :: l' => insert_desc m (sort_desc l')
  end.

(** The cache key, the f-string of the text, an underscore and the limit. *)
Definition cache_key (rule_text : string) (limit : Z) : string :=
  rule_text +:+ "_" +:+ PyStr.of_Z limit.

Definition current_time : string := "2025-09-10T12:00:00Z".

Section Engine.
Context `{PyRuntime}.

(** [max(0, x)]: the integer [0] unless the float is greater. *)
Definition max0 (x : Q) : pyval :=
  if Qle_bool x 0 then VInt 0 else VFloat x.

(** The first [try] block of [_build_context]: any exception (a missing
    or unparsable time stamp, an aware and a naive datetime) yields 24. *)
Definition hours_until_of (current_time : string) (appt : Appointment) : pyval :=
  match fromisoformat (PyStr.replace "Z" "" current_time),
        start_time appt ≫= fromisoformat with
  | Some current_dt, Some appt_dt =>
      match seconds_between appt_dt current_dt with
      | Some secs => max0 (secs / 3600)
      | None => VInt 24
      end
  | _, _ => VInt 24
  end.

Definition formatted_time_of (appt : Appointment) : string :=
  match start_time appt ≫= fromisoformat with
  | Some appt_dt => strftime_short appt_dt
  | None => "your appointment time"
  end.

Definition related_events_of (dc : DataCache) (appt_id : string) (appt : Appointment)
  : list Event :=
  List.filter (fun event =>
    let appt_ref := payload event ≫= payload_appointment_id in
    let patient_ref := payload event ≫= payload_patient_id in
    opt_eqb appt_ref appt_id || opt_eqb patient_ref (appt_patient_id appt))
    (events dc).

Definition pref (p : Patient) (channel : CommPrefs -> option bool) : pyval :=
  VBool (default false (comm_prefs p ≫= channel)).

Definition _build_context (dc : DataCache) (appt_id current_time : string)
  : option (gmap string pyval) :=
  match appointments_get (appointments dc) appt_id with
  | None => None
  | Some appt =>
      let patient := patients dc !! appt_patient_id appt in
      let practice := practices dc !! appt_practice_id appt in
      let intake := intakes dc !! appt_id in
      let related_events := related_events_of dc appt_id appt in
      let of_patient (f : Patient -> pyval) (dflt : pyval) :=
        match patient with Some p => f p | None => dflt end in
      let of_practice (f : Practice -> option string) :=
        match practice with Some p => of_opt_str (f p) | None => VStr "" end in
      let of_intake (f : Intake -> option string) (dflt : string) :=
        VStr (default dflt (intake ≫= f)) in
      Some (list_to_map [
        ("appointment_id", VStr appt_id);
        ("patient_id", of_patient (fun p => VStr (patient_id p)) VNone);
        ("patient_first_name", of_patient (fun p => of_opt_str (first_name p)) (VStr ""));
        ("patient_last_name", of_patient (fun p => of_opt_str (last_name p)) (VStr ""));
        ("patient_phone", of_patient (fun p => of_opt_str (patient_phone p)) (VStr ""));
        ("patient_email", of_patient (fun p => of_opt_str (patient_email p)) (VStr ""));
        ("patient_language", of_patient (fun p => of_opt_str (patient_language p)) (VStr ""));
        ("patient_dnc", of_patient (fun p => VBool (default false (dnc p))) (VBool false));
        ("patient_comm_sms", of_patient (fun p => pref p pref_sms) (VBool false));
        ("patient_comm_email", of_patient (fun p => pref p pref_email) (VBool false));
        ("patient_comm_call", of_patient (fun p => pref p pref_call) (VBool false));
        ("practice_name", of_practice practice_name);
        ("practice_timezone", of_practice practice_timezone);
        ("practice_phone", of_practice default_sender_phone);
        ("practice_email", of_practice reply_to_email);
        ("practice_domain", of_practice practice_domain);
        ("appointment_type", VStr (default "" (appt_type appt)));
        ("appointment_status", VStr (default "" (appt_status appt)));
        ("appointment_location", VStr (default "" (appt_location appt)));
        ("appointment_start_time", VStr (default "" (start_time appt)));
        ("appointment_formatted_time", VStr (formatted_time_of appt));
        ("no_show_risk", VStr (default "" (no_show_risk appt)));
        ("intake_status", of_intake intake_status "INCOMPLETE");
        ("intake_last_updated", of_intake intake_last_updated "");
        ("intake_link", of_intake intake_link "");
        ("hours_until", hours_until_of current_time appt);
        ("related_events", VList related_events);
        ("recent_events",
           VList (List.filter (fun e =>
                    opt_in (event_type e)
                      ["call.missed"; "intake.updated"; "appointment.updated"])
                    related_events))])
  end.

(** [_evaluate_condition]: the two [float] calls are not guarded. *)
Definition _evaluate_condition (condition : ParsedCondition) (context : gmap string pyval)
  : result bool :=
  match context !! field condition with
  | None | Some VNone => Ok false
  | Some context_value =>
      if String.eqb (operator condition) "equals" then
        Ok (String.eqb (PyStr.lower (Py.str context_value))
                       (PyStr.lower (Py.str (value condition))))
      else if String.eqb (operator condition) "contains" then
        Ok (PyStr.contains (PyStr.lower (Py.str (value condition)))
                           (PyStr.lower (Py.str context_value)))
      else if String.eqb (operator condition) "<=" then
        a ← Py.to_float context_value;
        b ← Py.to_float (value condition);
        Ok (Qle_bool a b)
      else if String.eqb (operator condition) ">=" then
        a ← Py.to_float context_value;
        b ← Py.to_float (value condition);
        Ok (Qle_bool b a)
      else Ok false
  end.

(** The body of the [try] in [_generate_actions], for one action. *)
Definition render_action (context : gmap string pyval) (action : ParsedAction)
  : result Rendered :=
  match action_type action with
  | SMS =>
      match template action with
      | TStr t =>
          message ← Py.format t context;
          Ok (RSms (get_or_none context "patient_phone") message)
      | TDict _ _ => Raise
      end
  | EMAIL =>
      match template action with
      | TDict s b =>
          subj ← Py.format s context;
          body ← Py.format b context;
          Ok (REmail (get_or_none context "patient_email") subj body)
      | TStr t =>
          let subj := or_else (subject action) "Appointment Reminder" in
          body ← Py.format t context;
          Ok (REmail (get_or_none context "patient_email") subj body)
      end
  | CALL =>
      match template action with
      | TStr t =>
          script ← Py.format t context;
          Ok (RCall (get_or_none context "patient_phone") script)
      | TDict _ _ => Raise
      end
  end.

(** The loop of [_generate_actions]: an action whose rendering raises is
    skipped by [continue]. *)
Fixpoint render_each (context : gmap string pyval) (actions : list ParsedAction)
  : list Rendered :=
  match actions with
  | [] => []
  | action :: rest =>
      match render_action context action with
      | Ok r => r :: render_each context rest
      | Raise => render_each context rest
      end
  end.

Definition _generate_actions (actions : list ParsedAction) (context : gmap string pyval)
  : list Rendered :=
  if Py.truthy (default (VBool false) (context !! "patient_dnc")) then []
  else render_each context actions.

(** The loop of [_evaluate_appointment] over the conditions, with its
    two accumulators. *)
Fixpoint score_conditions (context : gmap string pyval) (conds : list ParsedCondition)
         (total_confidence : Q) (matched_conditions : nat) : result (Q * nat) :=
  match conds with
  | [] => Ok (total_confidence, matched_conditions)
  | condition :: rest =>
      b ← _evaluate_condition condition context;
      if b : bool
      then score_conditions context rest
             (total_confidence + confidence condition) (S matched_conditions)
      else score_conditions context rest total_confidence matched_conditions
  end.

Definition count_q (n : nat) : Q := inject_Z (Z.of_nat n).

Definition _evaluate_appointment (dc : DataCache) (appt_id : string)
           (parsed_rule : ParsedRule) (current_time : string)
  : result (option RuleMatch) :=
  match _build_context dc appt_id current_time with
  | None => Ok None
  | Some context =>
      '(total_confidence, matched_conditions) ←
         score_conditions context (conditions parsed_rule) 0 0;
      if Nat.eqb matched_conditions 0 then Ok None
      else
        let n := count_q (length (conditions parsed_rule)) in
        let conf := ((total_confidence / n) * (count_q matched_conditions / n))%Q in
        let acts := _generate_actions (actions parsed_rule) context in
        Ok (Some {| appointment_id := appt_id;
                    match_patient_id := get_or_none context "patient_id";
                    match_confidence := conf;
                    triggered_actions := acts |})
  end.

(** The loop of [evaluate_rule] over the futures, in submission order:
    a result that raises propagates, a match is appended, and the loop
    stops once [2 * limit] matches are collected. *)
Fixpoint collect_matches (dc : DataCache) (parsed_rule : ParsedRule) (limit : Z)
         (ids : list string) (matches : list RuleMatch) : result (list RuleMatch) :=
  match ids with
  | [] => Ok matches
  | appt_id :: rest =>
      r ← _evaluate_appointment dc appt_id parsed_rule current_time;
      match r with
      | Some m =>
          let matches := matches ++ [m] in
          if limit * 2 <=? Z.of_nat (length matches) then Ok matches
          else collect_matches dc parsed_rule limit rest matches
      | None => collect_matches dc parsed_rule limit rest matches
      end
  end.

(** [evaluate_rule] past the cache lookup. *)
Definition evaluate_uncached (dc : DataCache) (rule_text : string) (limit : Z)
  : result (option (list RuleMatch)) :=
  match semantic_parse rule_text with
  | None => Ok None
  | Some parsed_rule =>
      matches ← collect_matches dc parsed_rule limit (map fst (appointments dc)) [];
      Ok (Some (slice_to limit (sort_desc matches)))
  end.

(** [evaluate_rule]: the returned list and the engine with its cache. *)
Definition evaluate_rule (self : RuleEngine) (rule_text : string) (limit : Z)
  : result (list RuleMatch * RuleEngine) :=
  let key := cache_key rule_text limit in
  match rule_cache self !! key with
  | Some cached => Ok (cached, self)
  | None =>
      r ← evaluate_uncached (data_cache self) rule_text limit;
      match r with
      | None => Ok ([], self)
      | Some top =>
          Ok (top, {| data_cache := data_cache self;
                      rule_cache := <[key := top]> (rule_cache self) |})
      end
  end.

End Engine.

End LLM.

(** ** [syntax_rules_engine.py] *)

Module Syntax.

Import Re.

(** A condition value: a string, or the dictionary with one comparison
    operator and its bound. *)
Inductive cond_value : Type :=
| CStr (s : string)
| CCmp (op : string) (bound : Z).

(** A template: a string, or the dictionary of an e-mail. *)
Inductive Template : Type :=
| TStr (s : string)
| TDict (subject body : string).

(** The dictionary [parse_rule] returns.  [conditions] and [templates]
    are dictionaries in insertion order. *)
Record Rule : Type := {
  rule_id : string;
  conditions : list (string * cond_value);
  actions : list string;
  templates : list (string * Template);
  original_text : string }.

(** [d[k] = v] on a dictionary in insertion order: an existing key keeps
    its place. *)
Fixpoint dict_set {V : Type} (d : list (string * V)) (k : string) (v : V) : list (string * V) :=
  match d with
  | [] => [(k, v)]
  | (k', v') :: d' => if String.eqb k' k then (k, v) :: d' else (k', v') :: dict_set d' k v
  end.

Definition dict_get {V : Type} (d : list (string * V)) (k : string) : option V :=
  snd <$> List.find (fun kv => String.eqb (fst kv) k) d.

(** *** [simple_datetime_diff] *)

Section Clock.
Context `{PyRuntime}.

Definition simple_datetime_diff (current_str appt_str : string) : pyval :=
  let current_clean :=
    PyStr.split_head "-" (PyStr.split_head "+" (PyStr.replace "Z" "" current_str)) in
  if negb (PyStr.contains "T" current_clean) then VInt 24
  else
    match fromisoformat current_clean with
    | None => VInt 24
    | Some current_dt =>
        if negb (PyStr.contains "T" appt_str) then VInt 24
        else
          match fromisoformat appt_str with
          | None => VInt 24
          | Some appt_dt =>
              match seconds_between appt_dt current_dt with
              | Some secs => LLM.max0 (secs / 3600)
              | None => VInt 24
              end
          end
    end.
End Clock.

(** The reference time stamp of [main]. *)
Definition current_time : string := "2025-09-10T12:00:00Z".

(** *** [NLPRuleParser] *)

Definition alt (ws : list string) : regex :=
  match ws with
  | [] => REps
  | w :: ws' => fold_left (fun r w' => RAlt r (RStr w')) ws' (RStr w)
  end.

Definition digits : regex := RGroup (RPlus PyStr.is_digit).
Definition hours : regex := RSeq (RStr " hour") (ROpt (RChar "s")).
Definition rest_of_line : regex := RGroup (RPlus dot).
Definition levels : regex := RGroup (alt ["high"; "medium"; "low"]).
Definition languages : regex := RGroup (alt ["english"; "spanish"; "en"; "es"]).

Definition const (v : cond_value) : string -> cond_value := fun _ => v.
Definition at_most (x : string) : cond_value := CCmp "<=" (PyStr.int_of_digits x).
Definition lang_code (x : string) : cond_value :=
  CStr (if (2 <? String.length x)%nat then PyStr.take 2 x else x).
Definition stripped (x : string) : cond_value := CStr (PyStr.strip x).
Definition uppered (x : string) : cond_value := CStr (PyStr.upper x).

(** The table [condition_patterns], in its order. *)
Definition condition_patterns : list (regex * string * (string -> cond_value)) :=
  [ (RCat [RStr "no"; ROpt (RSet dot); RStr "show risk is "; levels], "no_show_risk", CStr);
    (RStr "high risk", "no_show_risk", const (CStr "high"));
    (RStr "medium risk", "no_show_risk", const (CStr "medium"));
    (RStr "low risk", "no_show_risk", const (CStr "low"));
    (RCat [RStr "risk is "; levels], "no_show_risk", CStr);

    (RCat [RStr "appointment is within "; digits; hours], "hours_until", at_most);
    (RCat [RStr "within "; digits; hours], "hours_until", at_most);
    (RCat [digits; hours; RChar " "; ROpt (RStr "or less ");
           alt ["until"; "before"; "away"]], "hours_until", at_most);
    (RCat [RStr "appointment "; ROpt (RStr "is "); ROpt (RStr "in "); digits; hours],
       "hours_until", at_most);
    (RCat [RStr "appointment "; ROpt (RStr "is "); RStr "tomorrow"],
       "hours_until", const (CCmp "<=" 24));
    (RCat [RStr "appointment "; ROpt (RStr "is "); RStr "soon"],
       "hours_until", const (CCmp "<=" 48));
    (RCat [RStr "less than "; digits; hours], "hours_until", at_most);

    (RCat [RStr "intake is "; RGroup (alt ["incomplete"; "complete"])], "intake_status", uppered);
    (RCat [RStr "intake "; ROpt (RStr "form "); ROpt (RStr "not ");
           alt ["filled"; "submitted"; "completed"]], "intake_status", const (CStr "INCOMPLETE"));
    (RCat [RStr "intake "; ROpt (RStr "form "); ROpt (RStr "is "); RStr "incomplete"],
       "intake_status", const (CStr "INCOMPLETE"));
    (RStr "incomplete intake", "intake_status", const (CStr "INCOMPLETE"));
    (RStr "missing intake", "intake_status", const (CStr "INCOMPLETE"));
    (RCat [RStr "intake "; ROpt (RStr "form "); ROpt (RStr "is "); RStr "complete"],
       "intake_status", const (CStr "COMPLETE"));
    (RStr "completed intake", "intake_status", const (CStr "COMPLETE"));

    (RCat [RStr "patient speaks "; languages], "patient_language", lang_code);
    (RCat [alt ["speaks"; "language is"]; RChar " "; languages], "patient_language", lang_code);
    (RCat [RStr "spanish"; ROpt (RSet dot); RStr "speaking"], "patient_language", const (CStr "es"));
    (RCat [RStr "english"; ROpt (RSet dot); RStr "speaking"], "patient_language", const (CStr "en"));

    (RCat [RStr "appointment type "; alt ["is "; "contains "]; rest_of_line],
       "appointment_type", stripped);
    (RCat [alt ["type is "; "type contains "]; rest_of_line], "appointment_type", stripped);
    (RStr "oncology", "appointment_type", const (CStr "Oncology"));
    (RStr "ortho", "appointment_type", const (CStr "Ortho"));
    (RStr "mri", "appointment_type", const (CStr "MRI"));

    (RCat [RStr "appointment status is "; RGroup (RPlus PyStr.is_word)],
       "appointment_status", uppered);
    (RCat [RStr "status is "; RGroup (RPlus PyStr.is_word)], "appointment_status", uppered);
    (RStr "scheduled appointment", "appointment_status", const (CStr "SCHEDULED"));
    (RStr "cancelled appointment", "appointment_status", const (CStr "CANCELLED"));
    (RStr "completed appointment", "appointment_status", const (CStr "COMPLETED"));

    (RCat [RStr "location is "; rest_of_line], "appointment_location", stripped);
    (RCat [RStr "in "; rest_of_line], "appointment_location", stripped);

    (RCat [RStr "practice "; alt ["is "; "name is "]; rest_of_line], "practice_name", stripped);
    (RCat [RStr "practice contains "; rest_of_line], "practice_name", stripped) ].

(** [re.finditer]: the successive matches, each search resuming where the
    previous match ended.  No pattern of the table matches the empty
    string, so every match consumes text and [fuel] = the length of the
    text suffices. *)
Fixpoint finditer (fuel : nat) (r : regex) (s : string) : list (list string * string) :=
  match fuel with
  | O => []
  | S fuel' =>
      match search false r s with
      | None => []
      | Some m => m :: finditer fuel' r (snd m)
      end
  end.

(** [extract_conditions]: every match of every pattern assigns its field. *)
Definition extract_conditions (text : string) : list (string * cond_value) :=
  let text_lower := PyStr.lower text in
  fold_left (fun conds '(pattern, fld, converter) =>
    fold_left (fun conds m =>
      dict_set conds fld (converter (match fst m with [] => "" | _ => group 1 m end)))
      (finditer (String.length text_lower) pattern text_lower) conds)
    condition_patterns [].

(** The table [action_patterns]. *)
Definition action_patterns : list (regex * string) :=
  [ (RAlt (RCat [RStr "send "; ROpt (RSeq (RChar "a") (RSeq (ROpt (RChar "n")) (RChar " "))); RStr "sms"])
          (RAlt (RCat [RStr "text "; alt ["them"; "patient"]]) (RStr "sms to patient")), "SMS");
    (RAlt (RCat [RStr "send "; ROpt (RSeq (RChar "a") (RSeq (ROpt (RChar "n")) (RChar " "))); RStr "email"])
          (RCat [RStr "email "; alt ["them"; "patient"]]), "EMAIL");
    (RAlt (RCat [RStr "call "; alt ["them"; "patient"]])
          (RCat [RStr "make "; ROpt (RStr "a "); RStr "call"]), "CALL") ].

Definition colon_or_space (c : ascii) : bool := Ascii.eqb c ":" || PyStr.is_space c.

Definition quoted : regex := RCat [RSet quote; RGroup (RPlus not_quote); RSet quote].

Definition extract_custom_message (text action_type : string) : option string :=
  let patterns :=
    [ RCat [RStr action_type; RPlus colon_or_space; quoted];
      RCat [RStr "saying "; quoted];
      RCat [RStr "message "; quoted];
      RCat [RStr "with message "; quoted] ] in
  List.fold_right (fun pattern later =>
    match search true pattern text with
    | Some m => Some (group 1 m)
    | None => later
    end) None patterns.

Definition extract_email_subject (text : string) : option string :=
  group 1 <$> search true (RCat [RStr "subject "; quoted]) text.

Definition extract_actions (text : string) : list string * list (string * Template) :=
  let text_lower := PyStr.lower text in
  fold_left (fun '(acts, tpls) '(pattern, action) =>
    if matches false pattern text_lower then
      let custom_msg := extract_custom_message text (PyStr.lower action) in
      let tpl :=
        if String.eqb action "SMS" then
          TStr (LLM.or_else custom_msg
            "Hi {patient_first_name}, this is a reminder about your {appointment_type} appointment.")
        else if String.eqb action "EMAIL" then
          TDict (LLM.or_else (extract_email_subject text) "Appointment Reminder")
                (LLM.or_else custom_msg (LLM.base_templates LLM.EMAIL LLM.Default))
        else
          TStr (LLM.or_else custom_msg
            "Hi {patient_first_name}, this is {practice_name} calling about your {appointment_type} appointment.") in
      (acts ++ [action], dict_set tpls action tpl)
    else (acts, tpls))
    action_patterns ([], []).

(** [^(\d+)\.\s*(.+)], matched at the start of the text. *)
Definition rule_id_re : regex :=
  RCat [RGroup (RPlus PyStr.is_digit); RChar "."; RStar PyStr.is_space; RGroup (RPlus dot)].

Definition if_then_patterns : list regex :=
  [ RCat [RStr "if"; RPlus PyStr.is_space; RGroup (RPlusLazy dot); RPlus PyStr.is_space;
          RStr "then"; RPlus PyStr.is_space; RGroup (RPlus dot)];
    RCat [RStr "when"; RPlus PyStr.is_space; RGroup (RPlusLazy dot); RPlus PyStr.is_space;
          RStr "then"; RPlus PyStr.is_space; RGroup (RPlus dot)];
    RCat [RStr "if"; RPlus PyStr.is_space; RGroup (RPlusLazy dot); RChar ",";
          RStar PyStr.is_space; RGroup (RPlus dot)] ].

(** [parse_rule]: [None] is the parse failure. *)
Definition parse_rule (rule_text : string) : option Rule :=
  let rule_text := PyStr.strip rule_text in
  let '(rid, rule_content) :=
    match rmatch_here false rule_id_re rule_text with
    | Some m => ("rule_" +:+ group 1 m, group 2 m)
    | None => ("user_rule", rule_text)
    end in
  let '(conditions_text, actions_text) :=
    List.fold_right (fun pattern later =>
      match search true pattern rule_content with
      | Some m => (PyStr.strip (group 1 m), PyStr.strip (group 2 m))
      | None => later
      end) ("", "") if_then_patterns in
  if String.eqb conditions_text "" || String.eqb actions_text "" then None
  else
    let conds := extract_conditions conditions_text in
    let '(acts, tpls) := extract_actions actions_text in
    match acts with
    | [] => None
    | _ =>
        Some {| rule_id := rid; conditions := conds; actions := acts;
                templates := tpls; original_text := rule_text |}
    end.

(** *** [evaluate_rule] *)

(** A context of this engine holds strings, numbers, booleans and [None]
    under the keys a condition can name. *)
Definition condition_holds (context : gmap string pyval) (key : string) (cv : cond_value) : bool :=
  match context !! key with
  | None | Some VNone => false
  | Some context_value =>
      match cv with
      | CCmp op bound =>
          let cmp (a b : Q) :=
            if String.eqb op "<=" then Qle_bool a b
            else if String.eqb op ">=" then Qle_bool b a
            else true in
          match context_value with
          | VInt z => cmp (inject_Z z) (inject_Z bound)
          | VBool b => cmp (if b then 1%Q else 0%Q) (inject_Z bound)
          | VFloat q => cmp q (inject_Z bound)
          | _ => negb (String.eqb op "<=" || String.eqb op ">=")
          end
      | CStr s =>
          match context_value with
          | VStr c =>
              PyStr.contains (PyStr.lower s) (PyStr.lower c)
              || String.eqb (PyStr.lower c) (PyStr.lower s)
          | _ => false
          end
      end
  end.

Definition evaluate_rule (rule : Rule) (context : gmap string pyval) : bool :=
  match conditions rule with
  | [] => true
  | conds => forallb (fun '(k, v) => condition_holds context k v) conds
  end.

(** *** [build_context]

    The context dictionary: its four record-valued entries
    ([appointment], [patient], [practice], [intake]) and its other
    entries.  No condition of [parse_rule] names one of the four. *)
Record Context : Type := {
  appointment : Appointment;
  patient : option Patient;
  practice : option Practice;
  (** [None] stands for the default, the dictionary with the one key
      [status] *)
  intake : option Intake;
  fields : gmap string pyval }.

Section Run.
Context `{PyRuntime}.

(** [build_context]: [Ok None] is the returned [None]; the subscript
    [appt['start_time']] raises on a missing key. *)
Definition build_context (appt_id current_time_str : string)
           (appointment_dict : list (string * Appointment))
           (patient_dict : gmap string Patient)
           (practice_dict : gmap string Practice)
           (intake_dict : gmap string Intake) : result (option Context) :=
  match dict_get appointment_dict appt_id with
  | None => Ok None
  | Some appt =>
      let patient := patient_dict !! appt_patient_id appt in
      let practice := practice_dict !! appt_practice_id appt in
      let intake := intake_dict !! appt_id in
      match start_time appt with
      | None => Raise
      | Some start =>
          let hours_until := simple_datetime_diff current_time_str start in
          let of_patient (f : Patient -> pyval) (dflt : pyval) :=
            match patient with Some p => f p | None => dflt end in
          let comm (channel : CommPrefs -> option bool) (p : Patient) :=
            of_opt_bool (comm_prefs p ≫= channel) in
          Ok (Some {|
            appointment := appt;
            patient := patient;
            practice := practice;
            intake := intake;
            fields := list_to_map [
              ("hours_until", hours_until);
              ("appointment_id", VStr (Data.appt_id appt));
              ("appointment_type", of_opt_str (appt_type appt));
              ("appointment_status", of_opt_str (appt_status appt));
              ("appointment_location", of_opt_str (appt_location appt));
              ("no_show_risk", of_opt_str (no_show_risk appt));
              ("patient_id", of_patient (fun p => VStr (patient_id p)) VNone);
              ("patient_first_name", of_patient (fun p => of_opt_str (first_name p)) VNone);
              ("patient_language", of_patient (fun p => of_opt_str (patient_language p)) VNone);
              ("patient_dnc", of_patient (fun p => of_opt_bool (dnc p)) (VBool false));
              ("patient_comm_sms", of_patient (comm pref_sms) (VBool false));
              ("patient_comm_email", of_patient (comm pref_email) (VBool false));
              ("patient_comm_call", of_patient (comm pref_call) (VBool false));
              ("practice_name",
                 match practice with Some p => of_opt_str (practice_name p) | None => VNone end);
              ("intake_status",
                 match intake with
                 | Some i => of_opt_str (intake_status i)
                 | None => VStr "INCOMPLETE"
                 end)] |})
      end
  end.

(** *** [trigger_actions] *)

(** One turn of the loop over the actions: [None] when the action is
    skipped, by [continue] or because its name is none of the three. *)
Definition trigger_one (templates : list (string * Template)) (patient : Patient)
           (placeholders : gmap string pyval) (action : string) : option LLM.Rendered :=
  match dict_get templates action with
  | None | Some (TStr EmptyString) => None
  | Some template =>
      let attempt : result (option LLM.Rendered) :=
        if String.eqb action "SMS" then
          match template with
          | TStr t =>
              message ← Py.format t placeholders;
              Ok (Some (LLM.RSms (of_opt_str (patient_phone patient)) message))
          | TDict _ _ => Raise
          end
        else if String.eqb action "EMAIL" then
          match template with
          | TDict s b =>
              subj ← Py.format s placeholders;
              body ← Py.format b placeholders;
              Ok (Some (LLM.REmail (of_opt_str (patient_email patient)) subj body))
          | TStr _ => Raise
          end
        else if String.eqb action "CALL" then
          match template with
          | TStr t =>
              script ← Py.format t placeholders;
              Ok (Some (LLM.RCall (of_opt_str (patient_phone patient)) script))
          | TDict _ _ => Raise
          end
        else Ok None in
      match attempt with
      | Ok r => r
      | Raise => None
      end
  end.

(** [trigger_actions]: the conversion [int(...)] of the hours is outside
    the [try]. *)
Definition trigger_actions (rule : Rule) (context : Context) : result (list LLM.Rendered) :=
  match patient context, practice context with
  | Some patient, Some _ =>
      if Py.truthy (default (VBool false) (fields context !! "patient_dnc")) then Ok []
      else
        let get (k : string) : pyval := default (VStr "") (fields context !! k) in
        hours ← Py.to_int (default (VInt 0) (fields context !! "hours_until"));
        let placeholders : gmap string pyval := list_to_map [
          ("patient_first_name", get "patient_first_name");
          ("patient_name", get "patient_first_name");
          ("practice_name", get "practice_name");
          ("appointment_type", get "appointment_type");
          ("appointment_location", get "appointment_location");
          ("hours_until", VStr (PyStr.of_Z hours))] in
        Ok (omap (trigger_one (templates rule) patient placeholders) (actions rule))
  | _, _ => Ok []
  end.

(** *** [evaluate_rule] on a context of [build_context]

    Under one of the four record-valued keys the context holds a
    dictionary, or [None] for an unknown patient or practice: a text
    condition fails on a dictionary, and so does a comparison. *)
Definition holds_in (context : Context) (key : string) (cv : cond_value) : bool :=
  let on_record (present : bool) : bool :=
    present
    && match cv with
       | CCmp op _ => negb (String.eqb op "<=" || String.eqb op ">=")
       | CStr _ => false
       end in
  if String.eqb key "appointment" then on_record true
  else if String.eqb key "patient" then on_record (bool_decide (is_Some (patient context)))
  else if String.eqb key "practice" then on_record (bool_decide (is_Some (practice context)))
  else if String.eqb key "intake" then on_record true
  else condition_holds (fields context) key cv.

Definition evaluate_in (rule : Rule) (context : Context) : bool :=
  forallb (fun '(k, v) => holds_in context k v) (conditions rule).

(** *** The loop of [main] over the appointments

    [main] prints every action it triggers and counts them; the printed
    actions are collected here.  An exception ends the loop (it is
    caught around it) and leaves what was printed. *)

Definition max_outputs : nat := 10.

(** The inner loop: print, count, and stop at [max_outputs]. *)
Fixpoint print_actions (actions : list LLM.Rendered) (triggered_count : nat)
  : list LLM.Rendered * nat :=
  match actions with
  | [] => ([], triggered_count)
  | action :: rest =>
      let triggered_count := S triggered_count in
      if (max_outputs <=? triggered_count)%nat then ([action], triggered_count)
      else
        let '(printed, n) := print_actions rest triggered_count in
        (action :: printed, n)
  end.

(** The outcome of the loop: the printed actions, the final count, and
    whether an exception ended it. *)
Record Outcome : Type := {
  printed : list LLM.Rendered;
  total : nat;
  failed : bool }.

Fixpoint process (rule : Rule) (current_time : string)
         (appointment_dict : list (string * Appointment))
         (patient_dict : gmap string Patient)
         (practice_dict : gmap string Practice)
         (intake_dict : gmap string Intake)
         (ids : list string) (triggered_count : nat) : Outcome :=
  match ids with
  | [] => {| printed := []; total := triggered_count; failed := false |}
  | appt_id :: rest =>
      if (max_outputs <=? triggered_count)%nat
      then {| printed := []; total := triggered_count; failed := false |}
      else
        let continue (n : nat) :=
          process rule current_time appointment_dict patient_dict practice_dict
                  intake_dict rest n in
        match build_context appt_id current_time appointment_dict patient_dict
                            practice_dict intake_dict with
        | Raise => {| printed := []; total := triggered_count; failed := true |}
        | Ok None => continue triggered_count
        | Ok (Some context) =>
            if evaluate_in rule context then
              match trigger_actions rule context with
              | Raise => {| printed := []; total := triggered_count; failed := true |}
              | Ok actions =>
                  let '(shown, n) := print_actions actions triggered_count in
                  let later := continue n in
                  {| printed := shown ++ printed later;
                     total := total later; failed := failed later |}
              end
            else continue triggered_count
        end
  end.

End Run.

End Syntax.

(** ** [floe_rules_engine/rules_engine]: [utils.py] and [engine.py] *)

Module Events.

(** [render_template]: every key of [data], in its order, replaces its
    doubled-brace placeholder; a placeholder that names no key stays. *)
Definition render_template (tpl : string) (data : list (string * string)) : string :=
  if String.eqb tpl "" then ""
  else fold_left (fun out '(k, v) => PyStr.replace ("{{" +:+ k +:+ "}}") v out) data tpl.

(** The template of an action: a string, or the dictionary of an e-mail
    with its optional keys. *)
Inductive Template : Type :=
| TStr (s : string)
| TDict (subject body : option string).

Record Rule : Type := {
  actions : list string;
  templates : list (string * Template) }.

(** The dataclass [Context]. *)
Record Context : Type := {
  practices : gmap string Practice;
  patients : gmap string Patient;
  appointments : gmap string Appointment;
  intakes_by_appt : gmap string Intake }.

(** The right-pointing triangle of the log lines, in UTF-8. *)
Definition arrow : string :=
  String (ascii_of_nat 226) (String (ascii_of_nat 150) (String (ascii_of_nat 182) "")).

Definition resolve_appointment (event : Event) (ctx : Context) : option Appointment :=
  k ← payload event ≫= payload_appointment_id; appointments ctx !! k.

Definition resolve_patient (event : Event) (ctx : Context) : option Patient :=
  match resolve_appointment event ctx with
  | Some appt => patients ctx !! appt_patient_id appt
  | None => k ← payload event ≫= payload_patient_id; patients ctx !! k
  end.

Definition resolve_practice (event : Event) (ctx : Context) : option Practice :=
  match resolve_appointment event ctx with
  | Some appt => practices ctx !! appt_practice_id appt
  | None => k ← payload event ≫= payload_practice_id; practices ctx !! k
  end.

(** The dictionary [data] of [render_action_messages]. *)
Definition template_data (event : Event) (ctx : Context) : list (string * string) :=
  let appt := resolve_appointment event ctx in
  let patient := resolve_patient event ctx in
  let practice := resolve_practice event ctx in
  let of_practice (f : Practice -> option string) := default "" (practice ≫= f) in
  [ ("patient_name",
       match patient with
       | Some p => default "" (first_name p) +:+ " " +:+ default "" (last_name p)
       | None => ""
       end);
    ("appointment_time", default "" (appt ≫= start_time));
    ("practice_name", of_practice practice_name);
    ("practice_domain", of_practice practice_domain);
    ("reply_to_email", of_practice reply_to_email);
    ("sender_phone", of_practice default_sender_phone);
    ("intake_link",
       default "" (a ← appt; i ← intakes_by_appt ctx !! appt_id a; intake_link i)) ].

(** One turn of the loop over the actions.  [tpl or dflt] takes the
    default for a missing template, an empty string and an empty
    dictionary; any other dictionary where a string is expected raises
    in [render_template]. *)
Definition render_one (rule : Rule) (patient : option Patient)
           (data : list (string * string)) (action : string) : result string :=
  let tpl := Syntax.dict_get (templates rule) action in
  let text_of (dflt : string) : result string :=
    match tpl with
    | Some (TStr t) => Ok (render_template (if String.eqb t "" then dflt else t) data)
    | Some (TDict None None) | None => Ok (render_template dflt data)
    | Some (TDict _ _) => Raise
    end in
  if String.eqb (PyStr.upper action) "SMS" then
    msg ← text_of "Hi {{patient_name}}";
    Ok ("Triggered SMS " +:+ arrow +:+ " To: " +:+ default "" (patient ≫= patient_phone)
        +:+ LLM.nl +:+ "Message: " +:+ msg)
  else if String.eqb (PyStr.upper action) "EMAIL" then
    let '(subj, body) :=
      match tpl with
      | Some (TDict s b) => (render_template (default "" s) data, render_template (default "" b) data)
      | Some (TStr t) => ("", render_template t data)
      | None => ("", "")
      end in
    Ok ("Triggered Email " +:+ arrow +:+ " To: " +:+ default "" (patient ≫= patient_email)
        +:+ LLM.nl +:+ "Subject: " +:+ subj +:+ LLM.nl +:+ "Body: " +:+ body)
  else if String.eqb (PyStr.upper action) "CALL" then
    script ← text_of "Call {{patient_name}} about their appointment.";
    Ok ("Triggered Call " +:+ arrow +:+ " To: " +:+ default "" (patient ≫= patient_phone)
        +:+ LLM.nl +:+ "Script: " +:+ script)
  else Ok ("UNKNOWN ACTION '" +:+ action +:+ "' (no-op)").

Fixpoint render_loop (rule : Rule) (patient : option Patient)
         (data : list (string * string)) (acts : list string) : result (list string) :=
  match acts with
  | [] => Ok []
  | action :: rest =>
      line ← render_one rule patient data action;
      lines ← render_loop rule patient data rest;
      Ok (line :: lines)
  end.

Definition render_action_messages (rule : Rule) (event : Event) (ctx : Context)
  : result (list string) :=
  let patient := resolve_patient event ctx in
  match patient with
  | Some p =>
      if default false (dnc p)
      then Ok ["SKIPPED (DNC) for patient " +:+ patient_id p]
      else render_loop rule patient (template_data event ctx) (actions rule)
  | None => render_loop rule patient (template_data event ctx) (actions rule)
  end.

(** *** The rest of [utils.py] *)

(** [idx_by]: the dictionary of the items under their [key]; of two
    items with one key the later stays. *)
Definition idx_by {A : Type} (key : A -> string) (items : list A) : gmap string A :=
  fold_left (fun d it => <[key it := it]> d) items ∅.

(** [deep_get], after the split of the path: the walk stops with [None]
    at [None] and at a value that is no dictionary. *)
Fixpoint walk (cur : json) (parts : list string) : json :=
  match parts with
  | [] => cur
  | part :: rest =>
      match cur with
      | JDict d => walk (default JNull (Json.get d part)) rest
      | _ => JNull
      end
  end.

Definition deep_get (obj : json) (key_path : string) : json :=
  walk obj (PyStr.split_on "." key_path).

Section Hours.
Context `{PyRuntime}.

(** [parse_iso]: [None] for a text that does not parse and for the
    argument [None], whose [replace] raises inside the [try]. *)
Definition parse_iso (s : option string) : option datetime :=
  s ≫= fun s => fromisoformat (PyStr.replace "Z" "+00:00" s).

(** [hours_until]: the subtraction is not guarded. *)
Definition hours_until (now future_dt : option datetime) : result (option Q) :=
  match now, future_dt with
  | Some now, Some future_dt =>
      match seconds_between future_dt now with
      | Some secs => Ok (Some (secs / 3600)%Q)
      | None => Raise
      end
  | _, _ => Ok None
  end.

End Hours.

(** *** [RulesEngine] *)

(** [__init__], given the lists the four files hold: the comprehension
    over the intakes reads [appointment_id] with a subscript. *)
Definition RulesEngine_init (practice : list Practice) (patients : list Patient)
           (appointments : list Appointment) (intakes : list IntakeDoc) : result Context :=
  if forallb (fun d => bool_decide (is_Some (doc_appointment_id d))) intakes then
    Ok {| practices := idx_by practice_id practice;
          patients := idx_by patient_id patients;
          appointments := idx_by appt_id appointments;
          intakes_by_appt := idx_by intake_appointment_id (omap intake_of_doc intakes) |}
  else Raise.

(** The dictionaries the records stand for, for the generic getter: an
    optional field that is [None] is a missing key. *)
Definition entry {A : Type} (k : string) (f : A -> json) (o : option A) : list (string * json) :=
  match o with Some x => [(k, f x)] | None => [] end.

Definition json_of_practice (p : Practice) : json :=
  JDict (("id", JStr (practice_id p))
         :: entry "name" JStr (practice_name p)
         ++ entry "timezone" JStr (practice_timezone p)
         ++ entry "reply_to_email" JStr (reply_to_email p)
         ++ entry "default_sender_phone" JStr (default_sender_phone p)
         ++ entry "domain" JStr (practice_domain p)).

Definition json_of_comm_prefs (c : CommPrefs) : json :=
  JDict (entry "sms" JBool (pref_sms c) ++ entry "email" JBool (pref_email c)
         ++ entry "call" JBool (pref_call c)).

Definition json_of_patient (p : Patient) : json :=
  JDict (("id", JStr (patient_id p))
         :: entry "first_name" JStr (first_name p)
         ++ entry "last_name" JStr (last_name p)
         ++ entry "email" JStr (patient_email p)
         ++ entry "phone" JStr (patient_phone p)
         ++ entry "language" JStr (patient_language p)
         ++ entry "comm_prefs" json_of_comm_prefs (comm_prefs p)
         ++ entry "dnc" JBool (dnc p)
         ++ entry "tags" (fun l => JList (map JStr l)) (tags p)).

Definition json_of_appointment (a : Appointment) : json :=
  JDict (("id", JStr (appt_id a))
         :: ("patient_id", JStr (appt_patient_id a))
         :: ("practice_id", JStr (appt_practice_id a))
         :: entry "start_time" JStr (start_time a)
         ++ entry "status" JStr (appt_status a)
         ++ entry "type" JStr (appt_type a)
         ++ entry "location" JStr (appt_location a)
         ++ entry "no_show_risk" JStr (no_show_risk a)).

Definition json_of_payload (p : Payload) : json :=
  JDict (entry "appointment_id" JStr (payload_appointment_id p)
         ++ entry "patient_id" JStr (payload_patient_id p)
         ++ entry "practice_id" JStr (payload_practice_id p)).

Definition json_of_event (e : Event) : json :=
  JDict (entry "type" JStr (event_type e)
         ++ entry "occurred_at" JStr (occurred_at e)
         ++ entry "payload" json_of_payload (payload e)).

Definition json_of_opt {A : Type} (f : A -> json) (o : option A) : json :=
  match o with Some x => f x | None => JNull end.

(** The rule object: the dictionary under [conditions] (empty when the
    key is missing), which [match_conditions] reads, and the entries
    [render_action_messages] reads. *)
Record RuleObject : Type := {
  conditions : list (string * json);
  outputs : Rule }.

Section Conditions.
Context `{PyRuntime}.

(** The helper [test] of [match_conditions]; its result is taken by its
    truth value, as [all] and [any] take it. *)
Definition test (event : Event) (ctx : Context) (key : string) (expected : json)
  : result bool :=
  let appt := resolve_appointment event ctx in
  let patient := resolve_patient event ctx in
  let practice := resolve_practice event ctx in
  let same (actual : option string) : bool := Json.eqb (json_of_opt JStr actual) expected in
  let flag (actual : option bool) : bool :=
    Bool.eqb (default false actual) (Json.truthy expected) in
  let of_appt (f : Appointment -> bool) : bool :=
    match appt with Some a => f a | None => false end in
  let of_patient (f : Patient -> bool) : bool :=
    match patient with Some p => f p | None => false end in
  if String.eqb key "event.type" then Ok (same (event_type event))
  else if String.eqb key "intake_status" then
    Ok (of_appt (fun a =>
          match intakes_by_appt ctx !! appt_id a with
          | Some intake => same (intake_status intake)
          | None => false
          end))
  else if String.eqb key "appointment_hours_until" then
    match appt with
    | None => Ok false
    | Some a =>
        let now := parse_iso (occurred_at event) in
        match start_time a with
        | None => Raise
        | Some start =>
            hrs ← hours_until now (parse_iso (Some start));
            match Json.to_float expected with
            | None => Ok false
            | Some target =>
                Ok (match hrs with
                    | Some h => Qle_bool 0 h && Qle_bool h target
                    | None => false
                    end)
            end
        end
    end
  else if String.eqb key "appointment.status" then
    Ok (of_appt (fun a => same (appt_status a)))
  else if String.eqb key "appointment.no_show_risk" then
    Ok (of_appt (fun a => same (no_show_risk a)))
  else if String.eqb key "patient.dnc" then
    Ok (of_patient (fun p => flag (dnc p)))
  else if String.eqb key "patient.tags.contains" then
    Ok (of_patient (fun p =>
          existsb (fun tag => Json.eqb expected (JStr tag)) (default [] (tags p))))
  else if String.eqb key "patient.comm_prefs.sms" then
    Ok (of_patient (fun p => flag (comm_prefs p ≫= pref_sms)))
  else if String.eqb key "patient.comm_prefs.email" then
    Ok (of_patient (fun p => flag (comm_prefs p ≫= pref_email)))
  else if String.eqb key "patient.comm_prefs.call" then
    Ok (of_patient (fun p => flag (comm_prefs p ≫= pref_call)))
  else
    let actual :=
      deep_get (JDict [("event", json_of_event event);
                       ("appointment", json_of_opt json_of_appointment appt);
                       ("patient", json_of_opt json_of_patient patient);
                       ("practice", json_of_opt json_of_practice practice)]) key in
    Ok (Json.eqb actual expected).

(** The loop over the keys but [logic]: every test runs. *)
Fixpoint run_tests (event : Event) (ctx : Context) (conds : list (string * json))
  : result (list bool) :=
  match conds with
  | [] => Ok []
  | (k, v) :: rest =>
      if String.eqb k "logic" then run_tests event ctx rest
      else
        check ← test event ctx k v;
        checks ← run_tests event ctx rest;
        Ok (check :: checks)
  end.

(** [match_conditions]: a [logic] that is no string has no [upper]. *)
Definition match_conditions (rule : RuleObject) (event : Event) (ctx : Context)
  : result bool :=
  let conds := conditions rule in
  logic ← match Json.get conds "logic" with
          | None => Ok "ALL"
          | Some (JStr s) => Ok (PyStr.upper s)
          | Some _ => Raise
          end;
  checks ← run_tests event ctx conds;
  Ok (if String.eqb logic "ALL" then forallb id checks else existsb id checks).

(** [evaluate_rule_over_events], on the context [build_context] returns
    (the engine's four dictionaries). *)
Fixpoint evaluate_rule_over_events (self : Context) (rule : RuleObject) (events : list Event)
  : result (list string) :=
  match events with
  | [] => Ok []
  | ev :: rest =>
      matched ← match_conditions rule ev self;
      lines ← (if matched : bool then render_action_messages (outputs rule) ev self else Ok []);
      logs ← evaluate_rule_over_events self rule rest;
      Ok (lines ++ logs)
  end.

End Conditions.

End Events.

(** ** The loaders

    [create_lookups] of the two pattern-table engines and the
    [data_cache] that [load_data] of [LLM_Rules_Engine.py] assigns, given
    the lists the files hold: each dictionary is the comprehension of
    [idx_by], the intakes without the key [appointment_id] left out.
    The appointments, which the engines iterate, keep their order. *)

Module Loading.

Definition ordered_by {A : Type} (key : A -> string) (items : list A) : list (string * A) :=
  fold_left (fun d it => Syntax.dict_set d (key it) it) items [].

Definition create_lookups (practices : list Practice) (patients : list Patient)
           (appointments : list Appointment) (intakes : list IntakeDoc)
  : gmap string Practice * gmap string Patient
    * list (string * Appointment) * gmap string Intake :=
  (Events.idx_by practice_id practices,
   Events.idx_by patient_id patients,
   ordered_by appt_id appointments,
   Events.idx_by intake_appointment_id (omap intake_of_doc intakes)).

Definition load_data (practices : list Practice) (patients : list Patient)
           (appointments : list Appointment) (intakes : list IntakeDoc)
           (events : list Event) : LLM.DataCache :=
  {| LLM.practices := Events.idx_by practice_id practices;
     LLM.patients := Events.idx_by patient_id patients;
     LLM.appointments := ordered_by appt_id appointments;
     LLM.intakes := Events.idx_by intake_appointment_id (omap intake_of_doc intakes);
     LLM.events := events |}.

(** [RuleEngine(data_dir)] after a successful [load_data]. *)
Definition RuleEngine_init (practices : list Practice) (patients : list Patient)
           (appointments : list Appointment) (intakes : list IntakeDoc)
           (events : list Event) : LLM.RuleEngine :=
  {| LLM.data_cache := load_data practices patients appointments intakes events;
     LLM.rule_cache := ∅ |}.

End Loading.

(** ** A runtime and a record store for the worked examples *)

Module Sample.

(** A naive datetime. *)
Record civil : Type := {
  year : Z; month : Z; day : Z; hour : Z; minute : Z; second : Z }.

Definition number (s : string) : option Z :=
  if Py.all_digits s && negb (String.eqb s "") then Some (PyStr.int_of_digits s) else None.

Definition is_leap (y : Z) : bool :=
  ((y mod 4 =? 0) && negb (y mod 100 =? 0)) || (y mod 400 =? 0).

Definition days_in_month (y m : Z) : Z :=
  if m =? 2 then (if is_leap y then 29 else 28)
  else if (m =? 4) || (m =? 6) || (m =? 9) || (m =? 11) then 30
  else 31.

(** The stamps [YYYY-MM-DDTHH:MM:SS] of the repository's data; every
    other text is rejected. *)
Definition parse_civil (s : string) : option civil :=
  let part (from len : nat) := PyStr.take len (PyStr.drop from s) in
  if negb (String.length s =? 19)%nat then None
  else if negb (String.eqb (part 4%nat 1%nat) "-" && String.eqb (part 7%nat 1%nat) "-"
                && String.eqb (part 10%nat 1%nat) "T"
                && String.eqb (part 13%nat 1%nat) ":" && String.eqb (part 16%nat 1%nat) ":")
  then None
  else
    y ← number (part 0%nat 4%nat); m ← number (part 5%nat 2%nat); d ← number (part 8%nat 2%nat);
    hh ← number (part 11%nat 2%nat); mm ← number (part 14%nat 2%nat); ss ← number (part 17%nat 2%nat);
    if (1 <=? y) && (1 <=? m) && (m <=? 12) && (1 <=? d) && (d <=? days_in_month y m)
       && (hh <? 24) && (mm <? 60) && (ss <? 60)
    then Some {| year := y; month := m; day := d; hour := hh; minute := mm; second := ss |}
    else None.

(** Days since 1970-01-01 in the proleptic Gregorian calendar. *)
Definition days_from_civil (y m d : Z) : Z :=
  let y' := if m <=? 2 then y - 1 else y in
  let era := y' / 400 in
  let yoe := y' - era * 400 in
  let doy := (153 * (if 2 <? m then m - 3 else m + 9) + 2) / 5 + d - 1 in
  let doe := yoe * 365 + yoe / 4 - yoe / 100 + doy in
  era * 146097 + doe - 719468.

Definition epoch_seconds (c : civil) : Z :=
  days_from_civil (year c) (month c) (day c) * 86400
  + hour c * 3600 + minute c * 60 + second c.

Definition two_digits (z : Z) : string :=
  if z <? 10 then "0" +:+ PyStr.of_Z z else PyStr.of_Z z.

Definition month_abbr (m : Z) : string :=
  nth (Z.to_nat (m - 1))
    ["Jan"; "Feb"; "Mar"; "Apr"; "May"; "Jun"; "Jul"; "Aug"; "Sep"; "Oct"; "Nov"; "Dec"] "".

Definition short_time (c : civil) : string :=
  let h12 := if hour c mod 12 =? 0 then 12 else hour c mod 12 in
  month_abbr (month c) +:+ " " +:+ two_digits (day c) +:+ ", "
  +:+ two_digits h12 +:+ ":" +:+ two_digits (minute c) +:+ " "
  +:+ (if hour c <? 12 then "AM" else "PM").

(** The decimal digits of [num / den] after the point, at most [fuel]. *)
Fixpoint fraction (fuel : nat) (num den : Z) : string :=
  match fuel with
  | O => ""
  | S fuel' =>
      if num =? 0 then ""
      else PyStr.of_Z (10 * num / den) +:+ fraction fuel' (10 * num mod den) den
  end.

(** A decimal rendering of a rational: exact when the expansion ends
    within seventeen digits, truncated otherwise. *)
Definition decimal (q : Q) : string :=
  let n := Z.abs (Qnum q) in
  let d := Z.pos (Qden q) in
  let f := fraction 17 (n mod d) d in
  (if Qnum q <? 0 then "-" else "") +:+ PyStr.of_Z (n / d) +:+ "."
  +:+ (if String.eqb f "" then "0" else f).

(** The runtime of the examples.  None of them formats a list of events
    or uses the format mini-language beyond plain fields. *)
#[local] Instance runtime : PyRuntime := {|
  float_repr := decimal;
  events_repr := fun l => match l with [] => "[]" | _ => "[...]" end;
  format_ext := fun _ _ _ => Raise;
  datetime := civil;
  fromisoformat := parse_civil;
  seconds_between := fun a b => Some (inject_Z (epoch_seconds a - epoch_seconds b));
  strftime_short := short_time |}.

(** A small record store: one practice, three patients of whom the
    first is on do-not-contact, and their appointments. *)
Definition practice1 : Practice := {|
  practice_id := "prac_001"; practice_name := Some "Sunrise Oncology";
  practice_timezone := Some "America/New_York";
  reply_to_email := Some "noreply@sunriseoncology.com";
  default_sender_phone := Some "+14155551001";
  practice_domain := Some "sunriseoncology.com" |}.

Definition patient (id name phone : string) (flag : bool) : Patient := {|
  patient_id := id; first_name := Some name; last_name := Some "Lee";
  patient_email := Some (PyStr.lower name +:+ "@example.com");
  patient_phone := Some phone; patient_language := Some "en";
  comm_prefs := Some {| pref_sms := Some true; pref_email := Some true; pref_call := Some true |};
  dnc := Some flag; tags := Some [] |}.

Definition pt_dnc : Patient := patient "pt_0001" "Noah" "+14155552001" true.
Definition pt_two : Patient := patient "pt_0002" "Maya" "+14155552002" false.
Definition pt_three : Patient := patient "pt_0003" "John" "+14155552003" false.

Definition appointment (id pid start risk kind : string) : Appointment := {|
  appt_id := id; appt_patient_id := pid; appt_practice_id := "prac_001";
  start_time := Some start; appt_status := Some "SCHEDULED"; appt_type := Some kind;
  appt_location := Some "City1"; no_show_risk := Some risk |}.

Definition appt1 : Appointment :=
  appointment "appt_0001" "pt_0001" "2025-09-10T18:00:00" "high" "Oncology infusion".
Definition appt2 : Appointment :=
  appointment "appt_0002" "pt_0002" "2025-09-11T09:30:00" "high" "MRI follow-up".
Definition appt3 : Appointment :=
  appointment "appt_0003" "pt_0003" "2025-09-09T08:00:00" "low" "Ortho consult".

Definition store : LLM.DataCache := {|
  LLM.practices := {[ "prac_001" := practice1 ]};
  LLM.patients := list_to_map [("pt_0001", pt_dnc); ("pt_0002", pt_two); ("pt_0003", pt_three)];
  LLM.appointments := [("appt_0001", appt1); ("appt_0002", appt2); ("appt_0003", appt3)];
  LLM.intakes := ∅;
  LLM.events := [] |}.

(** A fresh engine: the loaded data and an empty rule cache. *)
Definition engine : LLM.RuleEngine := {| LLM.data_cache := store; LLM.rule_cache := ∅ |}.

(** A datetime that may carry a UTC offset, in seconds: the stamps
    above with or without a suffix [+HH:MM] or [-HH:MM]. *)
Record stamp : Type := {
  wall : civil;
  utc_offset : option Z }.

Definition parse_offset (s : string) : option (option Z) :=
  if String.eqb s "" then Some None
  else if negb (String.length s =? 6)%nat then None
  else if negb (String.eqb (PyStr.take 1 (PyStr.drop 3 s)) ":") then None
  else
    hh ← number (PyStr.take 2 (PyStr.drop 1 s));
    mm ← number (PyStr.take 2 (PyStr.drop 4 s));
    if String.eqb (PyStr.take 1 s) "+" then Some (Some (hh * 3600 + mm * 60))
    else if String.eqb (PyStr.take 1 s) "-" then Some (Some (- (hh * 3600 + mm * 60)))
    else None.

Definition parse_stamp (s : string) : option stamp :=
  c ← parse_civil (PyStr.take 19 s);
  o ← parse_offset (PyStr.drop 19 s);
  Some {| wall := c; utc_offset := o |}.

(** The difference of two datetimes: Python refuses to subtract one
    with an offset and one without. *)
Definition stamp_seconds (a b : stamp) : option Q :=
  match utc_offset a, utc_offset b with
  | None, None => Some (inject_Z (epoch_seconds (wall a) - epoch_seconds (wall b)))
  | Some oa, Some ob =>
      Some (inject_Z ((epoch_seconds (wall a) - oa) - (epoch_seconds (wall b) - ob)))
  | _, _ => None
  end.

(** The runtime of the examples on time stamps with an offset. *)
Definition runtime_with_offsets : PyRuntime := {|
  float_repr := decimal;
  events_repr := fun l => match l with [] => "[]" | _ => "[...]" end;
  format_ext := fun _ _ _ => Raise;
  datetime := stamp;
  fromisoformat := parse_stamp;
  seconds_between := stamp_seconds;
  strftime_short := fun s => short_time (wall s) |}.

End Sample.

(** * Specification vocabulary *)

(** [c] occurs in [s]. *)
Fixpoint has_char (c : ascii) (s : string) : bool :=
  match s with
  | EmptyString => false
  | String c' s' => Ascii.eqb c' c || has_char c s'
  end.

(** Every character of [s] is in the class [p]. *)
Fixpoint all_in (p : ascii -> bool) (s : string) : Prop :=
  match s with
  | EmptyString => True
  | String c s' => p c = true /\ all_in p s'
  end.

(** The language of a pattern: the texts it matches from end to end. *)
Fixpoint lang (ic : bool) (r : Re.regex) (s : string) : Prop :=
  match r with
  | Re.REps => s = ""
  | Re.RChar c => exists c', s = String c' "" /\ Re.char_eq ic c c' = true
  | Re.RSet p => exists c', s = String c' "" /\ p c' = true
  | Re.RSeq r1 r2 => exists a b, s = a +:+ b /\ lang ic r1 a /\ lang ic r2 b
  | Re.RAlt r1 r2 => lang ic r1 s \/ lang ic r2 s
  | Re.ROpt r1 => s = "" \/ lang ic r1 s
  | Re.RPlus p | Re.RPlusLazy p => s <> "" /\ all_in p s
  | Re.RStar p => all_in p s
  | Re.RGroup r1 => lang ic r1 s
  end.

(** A run of white space, and a text on one line; both not empty. *)
Definition spaces (w : string) : Prop := w <> "" /\ all_in PyStr.is_space w.
Definition on_one_line (t : string) : Prop := t <> "" /\ all_in Re.dot t.

(** The boundary in the spec's words: somewhere in the text the word
    [if], white space, a condition, white space, the word [then], white
    space and an action, the condition and the action on one line. *)
Definition has_if_then (s : string) : Prop :=
  exists pre w1 cond w2 w3 act post,
    s = pre +:+ ("if" +:+ w1 +:+ cond +:+ w2 +:+ "then" +:+ w3 +:+ act) +:+ post
    /\ spaces w1 /\ on_one_line cond /\ spaces w2 /\ spaces w3 /\ on_one_line act.

(** None of the characters [T], [Z], [+] and [-] occurs in [y]: the
    year of an ISO time stamp. *)
Definition plain_year (y : string) : Prop :=
  has_char "T" y = false /\ has_char "Z" y = false
  /\ has_char "+" y = false /\ has_char "-" y = false.

(** Descending order of confidence, and the matches of one confidence. *)
Definition conf_ge (a b : LLM.RuleMatch) : Prop :=
  (LLM.match_confidence b <= LLM.match_confidence a)%Q.

Definition has_conf (c : Q) (m : LLM.RuleMatch) : bool :=
  Qeq_bool (LLM.match_confidence m) c.

Definition sum_q (qs : list Q) : Q := fold_right Qplus 0%Q qs.

(** The do-not-contact flag of a context, as [_generate_actions] reads it. *)
Definition flagged (context : gmap string pyval) : bool :=
  Py.truthy (default (VBool false) (context !! "patient_dnc")).

(** The names a format string refers to. *)
Definition field_names (ps : list Py.piece) : list string :=
  flat_map (fun p => match p with Py.Field body => [Py.arg_name body] | Py.Lit _ => [] end) ps.

Definition placeholders (tpl : string) : list string :=
  match Py.parse_format tpl with
  | Some ps => field_names ps
  | None => []
  end.

(** The names the strings that an action formats refer to. *)
Definition action_placeholders (a : LLM.ParsedAction) : list string :=
  match LLM.template a with
  | LLM.TStr t => placeholders t
  | LLM.TDict s b => placeholders s ++ placeholders b
  end.

Definition is_comparison (op : string) : Prop := op = "<=" \/ op = ">=".

Definition numeric (v : pyval) : Prop :=
  match v with VInt _ | VFloat _ => True | _ => False end.

(** The conditions the parser builds: the comparisons are on
    [hours_until] against an integer. *)
Definition safe_shape (c : LLM.ParsedCondition) : Prop :=
  LLM.operator c = "equals" \/ LLM.operator c = "contains"
  \/ (LLM.operator c = "<=" /\ LLM.field c = "hours_until"
      /\ exists z, LLM.value c = VInt z).

Section Vocabulary.
Context `{PyRuntime}.

(** Every cached list is what the evaluation computes for its key. *)
Definition cache_sound (self : LLM.RuleEngine) : Prop :=
  forall text limit cached,
    LLM.rule_cache self !! LLM.cache_key text limit = Some cached ->
    LLM.evaluate_uncached (LLM.data_cache self) text limit = Ok (Some cached).

(** The engines a program can hold: a fresh one, and the engine after
    a call of [evaluate_rule]. *)
Inductive reachable : LLM.RuleEngine -> Prop :=
| reach_fresh dc : reachable {| LLM.data_cache := dc; LLM.rule_cache := ∅ |}
| reach_call self text limit res self' :
    reachable self ->
    LLM.evaluate_rule self text limit = Ok (res, self') ->
    reachable self'.

(** A condition is satisfied when its test returns [True]. *)
Definition satisfied (context : gmap string pyval) (c : LLM.ParsedCondition) : bool :=
  match LLM._evaluate_condition c context with
  | Ok b => b
  | Raise => false
  end.

Definition no_raise (context : gmap string pyval) (c : LLM.ParsedCondition) : Prop :=
  is_ok (LLM._evaluate_condition c context) = true.

(** The aggregate confidence in the spec's words: the sum of the
    satisfied conditions' weights over the number of conditions, times
    the number of satisfied conditions over the number of conditions. *)
Definition spec_confidence (context : gmap string pyval)
           (conds : list LLM.ParsedCondition) : Q :=
  let sat := List.filter (satisfied context) conds in
  let n := LLM.count_q (length conds) in
  ((sum_q (map LLM.confidence sat) / n) * (LLM.count_q (length sat) / n))%Q.
End Vocabulary.

(** ** Vocabulary of the further properties *)

(** What a call returns, its second component (the engine) left out. *)
Definition returned {A B : Type} (r : result (A * B)) : result A :=
  match r with
  | Ok (a, _) => Ok a
  | Raise => Raise
  end.

(** The weights the semantic parser gives its conditions. *)
Definition weight_in_range (c : LLM.ParsedCondition) : Prop :=
  (7 # 10 <= LLM.confidence c <= 9 # 10)%Q.

(** Every replacement field of a parsed format string is a plain name
    out of [names]. *)
Definition plain_fields (names : list string) (ps : list Py.piece) : bool :=
  forallb (fun p =>
             match p with
             | Py.Lit _ => true
             | Py.Field body =>
                 String.eqb (Py.arg_name body) body && negb (Py.all_digits body)
                 && existsb (String.eqb body) names
             end) ps.

(** The keys every canned template but the urgent SMS refers to. *)
Definition canned_names : list string :=
  ["patient_first_name"; "appointment_type"; "practice_name"].

(** No brace occurs in a text. *)
Definition brace_free (t : string) : Prop :=
  has_char "{" t = false /\ has_char "}" t = false.

(** The values that the matches of the patterns assign to one field, in
    the order of the assignments: the patterns in the order of the
    table, the matches of a pattern from left to right. *)
Definition assignments (text fld : string) : list Syntax.cond_value :=
  let text_lower := PyStr.lower text in
  flat_map (fun '(pattern, f, converter) =>
              if String.eqb f fld then
                map (fun m => converter (match fst m with [] => "" | _ => Re.group 1 m end))
                    (Syntax.finditer (String.length text_lower) pattern text_lower)
              else [])
           Syntax.condition_patterns.

(** The fields a condition of the table can be on. *)
Definition condition_fields : list string :=
  ["no_show_risk"; "hours_until"; "intake_status"; "patient_language";
   "appointment_type"; "appointment_status"; "appointment_location"; "practice_name"].

(** Neither quote occurs in a text. *)
Definition quote_free (s : string) : Prop := all_in (fun c => negb (Re.quote c)) s.

(** The [type] of a rendered action. *)
Definition kind_of (r : LLM.Rendered) : string :=
  match r with
  | LLM.RSms _ _ => "SMS"
  | LLM.REmail _ _ _ => "EMAIL"
  | LLM.RCall _ _ => "CALL"
  end.

(** A template that is not the empty string. *)
Definition filled (tpl : Syntax.Template) : Prop := tpl <> Syntax.TStr "".

(** The templates [extract_actions] falls back on. *)
Definition default_template (action : string) : Syntax.Template :=
  if String.eqb action "SMS" then
    Syntax.TStr "Hi {patient_first_name}, this is a reminder about your {appointment_type} appointment."
  else if String.eqb action "EMAIL" then
    Syntax.TDict "Appointment Reminder" (LLM.base_templates LLM.EMAIL LLM.Default)
  else
    Syntax.TStr "Hi {patient_first_name}, this is {practice_name} calling about your {appointment_type} appointment.".

(** The keys of the dictionary [placeholders] of [trigger_actions]. *)
Definition placeholder_names : list string :=
  ["patient_first_name"; "patient_name"; "practice_name"; "appointment_type";
   "appointment_location"; "hours_until"].

Section Further.
Context `{PyRuntime}.

(** The matches of all the appointments, in the order of the
    appointments. *)
Definition matches_of (dc : LLM.DataCache) (rule : LLM.ParsedRule) : list LLM.RuleMatch :=
  omap (fun appt_id =>
          match LLM._evaluate_appointment dc appt_id rule LLM.current_time with
          | Ok r => r
          | Raise => None
          end)
       (map fst (LLM.appointments dc)).

End Further.

(** ** Worked inputs *)

Module Inputs.
#[local] Existing Instance Sample.runtime.

Definition high_risk_text : string := "If risk is high then call patient".

Definition high_risk_rule : LLM.ParsedRule := {|
  LLM.conditions :=
    [LLM.mk_cond LLM.RISK_LEVEL "no_show_risk" "equals" (VStr "high") (9 # 10)];
  LLM.actions :=
    [{| LLM.action_type := LLM.CALL;
        LLM.template := LLM.TStr (LLM.base_templates LLM.CALL LLM.Default);
        LLM.custom_message := None; LLM.subject := None |}];
  LLM.original_text := "if risk is high then call patient";
  LLM.rule_confidence := 9 # 10 |}.

(** The contexts of the first two appointments of the sample store. *)
Definition context1 : gmap string pyval :=
  default ∅ (LLM._build_context Sample.store "appt_0001" LLM.current_time).

Definition context2 : gmap string pyval :=
  default ∅ (LLM._build_context Sample.store "appt_0002" LLM.current_time).

(** What the fresh sample engine returns for the rule and the limit 1. *)
Definition top1 : list LLM.RuleMatch * LLM.RuleEngine :=
  Eval vm_compute in
    match LLM.evaluate_rule Sample.engine high_risk_text 1 with
    | Ok r => r
    | Raise => ([], Sample.engine)
    end.

(** A rule whose conditions are empty, and one whose actions are. *)
Definition unconditional_text : string := "if always then send sms".
Definition no_action_text : string := "if foo then bar".

(** A comparison on the appointment type. *)
Definition type_at_most : LLM.ParsedCondition :=
  LLM.mk_cond LLM.TIME_BASED "appointment_type" "<=" (VInt 24) (9 # 10).

(** The actions of the rule [if risk is high then send urgent sms and
    call them]: the canned urgent SMS names the field [action_needed],
    which no context defines. *)
Definition urgent (a : LLM.ActionType) : LLM.ParsedAction :=
  {| LLM.action_type := a; LLM.template := LLM.TStr (LLM.base_templates a LLM.Urgent);
     LLM.custom_message := None; LLM.subject := None |}.

Definition urgent_sms : LLM.ParsedAction := urgent LLM.SMS.
Definition urgent_call : LLM.ParsedAction := urgent LLM.CALL.

(** The event-driven engine on the same records. *)
Definition event_ctx : Events.Context := {|
  Events.practices := {[ "prac_001" := Sample.practice1 ]};
  Events.patients := list_to_map [("pt_0001", Sample.pt_dnc); ("pt_0002", Sample.pt_two)];
  Events.appointments :=
    list_to_map [("appt_0001", Sample.appt1); ("appt_0002", Sample.appt2)];
  Events.intakes_by_appt := ∅ |}.

Definition event_for (appt : string) : Event := {|
  event_type := Some "appointment.updated";
  occurred_at := Some "2025-09-10T12:00:00Z";
  payload := Some {| payload_appointment_id := Some appt;
                     payload_patient_id := None;
                     payload_practice_id := None |} |}.

Definition event_rule : Events.Rule := {|
  Events.actions := ["SMS"; "CALL"];
  Events.templates :=
    [("SMS", Events.TStr "Hi {{nickname}}, see you at {{practice_name}}")] |}.

(** An engine as [RuleEngine(data_dir)] loads it. *)
Definition loaded_engine : LLM.RuleEngine :=
  Loading.RuleEngine_init [Sample.practice1]
    [Sample.pt_dnc; Sample.pt_two; Sample.pt_three]
    [Sample.appt1; Sample.appt2; Sample.appt3] [] [].

(** A rule with a custom message in capital letters, and its SMS. *)
Definition shouted_text : string :=
  "If risk is high then send sms saying 'See You SOON'".

Definition shouted_sms : LLM.ParsedAction :=
  {| LLM.action_type := LLM.SMS; LLM.template := LLM.TStr "see you soon";
     LLM.custom_message := Some "see you soon"; LLM.subject := None |}.

Definition shouted_rule : LLM.ParsedRule := {|
  LLM.conditions :=
    [LLM.mk_cond LLM.RISK_LEVEL "no_show_risk" "equals" (VStr "high") (9 # 10)];
  LLM.actions := [shouted_sms];
  LLM.original_text := "if risk is high then send sms saying 'see you soon'";
  LLM.rule_confidence := 9 # 10 |}.

(** The third appointment of the sample store started before the
    reference time. *)
Definition context3 : gmap string pyval :=
  default ∅ (LLM._build_context Sample.store "appt_0003" LLM.current_time).

(** A rule of the pattern-table engine. *)
Definition table_text : string := "If no-show risk is high then call patient".

Definition table_rule : Syntax.Rule := {|
  Syntax.rule_id := "user_rule";
  Syntax.conditions := [("no_show_risk", Syntax.CStr "high")];
  Syntax.actions := ["CALL"];
  Syntax.templates := [("CALL", default_template "CALL")];
  Syntax.original_text := table_text |}.

(** An appointment whose record lacks [start_time]. *)
Definition undated : Appointment := {|
  appt_id := "appt_0004"; appt_patient_id := "pt_0002"; appt_practice_id := "prac_001";
  start_time := None; appt_status := Some "SCHEDULED"; appt_type := Some "Cast check";
  appt_location := Some "City1"; no_show_risk := Some "low" |}.

Definition undated_store : LLM.DataCache := {|
  LLM.practices := LLM.practices Sample.store;
  LLM.patients := LLM.patients Sample.store;
  LLM.appointments := [("appt_0004", undated)];
  LLM.intakes := ∅;
  LLM.events := [] |}.

(** Rule objects of the event-driven engine: one without a condition
    and one on the hours until the appointment. *)
Definition any_event_rule : Events.RuleObject :=
  {| Events.conditions := [("logic", JStr "all")]; Events.outputs := event_rule |}.

Definition within_a_day : Events.RuleObject :=
  {| Events.conditions := [("appointment_hours_until", JNum 24)];
     Events.outputs := event_rule |}.

(** An event on the first appointment that occurred after its start, its
    time stamp without an offset. *)
Definition late_event : Event := {|
  event_type := Some "call.missed";
  occurred_at := Some "2025-09-11T00:00:00";
  payload := Some {| payload_appointment_id := Some "appt_0001";
                     payload_patient_id := None;
                     payload_practice_id := None |} |}.

End Inputs.

(** * Properties *)

(** ** The cache key *)

Lemma digits_no_underscore (d : Decimal.uint) :
  has_char "_" (DecimalString.NilEmpty.string_of_uint d) = false.
Proof. induction d; simpl; auto. Qed.

Lemma of_Z_no_underscore (z : Z) : has_char "_" (PyStr.of_Z z) = false.
Proof.
  unfold PyStr.of_Z, DecimalString.NilZero.string_of_int,
    DecimalString.NilZero.string_of_uint.
  destruct (Z.to_int z) as [d|d]; destruct d; simpl; auto using digits_no_underscore.
Qed.

Lemma of_Z_inj (z1 z2 : Z) : PyStr.of_Z z1 = PyStr.of_Z z2 -> z1 = z2.
Proof.
  unfold PyStr.of_Z. intros E.
  apply DecimalZ.to_int_inj.
  assert (N : forall z, Z.to_int z <> Decimal.Pos Decimal.Nil
                        /\ Z.to_int z <> Decimal.Neg Decimal.Nil).
  { intros [|p|p]; simpl; split; try discriminate;
      intros [= E']; exact (DecimalPos.Unsigned.to_uint_nonnil p E'). }
  apply (f_equal DecimalString.NilZero.int_of_string) in E.
  rewrite !DecimalString.NilZero.isi in E by apply N.
  congruence.
Qed.

Lemma append_nil (s : string) : "" +:+ s = s.
Proof. reflexivity. Qed.

Lemma append_cons (c : ascii) (a b : string) : String c a +:+ b = String c (a +:+ b).
Proof. reflexivity. Qed.

Lemma has_char_app (c : ascii) (a b : string) :
  has_char c (a +:+ b) = has_char c a || has_char c b.
Proof.
  induction a as [|x a IH]; [done|].
  rewrite append_cons. simpl. rewrite IH. apply orb_assoc.
Qed.

Lemma sep_inj (t1 t2 d1 d2 : string) :
  has_char "_" d1 = false -> has_char "_" d2 = false ->
  t1 +:+ "_" +:+ d1 = t2 +:+ "_" +:+ d2 -> t1 = t2 /\ d1 = d2.
Proof.
  intros H1 H2. revert t2.
  induction t1 as [|a t1 IH]; intros [|b t2];
    rewrite ?append_nil, ?append_cons, ?append_nil; intros E.
  - by injection E as ->.
  - injection E as _ Ed. rewrite Ed, has_char_app in H1.
    simpl in H1. by rewrite orb_true_r in H1.
  - injection E as _ Ed. rewrite <- Ed, has_char_app in H2.
    simpl in H2. by rewrite orb_true_r in H2.
  - injection E as -> Et. destruct (IH _ Et) as [-> ->]. done.
Qed.

Lemma cache_key_inj (t1 t2 : string) (l1 l2 : Z) :
  LLM.cache_key t1 l1 = LLM.cache_key t2 l2 -> t1 = t2 /\ l1 = l2.
Proof.
  unfold LLM.cache_key. intros E.
  apply sep_inj in E; auto using of_Z_no_underscore.
  destruct E as [-> E]. split; [done|]. by apply of_Z_inj.
Qed.

Section EngineFacts.
Context `{PyRuntime}.

Lemma evaluate_rule_inv self text limit res self' :
  LLM.evaluate_rule self text limit = Ok (res, self') ->
  (LLM.rule_cache self !! LLM.cache_key text limit = Some res /\ self' = self)
  \/ (LLM.rule_cache self !! LLM.cache_key text limit = None
      /\ LLM.evaluate_uncached (LLM.data_cache self) text limit = Ok None
      /\ res = [] /\ self' = self)
  \/ (LLM.rule_cache self !! LLM.cache_key text limit = None
      /\ LLM.evaluate_uncached (LLM.data_cache self) text limit = Ok (Some res)
      /\ self' = {| LLM.data_cache := LLM.data_cache self;
                    LLM.rule_cache :=
                      <[LLM.cache_key text limit := res]> (LLM.rule_cache self) |}).
Proof.
  unfold LLM.evaluate_rule.
  destruct (LLM.rule_cache self !! LLM.cache_key text limit) as [cached|] eqn:Hc.
  - intros [= <- <-]. by left.
  - destruct (LLM.evaluate_uncached (LLM.data_cache self) text limit) as [[top|]|];
      simpl; intros E; try discriminate; injection E as <- <-.
    + right; right. done.
    + right; left. done.
Qed.

Lemma evaluate_rule_keeps_sound self text limit res self' :
  cache_sound self ->
  LLM.evaluate_rule self text limit = Ok (res, self') ->
  cache_sound self'.
Proof.
  intros Hs E.
  destruct (evaluate_rule_inv _ _ _ _ _ E) as [[_ ->]|[(_ & _ & _ & ->)|(Hc & Hu & ->)]]; try done.
  intros text' limit' cached. simpl.
  destruct (decide (LLM.cache_key text limit = LLM.cache_key text' limit')) as [Ek|Ne].
  - rewrite Ek, lookup_insert_eq. intros [= <-].
    apply cache_key_inj in Ek as [<- <-]. done.
  - rewrite lookup_insert_ne by done. apply Hs.
Qed.

Lemma reachable_sound self : reachable self -> cache_sound self.
Proof.
  induction 1 as [dc|self text limit res self' _ IH E].
  - intros text limit cached. simpl. by rewrite lookup_empty.
  - eapply evaluate_rule_keeps_sound; eauto.
Qed.

Lemma reachable_data self text limit res self' :
  LLM.evaluate_rule self text limit = Ok (res, self') ->
  LLM.data_cache self' = LLM.data_cache self.
Proof.
  intros E.
  destruct (evaluate_rule_inv _ _ _ _ _ E) as [[_ ->]|[(_ & _ & _ & ->)|(_ & _ & ->)]]; done.
Qed.

(** What [evaluate_rule] returns on a reachable engine is what the
    uncached evaluation computes. *)
Lemma evaluate_rule_uncached self text limit res self' :
  reachable self ->
  LLM.evaluate_rule self text limit = Ok (res, self') ->
  LLM.evaluate_uncached (LLM.data_cache self) text limit = Ok (Some res)
  \/ (LLM.evaluate_uncached (LLM.data_cache self) text limit = Ok None /\ res = []).
Proof.
  intros Hr E. pose proof (reachable_sound _ Hr) as Hs.
  destruct (evaluate_rule_inv _ _ _ _ _ E) as [[Hc _]|[(_ & Hu & -> & _)|(_ & Hu & _)]]; eauto.
Qed.

End EngineFacts.

(** ** The stable descending sort *)

Lemma insert_desc_Forall (P : LLM.RuleMatch -> Prop) m l :
  P m -> Forall P l -> Forall P (LLM.insert_desc m l).
Proof.
  intros Hm. induction 1 as [|y l Hy Hl IH]; simpl.
  - by constructor.
  - destruct (Qle_bool _ _); repeat constructor; auto.
Qed.

Lemma insert_desc_sorted m l :
  StronglySorted conf_ge l -> StronglySorted conf_ge (LLM.insert_desc m l).
Proof.
  induction 1 as [|y l Hl IH Hy]; simpl.
  - repeat constructor.
  - destruct (Qle_bool (LLM.match_confidence y) (LLM.match_confidence m)) eqn:E.
    + apply Qle_bool_iff in E.
      constructor; [by constructor|].
      constructor; [exact E|].
      eapply Forall_impl; [exact Hy|]. intros z Hz. unfold conf_ge in *.
      eapply Qle_trans; eauto.
    + constructor; [exact IH|].
      apply insert_desc_Forall; [|exact Hy].
      unfold conf_ge.
      destruct (Qlt_le_dec (LLM.match_confidence y) (LLM.match_confidence m)) as [Hlt|Hle];
        [|exact Hle].
      apply Qlt_le_weak, Qle_bool_iff in Hlt. congruence.
Qed.

Lemma sort_desc_sorted l : StronglySorted conf_ge (LLM.sort_desc l).
Proof. induction l; simpl; [constructor|by apply insert_desc_sorted]. Qed.

Lemma insert_desc_filter c m l :
  List.filter (has_conf c) (LLM.insert_desc m l)
  = List.filter (has_conf c) (m :: l).
Proof.
  induction l as [|y l IH]; [done|]. simpl LLM.insert_desc.
  destruct (Qle_bool (LLM.match_confidence y) (LLM.match_confidence m)) eqn:E; [done|].
  simpl in *. rewrite IH.
  destruct (has_conf c y) eqn:Hy, (has_conf c m) eqn:Hm; try done.
  unfold has_conf in *. apply Qeq_bool_iff in Hy, Hm.
  assert (Hle : (LLM.match_confidence y <= LLM.match_confidence m)%Q).
  { rewrite Hy, Hm. apply Qle_refl. }
  apply Qle_bool_iff in Hle. congruence.
Qed.

(** Stability: the matches of one confidence keep their order. *)
Lemma sort_desc_stable c l :
  List.filter (has_conf c) (LLM.sort_desc l) = List.filter (has_conf c) l.
Proof.
  induction l as [|m l IH]; [done|].
  simpl LLM.sort_desc. rewrite insert_desc_filter. simpl. by rewrite IH.
Qed.

Lemma insert_desc_perm m l : LLM.insert_desc m l ≡ₚ m :: l.
Proof.
  induction l as [|y l IH]; simpl; [done|].
  destruct (Qle_bool _ _); [done|]. rewrite IH. apply Permutation_swap.
Qed.

Lemma sort_desc_perm l : LLM.sort_desc l ≡ₚ l.
Proof.
  induction l as [|m l IH]; simpl; [done|]. by rewrite insert_desc_perm, IH.
Qed.

Lemma has_conf_self m : has_conf (LLM.match_confidence m) m = true.
Proof. unfold has_conf. apply Qeq_bool_iff. reflexivity. Qed.

Lemma filter_head_in {A : Type} (f : A -> bool) x l l' :
  List.filter f l = x :: l' -> In x l.
Proof.
  intros E. assert (Hin : In x (List.filter f l)) by (rewrite E; by left).
  by apply filter_In in Hin as [Hin _].
Qed.

(** Two descending lists with the same matches of every confidence, in
    the same order, are equal. *)
Lemma sorted_stable_unique l1 : forall l2,
  StronglySorted conf_ge l1 -> StronglySorted conf_ge l2 ->
  (forall c, List.filter (has_conf c) l1 = List.filter (has_conf c) l2) ->
  l1 = l2.
Proof.
  induction l1 as [|x l1 IH]; intros l2 H1 H2 Hf.
  - destruct l2 as [|y l2]; [done|].
    specialize (Hf (LLM.match_confidence y)). simpl in Hf.
    by rewrite has_conf_self in Hf.
  - destruct l2 as [|y l2].
    { specialize (Hf (LLM.match_confidence x)). simpl in Hf.
      by rewrite has_conf_self in Hf. }
    apply StronglySorted_inv in H1 as [H1 Hx].
    apply StronglySorted_inv in H2 as [H2 Hy].
    assert (Hxy : (LLM.match_confidence x <= LLM.match_confidence y)%Q).
    { pose proof (Hf (LLM.match_confidence x)) as E. simpl in E.
      rewrite has_conf_self in E. symmetry in E.
      destruct (has_conf (LLM.match_confidence x) y) eqn:Ey.
      - unfold has_conf in Ey. apply Qeq_bool_iff in Ey. rewrite Ey. apply Qle_refl.
      - apply filter_head_in in E. rewrite List.Forall_forall in Hy. by apply Hy. }
    assert (Hyx : (LLM.match_confidence y <= LLM.match_confidence x)%Q).
    { pose proof (Hf (LLM.match_confidence y)) as E. simpl in E.
      rewrite has_conf_self in E.
      destruct (has_conf (LLM.match_confidence y) x) eqn:Ex.
      - unfold has_conf in Ex. apply Qeq_bool_iff in Ex. rewrite Ex. apply Qle_refl.
      - apply filter_head_in in E. rewrite List.Forall_forall in Hx. by apply Hx. }
    assert (Hc : has_conf (LLM.match_confidence x) y = true).
    { unfold has_conf. apply Qeq_bool_iff. by apply Qle_antisym. }
    assert (Hhead : x = y).
    { pose proof (Hf (LLM.match_confidence x)) as E. simpl in E.
      rewrite has_conf_self, Hc in E. by injection E. }
    subst y. f_equal. apply IH; [done|done|].
    intros c. specialize (Hf c). simpl in Hf.
    destruct (has_conf c x); [by injection Hf|done].
Qed.

(** Every stable descending sort returns what [sort_desc] returns. *)
Lemma stable_sort_unique l sorted :
  StronglySorted conf_ge sorted ->
  (forall c, List.filter (has_conf c) sorted = List.filter (has_conf c) l) ->
  sorted = LLM.sort_desc l.
Proof.
  intros Hs Hf. apply sorted_stable_unique; [done|apply sort_desc_sorted|].
  intros c. by rewrite Hf, sort_desc_stable.
Qed.

Lemma take_sorted {A : Type} (R : A -> A -> Prop) n l :
  StronglySorted R l -> StronglySorted R (take n l).
Proof.
  intros Hs. revert n. induction Hs as [|x l Hl IH Hx]; intros [|n]; simpl;
    try constructor; auto.
  apply Forall_take. done.
Qed.

Lemma filter_sublist {A : Type} (f : A -> bool) l1 l2 :
  l1 `sublist_of` l2 -> List.filter f l1 `sublist_of` List.filter f l2.
Proof.
  induction 1 as [|x l1 l2 _ IH|x l1 l2 _ IH]; simpl.
  - constructor.
  - destruct (f x); [by constructor|done].
  - destruct (f x); [by constructor|done].
Qed.

Lemma filter_is_sublist {A : Type} (f : A -> bool) l :
  List.filter f l `sublist_of` l.
Proof.
  induction l as [|x l IH]; simpl; [constructor|].
  destruct (f x); by constructor.
Qed.

Lemma map_sublist {A B : Type} (f : A -> B) l1 l2 :
  l1 `sublist_of` l2 -> map f l1 `sublist_of` map f l2.
Proof. induction 1; simpl; by constructor. Qed.

Lemma slice_to_take {A : Type} (limit : Z) (l : list A) :
  exists n, LLM.slice_to limit l = take n l.
Proof. unfold LLM.slice_to. destruct (0 <=? limit); eauto. Qed.

Lemma slice_to_length {A : Type} (limit : Z) (l : list A) :
  0 <= limit -> Z.of_nat (length (LLM.slice_to limit l)) <= limit.
Proof.
  intros Hl. unfold LLM.slice_to.
  destruct (Z.leb_spec 0 limit); [|lia].
  rewrite length_take. lia.
Qed.

Section Ranking.
Context `{PyRuntime}.

Lemma evaluate_appointment_id dc appt_id rule t m :
  LLM._evaluate_appointment dc appt_id rule t = Ok (Some m) ->
  LLM.appointment_id m = appt_id.
Proof.
  unfold LLM._evaluate_appointment.
  destruct (LLM._build_context dc appt_id t) as [ctx|]; [|done].
  destruct (LLM.score_conditions ctx (LLM.conditions rule) 0 0) as [[total k]|];
    simpl; [|done].
  destruct (k =? 0)%nat; [done|]. by intros [= <-].
Qed.

Lemma evaluate_appointment_inv dc appt_id rule t m :
  LLM._evaluate_appointment dc appt_id rule t = Ok (Some m) ->
  exists context,
    LLM._build_context dc appt_id t = Some context
    /\ LLM.appointment_id m = appt_id
    /\ LLM.triggered_actions m = LLM._generate_actions (LLM.actions rule) context
    /\ LLM.match_patient_id m = LLM.get_or_none context "patient_id".
Proof.
  unfold LLM._evaluate_appointment.
  destruct (LLM._build_context dc appt_id t) as [context|]; [|done].
  destruct (LLM.score_conditions context (LLM.conditions rule) 0 0) as [[total k]|];
    simpl; [|done].
  destruct (k =? 0)%nat; [done|]. intros [= <-]. eauto.
Qed.

(** The collected matches follow the iteration over the appointments. *)
Lemma collect_matches_order dc rule limit ids acc ms :
  LLM.collect_matches dc rule limit ids acc = Ok ms ->
  exists new, ms = acc ++ new /\ map LLM.appointment_id new `sublist_of` ids.
Proof.
  revert acc. induction ids as [|appt_id ids IH]; intros acc; simpl.
  - intros [= <-]. exists []. rewrite app_nil_r. split; [done|constructor].
  - destruct (LLM._evaluate_appointment dc appt_id rule LLM.current_time)
      as [[m|]|] eqn:Em; simpl; [| |done].
    + apply evaluate_appointment_id in Em.
      destruct (limit * 2 <=? Z.of_nat (length (acc ++ [m]))).
      * intros [= <-]. exists [m]. split; [done|].
        simpl. rewrite Em. constructor. apply sublist_nil_l.
      * intros E. apply IH in E as (new & -> & Hsub).
        exists (m :: new). rewrite <- app_assoc. split; [done|].
        simpl. rewrite Em. by constructor.
    + intros E. apply IH in E as (new & -> & Hsub).
      exists new. split; [done|]. by constructor.
Qed.

Lemma evaluate_uncached_ranked dc text limit res :
  LLM.evaluate_uncached dc text limit = Ok (Some res) ->
  StronglySorted conf_ge res
  /\ (forall c, map LLM.appointment_id (List.filter (has_conf c) res)
                `sublist_of` map fst (LLM.appointments dc))
  /\ (0 <= limit -> Z.of_nat (length res) <= limit).
Proof.
  unfold LLM.evaluate_uncached.
  destruct (LLM.semantic_parse text) as [rule|]; [|done].
  destruct (LLM.collect_matches dc rule limit (map fst (LLM.appointments dc)) [])
    as [ms|] eqn:Ec; simpl; [|done].
  intros [= <-].
  apply collect_matches_order in Ec as (new & -> & Hsub). simpl in *.
  split; [|split].
  - destruct (slice_to_take limit (LLM.sort_desc new)) as [n ->].
    apply take_sorted, sort_desc_sorted.
  - intros c.
    destruct (slice_to_take limit (LLM.sort_desc new)) as [n ->].
    etrans; [|exact Hsub]. apply map_sublist.
    etrans; [apply filter_sublist, sublist_take|].
    rewrite sort_desc_stable. apply filter_is_sublist.
  - apply slice_to_length.
Qed.

End Ranking.

(** ** Scoring *)

Section Scoring.
Context `{PyRuntime}.

Lemma score_conditions_spec context conds total k :
  Forall (no_raise context) conds ->
  exists total',
    LLM.score_conditions context conds total k
    = Ok (total', (k + length (List.filter (satisfied context) conds))%nat)
    /\ (total' == total + sum_q (map LLM.confidence (List.filter (satisfied context) conds)))%Q.
Proof.
  intros Hs. revert total k.
  induction Hs as [|c conds Hc _ IH]; intros total k; simpl.
  - exists total. split; [by rewrite Nat.add_0_r|].
    unfold sum_q. cbn [List.filter map fold_right]. by rewrite Qplus_0_r.
  - unfold no_raise in Hc.
    destruct (LLM._evaluate_condition c context) as [b|] eqn:Ec; [|done].
    assert (Hsat : satisfied context c = b) by (unfold satisfied; by rewrite Ec).
    cbn [List.filter]. rewrite Hsat. simpl mbind. destruct b.
    + destruct (IH (total + LLM.confidence c)%Q (S k)) as (t & -> & Ht).
      exists t. split; [f_equal; f_equal; simpl; lia|].
      rewrite Ht. unfold sum_q. cbn [map fold_right]. ring.
    + apply IH.
Qed.

Lemma evaluate_appointment_spec dc appt_id rule t context :
  LLM._build_context dc appt_id t = Some context ->
  Forall (no_raise context) (LLM.conditions rule) ->
  match List.filter (satisfied context) (LLM.conditions rule) with
  | [] => LLM._evaluate_appointment dc appt_id rule t = Ok None
  | _ :: _ =>
      exists m,
        LLM._evaluate_appointment dc appt_id rule t = Ok (Some m)
        /\ (LLM.match_confidence m == spec_confidence context (LLM.conditions rule))%Q
        /\ LLM.appointment_id m = appt_id
        /\ LLM.match_patient_id m = LLM.get_or_none context "patient_id"
        /\ LLM.triggered_actions m = LLM._generate_actions (LLM.actions rule) context
  end.
Proof.
  intros Hctx Hs. unfold LLM._evaluate_appointment. rewrite Hctx.
  destruct (score_conditions_spec context (LLM.conditions rule) 0 0 Hs) as (total & -> & Ht).
  simpl. unfold spec_confidence.
  destruct (List.filter (satisfied context) (LLM.conditions rule)) as [|c sat]; [done|].
  simpl length. simpl Nat.eqb. eexists. split; [reflexivity|]. simpl.
  split; [|done]. rewrite Ht. by rewrite Qplus_0_l.
Qed.

(** *** Rules of the parser on contexts of the builder never raise *)

Lemma Forall_flat_map {A B : Type} (P : B -> Prop) (f : A -> list B) l :
  (forall x, Forall P (f x)) -> Forall P (flat_map f l).
Proof.
  intros Hf. induction l as [|x l IH]; simpl; [constructor|].
  apply Forall_app. split; [apply Hf|exact IH].
Qed.

Lemma parsed_conditions_shape text :
  Forall safe_shape (LLM._parse_conditions_semantic text).
Proof.
  unfold LLM._parse_conditions_semantic. repeat rewrite Forall_app. repeat split.
  - unfold LLM.risk_conditions. destruct (PyStr.contains_any _ _); [|constructor].
    apply Forall_flat_map. intros level.
    destruct (PyStr.contains level text); [|constructor].
    apply Forall_singleton. by left.
  - unfold LLM.time_conditions. apply Forall_flat_map. intros [r|r hours].
    + destruct (Re.search false r text); [|constructor].
      apply Forall_singleton. right; right. simpl. eauto.
    + destruct (Re.matches false r text); [|constructor].
      apply Forall_singleton. right; right. simpl. eauto.
  - unfold LLM.intake_conditions.
    repeat (case_match; try (by constructor)); apply Forall_singleton; by left.
  - unfold LLM.language_conditions.
    repeat (case_match; try (by constructor)); apply Forall_singleton; by left.
  - unfold LLM.appointment_type_conditions. apply Forall_flat_map. intros a.
    destruct (PyStr.contains _ _); [|constructor].
    apply Forall_singleton. right; by left.
Qed.

Lemma hours_until_numeric t appt : numeric (LLM.hours_until_of t appt).
Proof.
  unfold LLM.hours_until_of, LLM.max0.
  repeat (case_match; simpl; try done).
Qed.

Lemma build_context_hours dc appt_id t context :
  LLM._build_context dc appt_id t = Some context ->
  exists appt, LLM.appointments_get (LLM.appointments dc) appt_id = Some appt
               /\ context !! "hours_until" = Some (LLM.hours_until_of t appt).
Proof.
  unfold LLM._build_context.
  destruct (LLM.appointments_get (LLM.appointments dc) appt_id) as [appt|]; [|done].
  intros E. apply (inj Some) in E. subst context.
  exists appt. split; [reflexivity|]. vm_compute. reflexivity.
Qed.

Lemma safe_shape_no_raise dc appt_id t context c :
  LLM._build_context dc appt_id t = Some context ->
  safe_shape c -> no_raise context c.
Proof.
  intros Hctx Hc. unfold no_raise, LLM._evaluate_condition.
  destruct Hc as [Hop|[Hop|(Hop & Hf & z & Hv)]]; rewrite Hop.
  - destruct (context !! LLM.field c) as [[]|]; done.
  - destruct (context !! LLM.field c) as [[]|]; done.
  - apply build_context_hours in Hctx as (appt & _ & Hh).
    rewrite Hf, Hh, Hv.
    pose proof (hours_until_numeric t appt) as Hn.
    destruct (LLM.hours_until_of t appt); done.
Qed.

Lemma parsed_rule_no_raise text rule dc appt_id t context :
  LLM.semantic_parse text = Some rule ->
  LLM._build_context dc appt_id t = Some context ->
  Forall (no_raise context) (LLM.conditions rule).
Proof.
  unfold LLM.semantic_parse.
  destruct (Re.search false LLM.if_then_re _) as [m|]; [|done].
  intros [= <-] Hctx. simpl.
  eapply Forall_impl; [apply parsed_conditions_shape|].
  intros c. by eapply safe_shape_no_raise.
Qed.

End Scoring.

(** ** Do-not-contact *)

Section Guardrail.
Context `{PyRuntime}.

Lemma generate_actions_flagged actions context :
  flagged context = true -> LLM._generate_actions actions context = [].
Proof. unfold flagged, LLM._generate_actions. by intros ->. Qed.

Lemma generate_actions_unflagged actions context :
  flagged context = false ->
  LLM._generate_actions actions context = LLM.render_each context actions.
Proof. unfold flagged, LLM._generate_actions. by intros ->. Qed.

Lemma build_context_patient dc appt_id t context appt p :
  LLM._build_context dc appt_id t = Some context ->
  LLM.appointments_get (LLM.appointments dc) appt_id = Some appt ->
  LLM.patients dc !! appt_patient_id appt = Some p ->
  context !! "patient_dnc" = Some (VBool (default false (dnc p)))
  /\ context !! "patient_id" = Some (VStr (patient_id p)).
Proof.
  unfold LLM._build_context. intros E Ha Hp. rewrite Ha, Hp in E.
  apply (inj Some) in E. subst context. split; vm_compute; reflexivity.
Qed.

Lemma build_context_total dc appt_id t appt :
  LLM.appointments_get (LLM.appointments dc) appt_id = Some appt ->
  exists context, LLM._build_context dc appt_id t = Some context.
Proof. unfold LLM._build_context. intros ->. eauto. Qed.
End Guardrail.

Section Matches.
Context `{PyRuntime}.

(** A match of an appointment whose patient is on do-not-contact. *)
Lemma flagged_patient_match dc appt_id t rule appt p context :
  LLM.appointments_get (LLM.appointments dc) appt_id = Some appt ->
  LLM.patients dc !! appt_patient_id appt = Some p ->
  dnc p = Some true ->
  LLM._build_context dc appt_id t = Some context ->
  Forall (no_raise context) (LLM.conditions rule) ->
  List.filter (satisfied context) (LLM.conditions rule) <> [] ->
  exists m,
    LLM._evaluate_appointment dc appt_id rule t = Ok (Some m)
    /\ LLM.appointment_id m = appt_id
    /\ LLM.match_patient_id m = VStr (patient_id p)
    /\ LLM.triggered_actions m = [].
Proof.
  intros Ha Hp Hd Hctx Hs Hsat.
  pose proof (evaluate_appointment_spec dc appt_id rule t context Hctx Hs) as Hm.
  destruct (List.filter (satisfied context) (LLM.conditions rule)); [done|].
  destruct Hm as (m & Em & _ & Hid & Hpid & Hact).
  destruct (build_context_patient _ _ _ _ _ _ Hctx Ha Hp) as [Hdnc Hpat].
  exists m. repeat split; [done..| |].
  - rewrite Hpid. unfold LLM.get_or_none. by rewrite Hpat.
  - rewrite Hact. apply generate_actions_flagged.
    unfold flagged. rewrite Hdnc, Hd. done.
Qed.
End Matches.

(** ** Template failures *)

Section Templates.
Context `{PyRuntime}.

Lemma render_pieces_missing kw ps name :
  In name (field_names ps) ->
  kw !! name = None ->
  Py.render_pieces kw ps = Raise.
Proof.
  unfold field_names. intros Hin Hk.
  induction ps as [|[c|body] ps IH]; simpl in *; [done| |].
  - by rewrite IH.
  - destruct Hin as [<-|Hin].
    + unfold Py.render_field. rewrite Hk.
      by destruct (Py.all_digits (Py.arg_name body)).
    + rewrite IH by done. by destruct (Py.render_field kw body).
Qed.

Lemma format_missing tpl kw name :
  In name (placeholders tpl) -> kw !! name = None -> Py.format tpl kw = Raise.
Proof.
  unfold placeholders, Py.format.
  destruct (Py.parse_format tpl) as [ps|]; [|done].
  apply render_pieces_missing.
Qed.

Lemma render_action_missing context a name :
  In name (action_placeholders a) -> context !! name = None ->
  LLM.render_action context a = Raise.
Proof.
  unfold action_placeholders, LLM.render_action. intros Hin Hk.
  destruct (LLM.action_type a), (LLM.template a) as [t|s b]; try done;
    try (by rewrite (format_missing t context name Hin Hk)).
  apply in_app_or in Hin as [Hin|Hin].
  - by rewrite (format_missing s context name Hin Hk).
  - rewrite (format_missing b context name Hin Hk).
    by destruct (Py.format s context).
Qed.

Lemma render_each_app context l1 l2 :
  LLM.render_each context (l1 ++ l2)
  = LLM.render_each context l1 ++ LLM.render_each context l2.
Proof.
  induction l1 as [|a l1 IH]; simpl; [done|].
  destruct (LLM.render_action context a); by rewrite IH.
Qed.

Lemma render_each_drop context before a after :
  LLM.render_action context a = Raise ->
  LLM.render_each context (before ++ a :: after)
  = LLM.render_each context before ++ LLM.render_each context after.
Proof. intros E. rewrite render_each_app. simpl. by rewrite E. Qed.

Lemma generate_actions_drop context before a after :
  LLM.render_action context a = Raise ->
  LLM._generate_actions (before ++ a :: after) context
  = LLM._generate_actions (before ++ after) context.
Proof.
  intros E. unfold LLM._generate_actions.
  destruct (Py.truthy _); [done|].
  by rewrite render_each_drop, render_each_app.
Qed.

Lemma render_each_sibling context actions b r :
  In b actions -> LLM.render_action context b = Ok r ->
  In r (LLM.render_each context actions).
Proof.
  intros Hin Hb. induction actions as [|a actions IH]; simpl in *; [done|].
  destruct Hin as [->|Hin].
  - rewrite Hb. by left.
  - destruct (LLM.render_action context a); [right|]; auto.
Qed.
End Templates.

(** [render_template] of the event-driven engine never fails. *)

Lemma startswith_contains old s :
  PyStr.startswith old s = true -> PyStr.contains old s = true.
Proof. intros E. destruct s; simpl in *; by rewrite E. Qed.

Lemma replace_absent old new s :
  old <> "" -> PyStr.contains old s = false -> PyStr.replace old new s = s.
Proof.
  intros Hne. unfold PyStr.replace.
  induction s as [|c s IH]; [done|]. intros Hc.
  cbn [PyStr.replace_from].
  cbn [PyStr.contains] in Hc. apply orb_false_iff in Hc as [Hs Hc].
  rewrite Hs. f_equal. by apply IH.
Qed.

Lemma render_template_verbatim tpl data :
  (forall k v, In (k, v) data -> PyStr.contains ("{{" +:+ k +:+ "}}") tpl = false) ->
  Events.render_template tpl data = tpl.
Proof.
  unfold Events.render_template.
  destruct (String.eqb_spec tpl ""); [done|].
  induction data as [|[k v] data IH]; intros Hk; [done|]. simpl.
  rewrite replace_absent; [|done|apply (Hk k v); by left].
  apply IH. intros k' v' Hin. apply (Hk k' v'). by right.
Qed.

Lemma render_loop_length rule patient data acts lines :
  Events.render_loop rule patient data acts = Ok lines ->
  length lines = length acts.
Proof.
  revert lines. induction acts as [|a acts IH]; intros lines; simpl.
  - by intros [= <-].
  - destruct (Events.render_one rule patient data a); [|done]. simpl.
    destruct (Events.render_loop rule patient data acts); [|done]. simpl.
    intros [= <-]. simpl. f_equal. by apply IH.
Qed.

Section Edges.
Context `{PyRuntime}.

(** *** Rules without conditions *)

Lemma evaluate_appointment_no_conditions dc appt_id rule t :
  LLM.conditions rule = [] ->
  LLM._evaluate_appointment dc appt_id rule t = Ok None.
Proof.
  intros E. unfold LLM._evaluate_appointment. rewrite E.
  by destruct (LLM._build_context dc appt_id t).
Qed.

Lemma collect_matches_none dc rule limit ids acc :
  (forall appt_id, LLM._evaluate_appointment dc appt_id rule LLM.current_time = Ok None) ->
  LLM.collect_matches dc rule limit ids acc = Ok acc.
Proof.
  intros Hn. induction ids as [|appt_id ids IH]; simpl; [done|].
  by rewrite Hn.
Qed.

Lemma slice_to_nil {A : Type} (limit : Z) : LLM.slice_to limit (@nil A) = [].
Proof. unfold LLM.slice_to. destruct (0 <=? limit); apply take_nil. Qed.

(** *** Comparisons *)

Lemma evaluate_condition_absent c context :
  context !! LLM.field c = None \/ context !! LLM.field c = Some VNone ->
  LLM._evaluate_condition c context = Ok false.
Proof. unfold LLM._evaluate_condition. by intros [-> | ->]. Qed.

(** *** The clock of the pattern-table engine *)

Lemma simple_datetime_diff_dashed current_str appt_str :
  PyStr.contains "T"
    (PyStr.split_head "-" (PyStr.split_head "+" (PyStr.replace "Z" "" current_str))) = false ->
  Syntax.simple_datetime_diff current_str appt_str = VInt 24.
Proof. unfold Syntax.simple_datetime_diff. by intros ->. Qed.

(** [hours_until] in [_build_context]: the difference in hours, not
    below zero, and 24 when a time stamp is missing or does not parse. *)
Lemma hours_until_difference t appt s current_dt appt_dt secs :
  fromisoformat (PyStr.replace "Z" "" t) = Some current_dt ->
  start_time appt = Some s ->
  fromisoformat s = Some appt_dt ->
  seconds_between appt_dt current_dt = Some secs ->
  LLM.hours_until_of t appt
  = if Qle_bool (secs / 3600) 0 then VInt 0 else VFloat (secs / 3600).
Proof.
  unfold LLM.hours_until_of, LLM.max0. intros -> -> Hs Hd.
  simpl. by rewrite Hs, Hd.
Qed.

Lemma hours_until_fallback t appt :
  fromisoformat (PyStr.replace "Z" "" t) = None
  \/ start_time appt ≫= fromisoformat = None ->
  LLM.hours_until_of t appt = VInt 24.
Proof.
  unfold LLM.hours_until_of. intros [-> | ->]; [done|].
  by destruct (fromisoformat _).
Qed.
End Edges.

(** The pattern-table engine on the same questions. *)

Lemma syntax_no_conditions_match rule context :
  Syntax.conditions rule = [] -> Syntax.evaluate_rule rule context = true.
Proof. unfold Syntax.evaluate_rule. by intros ->. Qed.

Lemma syntax_comparison_on_text context key op bound s :
  op = "<=" \/ op = ">=" ->
  context !! key = Some (VStr s) ->
  Syntax.condition_holds context key (Syntax.CCmp op bound) = false.
Proof. unfold Syntax.condition_holds. intros [-> | ->] ->; reflexivity. Qed.

Lemma syntax_parse_rule_actions text rule :
  Syntax.parse_rule text = Some rule -> Syntax.actions rule <> [].
Proof.
  unfold Syntax.parse_rule.
  destruct (match Re.rmatch_here _ _ _ with Some _ => _ | None => _ end) as [rid content].
  destruct (List.fold_right _ _ _) as [conditions_text actions_text].
  destruct (_ || _); [done|].
  destruct (Syntax.extract_actions actions_text) as [acts tpls].
  destruct acts; [done|]. by intros [= <-].
Qed.

(** ** What the matcher decides *)

Lemma append_nil_r (s : string) : s +:+ "" = s.
Proof. induction s as [|c s IH]; [done|]. by rewrite append_cons, IH. Qed.

Lemma append_assoc (a b c : string) : (a +:+ b) +:+ c = a +:+ (b +:+ c).
Proof. induction a as [|x a IH]; [done|]. by rewrite !append_cons, IH. Qed.

Section MatcherFacts.
Context (ic : bool) {R : Type}.

Lemma plus_greedy_sound p s (k : string -> option R) x :
  Re.plus_greedy p s k = Some x ->
  exists a b, s = a +:+ b /\ a <> "" /\ all_in p a /\ k b = Some x.
Proof.
  induction s as [|c s IH]; simpl; [done|].
  destruct (p c) eqn:Hc; [|done].
  destruct (Re.plus_greedy p s k) as [y|] eqn:E.
  - intros [= ->]. destruct (IH eq_refl) as (a & b & -> & _ & Ha & Hk).
    exists (String c a), b. by repeat split.
  - intros Hk. exists (String c ""), s. by repeat split.
Qed.

Lemma plus_lazy_sound p s (k : string -> option R) x :
  Re.plus_lazy p s k = Some x ->
  exists a b, s = a +:+ b /\ a <> "" /\ all_in p a /\ k b = Some x.
Proof.
  induction s as [|c s IH]; simpl; [done|].
  destruct (p c) eqn:Hc; [|done].
  destruct (k s) as [y|] eqn:E.
  - intros [= ->]. exists (String c ""), s. by repeat split.
  - intros Hk. destruct (IH Hk) as (a & b & -> & _ & Ha & Hb).
    exists (String c a), b. by repeat split.
Qed.

Lemma plus_greedy_complete p a b (k : string -> option R) :
  a <> "" -> all_in p a -> is_Some (k b) -> is_Some (Re.plus_greedy p (a +:+ b) k).
Proof.
  induction a as [|c a IH]; [done|]. intros _ [Hc Ha] Hk.
  rewrite append_cons. simpl. rewrite Hc.
  destruct a as [|c' a].
  - rewrite append_nil. destruct (Re.plus_greedy p b k); [by eexists|done].
  - destruct (IH (ltac:(done)) Ha Hk) as [y ->]. by eexists.
Qed.

Lemma plus_lazy_complete p a b (k : string -> option R) :
  a <> "" -> all_in p a -> is_Some (k b) -> is_Some (Re.plus_lazy p (a +:+ b) k).
Proof.
  induction a as [|c a IH]; [done|]. intros _ [Hc Ha] Hk.
  rewrite append_cons. simpl. rewrite Hc.
  destruct (k (a +:+ b)) as [y|] eqn:E; [by eexists|].
  destruct a as [|c' a].
  - rewrite append_nil in E. destruct Hk as [y Hy]. congruence.
  - by apply IH.
Qed.

Lemma rmatch_sound r : forall s caps (k : string -> list string -> option R) x,
  Re.rmatch ic r s caps k = Some x ->
  exists a b caps', s = a +:+ b /\ lang ic r a /\ k b caps' = Some x.
Proof.
  induction r as [|c|p|r1 IH1 r2 IH2|r1 IH1 r2 IH2|r1 IH1|p|p|p|r1 IH1];
    intros s caps k x; simpl.
  - intros Hk. exists "", s, caps. by rewrite append_nil.
  - destruct s as [|c' s]; [done|]. destruct (Re.char_eq ic c c') eqn:E; [|done].
    intros Hk. exists (String c' ""), s, caps. repeat split; eauto.
  - destruct s as [|c' s]; [done|]. destruct (p c') eqn:E; [|done].
    intros Hk. exists (String c' ""), s, caps. repeat split; eauto.
  - intros E. apply IH1 in E as (a & b & caps1 & -> & Ha & E).
    apply IH2 in E as (a' & b' & caps2 & -> & Ha' & E).
    exists (a +:+ a'), b', caps2. rewrite append_assoc. repeat split; eauto.
  - destruct (Re.rmatch ic r1 s caps k) as [y|] eqn:E.
    + intros [= ->]. apply IH1 in E as (a & b & caps' & -> & Ha & E).
      exists a, b, caps'. repeat split; eauto.
    + intros E2. apply IH2 in E2 as (a & b & caps' & -> & Ha & E2).
      exists a, b, caps'. repeat split; eauto.
  - destruct (Re.rmatch ic r1 s caps k) as [y|] eqn:E.
    + intros [= ->]. apply IH1 in E as (a & b & caps' & -> & Ha & E).
      exists a, b, caps'. repeat split; eauto.
    + intros Hk. exists "", s, caps. rewrite append_nil. repeat split; eauto.
  - intros E. apply plus_greedy_sound in E as (a & b & -> & Hne & Ha & Hk).
    exists a, b, caps. by repeat split.
  - intros E. apply plus_lazy_sound in E as (a & b & -> & Hne & Ha & Hk).
    exists a, b, caps. by repeat split.
  - unfold Re.star_greedy.
    destruct (Re.plus_greedy p s (fun s' => k s' caps)) as [y|] eqn:E.
    + intros [= ->]. apply plus_greedy_sound in E as (a & b & -> & Hne & Ha & Hk).
      exists a, b, caps. by repeat split.
    + intros Hk. exists "", s, caps. rewrite append_nil. by repeat split.
  - intros E. apply IH1 in E as (a & b & caps' & -> & Ha & E).
    eexists a, b, _. repeat split; eauto.
Qed.

Lemma rmatch_complete r : forall a b caps (k : string -> list string -> option R),
  lang ic r a -> (forall caps', is_Some (k b caps')) ->
  is_Some (Re.rmatch ic r (a +:+ b) caps k).
Proof.
  induction r as [|c|p|r1 IH1 r2 IH2|r1 IH1 r2 IH2|r1 IH1|p|p|p|r1 IH1];
    intros a b caps k; simpl.
  - intros -> Hk. rewrite append_nil. apply Hk.
  - intros (c' & -> & E) Hk. rewrite append_cons, append_nil. rewrite E. apply Hk.
  - intros (c' & -> & E) Hk. rewrite append_cons, append_nil. rewrite E. apply Hk.
  - intros (a1 & a2 & -> & H1 & H2) Hk. rewrite append_assoc.
    apply IH1; [done|]. intros caps'. by apply IH2.
  - intros [H1|H2] Hk.
    + destruct (IH1 a b caps k H1 Hk) as [y ->]. by eexists.
    + destruct (Re.rmatch ic r1 (a +:+ b) caps k); [by eexists|]. by apply IH2.
  - intros [->|H1] Hk.
    + rewrite append_nil. destruct (Re.rmatch ic r1 b caps k); [by eexists|]. apply Hk.
    + destruct (IH1 a b caps k H1 Hk) as [y ->]. by eexists.
  - intros [Hne Ha] Hk. by apply plus_greedy_complete.
  - intros [Hne Ha] Hk. by apply plus_lazy_complete.
  - intros Ha Hk. unfold Re.star_greedy.
    destruct a as [|c a].
    + rewrite append_nil. destruct (Re.plus_greedy p b _); [by eexists|]. apply Hk.
    + destruct (plus_greedy_complete p (String c a) b (fun s' => k s' caps)) as [y ->];
        [done|done|apply Hk|]. by eexists.
  - intros Ha Hk. apply IH1; [done|]. intros caps'. apply Hk.
Qed.
End MatcherFacts.

(** [re.search] finds a match exactly when some part of the text is in
    the language of the pattern. *)
Lemma search_sound ic r s m :
  Re.search ic r s = Some m ->
  exists pre a post, s = pre +:+ a +:+ post /\ lang ic r a.
Proof.
  induction s as [|c s IH]; simpl.
  - unfold Re.rmatch_here. destruct (Re.rmatch _ _ _ _ _) eqn:E; [|done].
    intros _. apply rmatch_sound in E as (a & b & caps & Hs & Ha & _).
    exists "", a, b. by rewrite append_nil.
  - unfold Re.rmatch_here. destruct (Re.rmatch _ _ _ _ _) eqn:E.
    + intros _. apply rmatch_sound in E as (a & b & caps & Hs & Ha & _).
      exists "", a, b. by rewrite append_nil.
    + intros E2. destruct (IH E2) as (pre & a & post & -> & Ha).
      exists (String c pre), a, post. by rewrite append_cons.
Qed.

Lemma search_complete ic r pre a post :
  lang ic r a -> is_Some (Re.search ic r (pre +:+ a +:+ post)).
Proof.
  intros Ha.
  assert (Hhere : forall s, s = a +:+ post -> is_Some (Re.rmatch_here ic r s)).
  { intros s ->. unfold Re.rmatch_here. apply rmatch_complete; [done|].
    intros caps. by eexists. }
  induction pre as [|c pre IH].
  - rewrite append_nil.
    destruct (a +:+ post) as [|c s] eqn:E; simpl;
      destruct (Hhere _ eq_refl) as [m ->]; by eexists.
  - rewrite append_cons. simpl.
    destruct (Re.rmatch_here ic r _); [by eexists|]. exact IH.
Qed.

Lemma search_none ic r s :
  Re.search ic r s = None <->
  forall pre a post, s = pre +:+ a +:+ post -> ~ lang ic r a.
Proof.
  split.
  - intros E pre a post -> Ha.
    destruct (search_complete ic r pre a post Ha) as [m Hm]. congruence.
  - intros Hn. destruct (Re.search ic r s) as [m|] eqn:E; [|done].
    apply search_sound in E as (pre & a & post & Hs & Ha). by destruct (Hn _ _ _ Hs).
Qed.

Lemma lang_char c s : lang false (Re.RChar c) s <-> s = String c "".
Proof.
  simpl. split.
  - intros (c' & -> & E). unfold Re.char_eq in E. by apply Ascii.eqb_eq in E as ->.
  - intros ->. exists c. split; [done|]. unfold Re.char_eq. apply Ascii.eqb_refl.
Qed.

Lemma lang_str w s : lang false (Re.RStr w) s <-> s = w.
Proof.
  revert s. induction w as [|c w IH]; intros s; [done|].
  destruct w as [|d w].
  - apply lang_char.
  - change (Re.RStr (String c (String d w)))
      with (Re.RSeq (Re.RChar c) (Re.RStr (String d w))).
    cbn [lang]. split.
    + intros (a & b & -> & Ha & Hb). apply lang_char in Ha as ->. by apply IH in Hb as ->.
    + intros ->. exists (String c ""), (String d w). split; [done|].
      split; [by apply lang_char|by apply IH].
Qed.

Lemma lang_if_then s :
  lang false LLM.if_then_re s <->
  exists w1 cond w2 w3 act,
    s = "if" +:+ w1 +:+ cond +:+ w2 +:+ "then" +:+ w3 +:+ act
    /\ spaces w1 /\ on_one_line cond /\ spaces w2 /\ spaces w3 /\ on_one_line act.
Proof.
  unfold LLM.if_then_re. cbn [Re.RCat lang]. split.
  - intros (a0 & b0 & -> & H0 & a1 & b1 & -> & H1 & a2 & b2 & -> & H2
            & a3 & b3 & -> & H3 & a4 & b4 & -> & H4 & a5 & b5 & -> & H5 & H6).
    apply lang_str in H0 as ->. apply lang_str in H4 as ->.
    exists a1, a2, a3, a5, b5. done.
  - intros (w1 & cond & w2 & w3 & act & -> & H1 & H2 & H3 & H4 & H5).
    exists "if", (w1 +:+ cond +:+ w2 +:+ "then" +:+ w3 +:+ act).
    split; [done|]. split; [by apply lang_str|].
    exists w1, (cond +:+ w2 +:+ "then" +:+ w3 +:+ act). repeat (split; [done|]).
    exists cond, (w2 +:+ "then" +:+ w3 +:+ act). repeat (split; [done|]).
    exists w2, ("then" +:+ w3 +:+ act). repeat (split; [done|]).
    exists "then", (w3 +:+ act). split; [done|]. split; [by apply lang_str|].
    exists w3, act. done.
Qed.

(** The pattern of [semantic_parse] is found exactly in the texts that
    have the boundary. *)
Lemma if_then_search s :
  Re.search false LLM.if_then_re s = None <-> ~ has_if_then s.
Proof.
  rewrite search_none. split.
  - intros Hn (pre & w1 & cond & w2 & w3 & act & post & Hs & Hw).
    apply (Hn _ _ _ Hs). apply lang_if_then. by exists w1, cond, w2, w3, act.
  - intros Hn pre a post Hs Ha. apply Hn.
    apply lang_if_then in Ha as (w1 & cond & w2 & w3 & act & -> & Hw).
    by exists pre, w1, cond, w2, w3, act, post.
Qed.

(** ** The year of a dashed time stamp *)
Lemma contains_char c s : PyStr.contains (String c "") s = has_char c s.
Proof.
  induction s as [|x s IH]; [done|]. simpl. rewrite IH.
  by rewrite andb_true_r, Ascii.eqb_sym.
Qed.

Lemma replace_char_prefix c new y s :
  has_char c y = false ->
  PyStr.replace (String c "") new (y +:+ s) = y +:+ PyStr.replace (String c "") new s.
Proof.
  unfold PyStr.replace. induction y as [|x y IH]; [done|].
  simpl has_char. intros Hx. apply orb_false_iff in Hx as [Hx Hy].
  rewrite !append_cons. cbn [PyStr.replace_from PyStr.startswith].
  rewrite Ascii.eqb_sym, Hx. simpl. f_equal. by apply IH.
Qed.

Lemma split_head_char_prefix c y s :
  has_char c y = false ->
  PyStr.split_head (String c "") (y +:+ s) = y +:+ PyStr.split_head (String c "") s.
Proof.
  induction y as [|x y IH]; [done|].
  simpl has_char. intros Hx. apply orb_false_iff in Hx as [Hx Hy].
  rewrite !append_cons. cbn [PyStr.split_head PyStr.startswith].
  rewrite Ascii.eqb_sym, Hx. simpl. f_equal. by apply IH.
Qed.

Lemma split_head_at_once c s : PyStr.split_head (String c "") (String c s) = "".
Proof. simpl. by rewrite Ascii.eqb_refl. Qed.

Lemma replace_keeps_head c new d s :
  c <> d ->
  PyStr.replace (String c "") new (String d s) = String d (PyStr.replace (String c "") new s).
Proof.
  intros Hn. unfold PyStr.replace. cbn [PyStr.replace_from PyStr.startswith].
  apply Ascii.eqb_neq in Hn. by rewrite Hn.
Qed.

Lemma split_head_keeps_head c d s :
  c <> d ->
  PyStr.split_head (String c "") (String d s) = String d (PyStr.split_head (String c "") s).
Proof.
  intros Hn. cbn [PyStr.split_head PyStr.startswith].
  apply Ascii.eqb_neq in Hn. by rewrite Hn.
Qed.

(** The text that [simple_datetime_diff] keeps of a dashed time stamp is
    its year. *)
Lemma current_clean_is_year y rest :
  plain_year y ->
  PyStr.split_head "-" (PyStr.split_head "+" (PyStr.replace "Z" "" (y +:+ "-" +:+ rest))) = y.
Proof.
  intros (_ & Hz & Hp & Hd).
  rewrite replace_char_prefix by done.
  change ("-" +:+ rest) with (String "-" rest).
  rewrite replace_keeps_head by done.
  rewrite split_head_char_prefix by done.
  rewrite split_head_keeps_head by done.
  rewrite split_head_char_prefix by done.
  rewrite split_head_at_once. apply append_nil_r.
Qed.

(** ** The model on known inputs

    What Python returns on these inputs is known; the embedding returns
    the same. *)

Section Checks.
#[local] Existing Instance Sample.runtime.

Example title_words : PyStr.title "ob/gyn pt session" = "Ob/Gyn Pt Session".
Proof. reflexivity. Qed.

Example replace_left_to_right : PyStr.replace "aa" "b" "aaaaa" = "bba".
Proof. reflexivity. Qed.

Example strip_both_ends : PyStr.strip "  if a then b   " = "if a then b".
Proof. reflexivity. Qed.

Example if_then_lazy_then_greedy :
  Re.search false LLM.if_then_re "xx if  a b then  send sms then foo"
  = Some (["a b"; "send sms then foo"], "").
Proof. reflexivity. Qed.

Example if_then_across_lines :
  Re.search false LLM.if_then_re ("if a" +:+ LLM.nl +:+ "then b") = Some (["a"; "b"], "").
Proof. reflexivity. Qed.

Example finditer_inside_a_word :
  map (Re.group 1)
      (Syntax.finditer 30 (Re.RCat [Re.RStr "in "; Syntax.rest_of_line])
                       "appointment is within 24 hours")
  = ["24 hours"].
Proof. reflexivity. Qed.

Example format_escaped_braces : Py.format "x}}y{{z" ∅ = Ok "x}y{z".
Proof. reflexivity. Qed.

Example format_plain_field :
  Py.format "Hi {a}, {b}" (list_to_map [("a", VStr "A"); ("b", VInt 5)]) = Ok "Hi A, 5".
Proof. vm_compute. reflexivity. Qed.

Example format_failures :
  map (fun tpl => Py.format tpl (list_to_map [("a", VStr "A")]))
      ["{a{b}}"; "{}"; "{0}"; "{ a }"; "{b}"; "{a!r"; "{a[0}"; "}"; "{"]
  = [Raise; Raise; Raise; Raise; Raise; Raise; Raise; Raise; Raise].
Proof. vm_compute. reflexivity. Qed.

Example float_of_text :
  map Py.float_of_str [" 12.5 "; "+.5"; "5."; "-3"; "abc"; ""; "-"]
  = [Some (125 # 10); Some (5 # 10); Some (5 # 1); Some (-3 # 1); None; None; None].
Proof. reflexivity. Qed.

Example parse_example_of_main :
  LLM.conditions <$> LLM.semantic_parse "If oncology appointments are within 6 hours then call with urgent message"
  = Some [LLM.mk_cond LLM.TIME_BASED "hours_until" "<=" (VInt 6) (9 # 10);
          LLM.mk_cond LLM.LANGUAGE "patient_language" "equals" (VStr "en") (9 # 10);
          LLM.mk_cond LLM.APPOINTMENT_TYPE "appointment_type" "contains" (VStr "Oncology") (8 # 10)].
Proof. vm_compute. reflexivity. Qed.

Example hours_until_of_sample :
  map (fun a => LLM.hours_until_of LLM.current_time a) [Sample.appt1; Sample.appt3]
  = [VFloat (21600 # 3600); VInt 0].
Proof. vm_compute. reflexivity. Qed.

Example urgent_sms_of_the_parser :
  LLM.actions <$> LLM.semantic_parse "If risk is high then send urgent sms and call them"
  = Some [Inputs.urgent_sms; Inputs.urgent_call].
Proof. vm_compute. reflexivity. Qed.

Example urgent_sms_is_dropped :
  LLM._generate_actions [Inputs.urgent_sms; Inputs.urgent_call] Inputs.context2
  = [LLM.RCall (VStr "+14155552002")
       "Hi Maya, this is Sunrise Oncology calling urgently about your MRI follow-up appointment."].
Proof. vm_compute. reflexivity. Qed.

Example syntax_parse_example :
  Syntax.conditions <$> Syntax.parse_rule "If no-show risk is high then call patient"
  = Some [("no_show_risk", Syntax.CStr "high")].
Proof. vm_compute. reflexivity. Qed.
End Checks.

(** * The claims *)

Section Claims.
Context `{PyRuntime}.

(** C1.  A rule text that parses but yields no condition matches no
    appointment in this engine: for every engine, text and limit, when
    the parsed rule has an empty condition list, [evaluate_rule] returns
    the empty list (the loop of [_evaluate_appointment] counts no
    satisfied condition and returns [None] for every appointment). *)
Theorem rule_without_conditions_matches_nothing self text limit rule :
  reachable self ->
  LLM.semantic_parse text = Some rule ->
  LLM.conditions rule = [] ->
  exists self', LLM.evaluate_rule self text limit = Ok ([], self').
Proof.
  intros Hr Hp Hc.
  assert (Hu : LLM.evaluate_uncached (LLM.data_cache self) text limit = Ok (Some [])).
  { unfold LLM.evaluate_uncached. rewrite Hp.
    rewrite collect_matches_none by (intros; by apply evaluate_appointment_no_conditions).
    simpl. by rewrite slice_to_nil. }
  unfold LLM.evaluate_rule.
  destruct (LLM.rule_cache self !! LLM.cache_key text limit) as [cached|] eqn:Hk.
  - apply (reachable_sound _ Hr) in Hk. rewrite Hu in Hk.
    injection Hk as <-. eauto.
  - rewrite Hu. simpl. eauto.
Qed.


(** C3, as amended.  When the patient of a context is on
    do-not-contact no SMS, e-mail or call is rendered, whatever the
    action list: [_generate_actions] returns the empty list, so every
    match of such a patient's appointment has no triggered action; and
    [render_action_messages] returns exactly one line, the marker
    [SKIPPED (DNC) for patient] followed by the patient's id. *)
Theorem do_not_contact_renders_no_payload :
  (forall actions context,
      flagged context = true -> LLM._generate_actions actions context = [])
  /\ (forall dc appt_id t rule appt p m,
         LLM.appointments_get (LLM.appointments dc) appt_id = Some appt ->
         LLM.patients dc !! appt_patient_id appt = Some p ->
         dnc p = Some true ->
         LLM._evaluate_appointment dc appt_id rule t = Ok (Some m) ->
         LLM.triggered_actions m = [])
  /\ (forall rule event ctx p,
         Events.resolve_patient event ctx = Some p ->
         dnc p = Some true ->
         Events.render_action_messages rule event ctx
         = Ok ["SKIPPED (DNC) for patient " +:+ patient_id p]).
Proof.
  split; [|split].
  - apply generate_actions_flagged.
  - intros dc appt_id t rule appt p m Ha Hp Hd Em.
    destruct (evaluate_appointment_inv _ _ _ _ _ Em) as (context & Hctx & _ & -> & _).
    apply generate_actions_flagged.
    destruct (build_context_patient _ _ _ _ _ _ Hctx Ha Hp) as [Hdnc _].
    unfold flagged. by rewrite Hdnc, Hd.
  - intros rule event ctx p Hp Hd. unfold Events.render_action_messages.
    by rewrite Hp, Hd.
Qed.

(** C4.  For every rule text that lacks the boundary (the word [if],
    white space, a condition, white space, the word [then], white space
    and an action), [semantic_parse] returns the failure [None] without
    raising, and [evaluate_rule] returns the empty list, on every engine
    a program can hold: the cache cannot answer for such a text. *)
Theorem parse_failure_yields_no_matches self text limit :
  reachable self ->
  ~ has_if_then (PyStr.lower (PyStr.strip text)) ->
  LLM.semantic_parse text = None
  /\ LLM.evaluate_rule self text limit = Ok ([], self).
Proof.
  intros Hr Hno. apply if_then_search in Hno.
  assert (Hp : LLM.semantic_parse text = None).
  { unfold LLM.semantic_parse. by rewrite Hno. }
  split; [done|].
  assert (Hu : LLM.evaluate_uncached (LLM.data_cache self) text limit = Ok None).
  { unfold LLM.evaluate_uncached. by rewrite Hp. }
  unfold LLM.evaluate_rule.
  destruct (LLM.rule_cache self !! LLM.cache_key text limit) as [cached|] eqn:Hc.
  - apply (reachable_sound _ Hr) in Hc. congruence.
  - by rewrite Hu.
Qed.

(** C5.  [_evaluate_condition] raises on a comparison whose context
    value cannot be coerced to a number: for every condition with the
    operator [<=] or [>=] and every context that holds under the
    condition's field a value, not [None], on which [float] raises (a
    text that is no number, a list), the evaluation raises instead of
    returning [False]. *)
Theorem comparison_raises_on_text c context v :
  is_comparison (LLM.operator c) ->
  context !! LLM.field c = Some v ->
  v <> VNone ->
  Py.to_float v = Raise ->
  LLM._evaluate_condition c context = Raise.
Proof.
  intros Hop Hv Hn Hf. unfold LLM._evaluate_condition. rewrite Hv.
  destruct Hop as [-> | ->]; destruct v; try done; simpl in *; by rewrite Hf.
Qed.

(** C6.  [simple_datetime_diff] returns the fallback 24 for every
    reference time stamp that starts with a year and a dash, as every
    ISO calendar date does, whatever the appointment's start time: the
    text it keeps of the stamp is the year, which holds no [T], and the
    function returns before it parses anything. *)
Theorem simple_datetime_diff_dashed_stamp y rest appt_str :
  plain_year y ->
  Syntax.simple_datetime_diff (y +:+ "-" +:+ rest) appt_str = VInt 24.
Proof.
  intros Hy. unfold Syntax.simple_datetime_diff.
  rewrite current_clean_is_year by done.
  destruct Hy as (Ht & _). by rewrite contains_char, Ht.
Qed.


(** C8, as amended.  In [_generate_actions] an action one of whose
    templates names a field that the context does not define raises
    inside its [try] and is dropped, and the other actions are rendered
    as they are without it; every action that renders is in the output.
    In [render_action_messages] no action is ever dropped: the output
    has one line per action, and [render_template] returns a template
    that holds no placeholder of a known key as it is. *)
Theorem template_failure_is_local :
  (forall context before a after name,
      In name (action_placeholders a) -> context !! name = None ->
      LLM.render_action context a = Raise
      /\ LLM._generate_actions (before ++ a :: after) context
         = LLM._generate_actions (before ++ after) context)
  /\ (forall context actions b r,
         flagged context = false -> In b actions ->
         LLM.render_action context b = Ok r ->
         In r (LLM._generate_actions actions context))
  /\ (forall rule patient data acts lines,
         Events.render_loop rule patient data acts = Ok lines ->
         length lines = length acts)
  /\ (forall tpl data,
         (forall k v, In (k, v) data ->
                      PyStr.contains ("{{" +:+ k +:+ "}}") tpl = false) ->
         Events.render_template tpl data = tpl).
Proof.
  repeat split.
  - by eapply render_action_missing.
  - apply generate_actions_drop. by eapply render_action_missing.
  - intros context actions b r Hf Hin Hb.
    rewrite generate_actions_unflagged by done. by eapply render_each_sibling.
  - apply render_loop_length.
  - apply render_template_verbatim.
Qed.
End Claims.

Section Worked.
#[local] Existing Instance Sample.runtime.
Import Inputs.

Lemma sample_context1 :
  LLM._build_context Sample.store "appt_0001" LLM.current_time = Some context1.
Proof.
  destruct (build_context_total Sample.store "appt_0001" LLM.current_time
              Sample.appt1 eq_refl) as [context Hc].
  unfold context1. by rewrite Hc.
Qed.

Lemma sample_context2 :
  LLM._build_context Sample.store "appt_0002" LLM.current_time = Some context2.
Proof.
  destruct (build_context_total Sample.store "appt_0002" LLM.current_time
              Sample.appt2 eq_refl) as [context Hc].
  unfold context2. by rewrite Hc.
Qed.

Lemma rule_without_conditions_witness :
  exists self', LLM.evaluate_rule Sample.engine unconditional_text 10 = Ok ([], self').
Proof.
  eapply (rule_without_conditions_matches_nothing Sample.engine unconditional_text 10).
  - apply reach_fresh.
  - vm_compute. reflexivity.
  - reflexivity.
Defined.


Lemma do_not_contact_witness :
  LLM._generate_actions (LLM.actions high_risk_rule) context1 = []
  /\ Events.render_action_messages event_rule (event_for "appt_0001") event_ctx
     = Ok ["SKIPPED (DNC) for patient " +:+ patient_id Sample.pt_dnc].
Proof.
  destruct do_not_contact_renders_no_payload as (Hgen & _ & Hevents).
  split.
  - apply Hgen. vm_compute. reflexivity.
  - apply Hevents; vm_compute; reflexivity.
Defined.

(** C3, as stated, fails on [render_action_messages]: for the flagged
    patient of the sample the returned list is not empty, and its line
    names the patient's id. *)
Lemma do_not_contact_marker_line :
  dnc Sample.pt_dnc = Some true
  /\ Events.resolve_patient (event_for "appt_0001") event_ctx = Some Sample.pt_dnc
  /\ Events.render_action_messages event_rule (event_for "appt_0001") event_ctx
     = Ok ["SKIPPED (DNC) for patient pt_0001"]
  /\ Events.render_action_messages event_rule (event_for "appt_0001") event_ctx
     <> Ok [].
Proof. repeat split; try (vm_compute; reflexivity). vm_compute. discriminate. Qed.

Lemma parse_failure_witness :
  LLM.semantic_parse "send sms to every patient" = None
  /\ LLM.evaluate_rule Sample.engine "send sms to every patient" 10
     = Ok ([], Sample.engine).
Proof.
  apply parse_failure_yields_no_matches.
  - apply reach_fresh.
  - apply if_then_search. vm_compute. reflexivity.
Defined.

Lemma simple_datetime_diff_witness :
  Syntax.simple_datetime_diff Syntax.current_time "2025-09-10T18:00:00" = VInt 24.
Proof.
  assert (Hy : plain_year "2025") by (repeat split; reflexivity).
  exact (simple_datetime_diff_dashed_stamp "2025" "09-10T12:00:00Z" "2025-09-10T18:00:00" Hy).
Defined.

Lemma comparison_raises_witness :
  LLM._evaluate_condition type_at_most context1 = Raise.
Proof.
  apply (comparison_raises_on_text type_at_most context1 (VStr "Oncology infusion")).
  - by left.
  - vm_compute. reflexivity.
  - discriminate.
  - vm_compute. reflexivity.
Defined.


Lemma template_failure_witness :
  LLM.render_action context2 urgent_sms = Raise
  /\ LLM._generate_actions ([] ++ urgent_sms :: [urgent_call]) context2
     = LLM._generate_actions ([] ++ [urgent_call]) context2.
Proof.
  destruct template_failure_is_local as (Hdrop & _).
  apply (Hdrop context2 [] urgent_sms [urgent_call] "action_needed").
  - vm_compute. right. by left.
  - vm_compute. reflexivity.
Defined.

(** C8, as stated, fails on [render_action_messages]: the SMS action of
    the sample rule names the unknown field [nickname], and it is
    rendered with the placeholder left in its text, not dropped. *)
Lemma unknown_placeholder_is_rendered :
  let sms_line :=
    "Triggered SMS " +:+ Events.arrow +:+ " To: +14155552002" +:+ LLM.nl
    +:+ "Message: Hi {{nickname}}, see you at Sunrise Oncology" in
  let call_line :=
    "Triggered Call " +:+ Events.arrow +:+ " To: +14155552002" +:+ LLM.nl
    +:+ "Script: Call Maya Lee about their appointment." in
  Events.render_action_messages event_rule (event_for "appt_0002") event_ctx
  = Ok [sms_line; call_line]
  /\ Events.render_action_messages event_rule (event_for "appt_0002") event_ctx
     <> Ok [call_line].
Proof. split; [vm_compute; reflexivity|vm_compute; discriminate]. Qed.

(** C9.  [semantic_parse] returns a rule whose action list is empty:
    the text [if foo then bar] has the boundary and names no channel. *)
Theorem parse_without_actions_succeeds :
  exists rule,
    LLM.semantic_parse no_action_text = Some rule /\ LLM.actions rule = [].
Proof. eexists. split; [vm_compute; reflexivity|reflexivity]. Qed.
End Worked.



(** * Further properties of the code *)

(** ** The rule cache of [RuleEngine] *)

Section CacheFacts.
Context `{PyRuntime}.

Lemma evaluate_rule_fresh dc text limit :
  returned (LLM.evaluate_rule {| LLM.data_cache := dc; LLM.rule_cache := ∅ |} text limit)
  = match LLM.evaluate_uncached dc text limit with
    | Ok (Some top) => Ok top
    | Ok None => Ok []
    | Raise => Raise
    end.
Proof.
  unfold LLM.evaluate_rule. simpl. rewrite lookup_empty.
  by destruct (LLM.evaluate_uncached dc text limit) as [[top|]|].
Qed.

Lemma evaluate_rule_reachable self text limit :
  reachable self ->
  returned (LLM.evaluate_rule self text limit)
  = match LLM.evaluate_uncached (LLM.data_cache self) text limit with
    | Ok (Some top) => Ok top
    | Ok None => Ok []
    | Raise => Raise
    end.
Proof.
  intros Hr. pose proof (reachable_sound _ Hr) as Hs.
  unfold LLM.evaluate_rule.
  destruct (LLM.rule_cache self !! LLM.cache_key text limit) as [cached|] eqn:Hc.
  - by rewrite (Hs _ _ _ Hc).
  - by destruct (LLM.evaluate_uncached (LLM.data_cache self) text limit) as [[top|]|].
Qed.

(** X1.  A second call of [evaluate_rule] with the same text and limit
    returns the same list and leaves the engine as the first call left
    it. *)
Theorem evaluate_rule_again self text limit res self' :
  LLM.evaluate_rule self text limit = Ok (res, self') ->
  LLM.evaluate_rule self' text limit = Ok (res, self').
Proof.
  intros E.
  destruct (evaluate_rule_inv _ _ _ _ _ E) as [[Hc ->]|[(Hc & Hu & -> & ->)|(Hc & Hu & ->)]].
  - exact E.
  - exact E.
  - unfold LLM.evaluate_rule. simpl. by rewrite lookup_insert_eq.
Qed.

(** X2.  The cache never changes an answer: on an engine reached by any
    sequence of calls, [evaluate_rule] returns (or raises) what it does on
    a fresh engine with the same data. *)
Theorem rule_cache_is_transparent self text limit :
  reachable self ->
  returned (LLM.evaluate_rule self text limit)
  = returned (LLM.evaluate_rule
                {| LLM.data_cache := LLM.data_cache self; LLM.rule_cache := ∅ |} text limit).
Proof.
  intros Hr. by rewrite evaluate_rule_reachable, evaluate_rule_fresh.
Qed.

End CacheFacts.

(** ** Which matches [evaluate_rule] ranks *)

Lemma returned_ok {A B : Type} (r : result (A * B)) (a : A) :
  returned r = Ok a -> exists b, r = Ok (a, b).
Proof. destruct r as [[a' b]|]; [|done]. intros [= ->]. eauto. Qed.

Section RankingFacts.
Context `{PyRuntime}.

(** A rule of the parser never makes the evaluation of an appointment
    raise. *)
Lemma evaluate_appointment_returns text rule dc appt_id t :
  LLM.semantic_parse text = Some rule ->
  exists r, LLM._evaluate_appointment dc appt_id rule t = Ok r.
Proof.
  intros Hp. destruct (LLM._build_context dc appt_id t) as [context|] eqn:Hc.
  - pose proof (evaluate_appointment_spec dc appt_id rule t context Hc
                  (parsed_rule_no_raise _ _ _ _ _ _ Hp Hc)) as Hm.
    destruct (List.filter _ _); [eauto|]. destruct Hm as (m & -> & _). eauto.
  - unfold LLM._evaluate_appointment. rewrite Hc. eauto.
Qed.

(** The loop over the futures stops at the first match for a limit
    below one, and at [2 * limit] matches otherwise. *)
Lemma collect_matches_first dc rule limit ids acc :
  (forall appt_id, exists r,
      LLM._evaluate_appointment dc appt_id rule LLM.current_time = Ok r) ->
  (length acc < Z.to_nat (Z.max 1 (limit * 2)))%nat ->
  LLM.collect_matches dc rule limit ids acc
  = Ok (acc ++ take (Z.to_nat (Z.max 1 (limit * 2)) - length acc)
                    (omap (fun appt_id =>
                             match LLM._evaluate_appointment dc appt_id rule LLM.current_time with
                             | Ok r => r
                             | Raise => None
                             end) ids)).
Proof.
  intros Hok. revert acc. induction ids as [|appt_id ids IH]; intros acc Hacc; simpl.
  - by rewrite take_nil, app_nil_r.
  - destruct (Hok appt_id) as [[m|] ->]; simpl.
    + rewrite length_app. simpl.
      destruct (Z.leb_spec (limit * 2) (Z.of_nat (length acc + 1))) as [Hle|Hgt].
      * replace (Z.to_nat (Z.max 1 (limit * 2)) - length acc)%nat with 1%nat by lia.
        simpl. by rewrite take_0.
      * rewrite IH by (rewrite length_app; simpl; lia).
        rewrite length_app. simpl.
        replace (Z.to_nat (Z.max 1 (limit * 2)) - length acc)%nat
          with (S (Z.to_nat (Z.max 1 (limit * 2)) - (length acc + 1)))%nat by lia.
        simpl. by rewrite <- app_assoc.
    + by apply IH.
Qed.

Lemma evaluate_uncached_parsed dc text limit rule :
  LLM.semantic_parse text = Some rule ->
  LLM.evaluate_uncached dc text limit
  = Ok (Some (LLM.slice_to limit
                (LLM.sort_desc (take (Z.to_nat (Z.max 1 (limit * 2))) (matches_of dc rule))))).
Proof.
  intros Hp. unfold LLM.evaluate_uncached. rewrite Hp.
  rewrite collect_matches_first.
  - simpl. by rewrite Nat.sub_0_r.
  - intros appt_id. by eapply evaluate_appointment_returns.
  - simpl. lia.
Qed.



End RankingFacts.

(** ** The lookup dictionaries *)

Lemma idx_by_snoc {A : Type} (key : A -> string) (items : list A) (x : A) :
  Events.idx_by key (items ++ [x]) = <[key x := x]> (Events.idx_by key items).
Proof. unfold Events.idx_by. by rewrite fold_left_app. Qed.

Lemma idx_by_last {A : Type} (key : A -> string) (items : list A) (k : string) :
  Events.idx_by key items !! k = last (filter (fun it => key it = k) items).
Proof.
  induction items as [|x items IH] using rev_ind; [done|].
  rewrite idx_by_snoc, filter_app, filter_cons, filter_nil.
  destruct (decide (key x = k)) as [<-|Hne].
  - by rewrite lookup_insert_eq, last_snoc.
  - by rewrite lookup_insert_ne, app_nil_r.
Qed.

Lemma idx_by_lookup {A : Type} (key : A -> string) (items : list A) k x :
  Events.idx_by key items !! k = Some x -> key x = k /\ x ∈ items.
Proof.
  induction items as [|y items IH] using rev_ind; [done|].
  rewrite idx_by_snoc, elem_of_app, list_elem_of_singleton.
  destruct (decide (key y = k)) as [Heq|Hne].
  - rewrite Heq, lookup_insert_eq. intros [= ->]. auto.
  - rewrite lookup_insert_ne by done. intros E. apply IH in E as [Hk Hin]. auto.
Qed.

(** X5.  [idx_by] files an item under its own key and, of the items
    that share a key, keeps the last: looking a key up returns the last
    item of the list that carries it, and nothing when no item does; so
    an item whose key no later item carries is found under its key. *)
Theorem idx_by_keeps_last {A : Type} (key : A -> string) (items : list A) (k : string) :
  Events.idx_by key items !! k = last (filter (fun it => key it = k) items)
  /\ (forall it, Events.idx_by key items !! k = Some it -> key it = k /\ it ∈ items)
  /\ (forall before it after,
        items = before ++ it :: after -> key it = k ->
        (forall later, later ∈ after -> key later <> k) ->
        Events.idx_by key items !! k = Some it).
Proof.
  split; [apply idx_by_last|]. split; [intros it; apply idx_by_lookup|].
  intros before it after -> Hk Hafter. rewrite idx_by_last.
  rewrite filter_app, filter_cons, decide_True by done.
  replace (filter (fun it0 => key it0 = k) after) with (@nil A).
  - by rewrite last_snoc.
  - symmetry. induction after as [|x after IH]; [done|].
    rewrite filter_cons, decide_False.
    + apply IH. intros later Hin. apply Hafter. apply elem_of_cons. by right.
    + apply Hafter. apply elem_of_cons. by left.
Qed.

Lemma dict_set_keys {V : Type} (d : list (string * V)) k v :
  map fst (Syntax.dict_set d k v)
  = if decide (k ∈ map fst d) then map fst d else map fst d ++ [k].
Proof.
  induction d as [|[k' v'] d IH]; cbn [Syntax.dict_set map fst].
  - rewrite decide_False; [done|]. apply not_elem_of_nil.
  - destruct (String.eqb_spec k' k) as [Heq|Hne]; cbn [map fst].
    + rewrite Heq, decide_True; [done|]. apply elem_of_cons. by left.
    + rewrite IH. destruct (decide (k ∈ map fst d)) as [Hin|Hout].
      * rewrite decide_True; [done|]. apply elem_of_cons. by right.
      * rewrite decide_False; [done|]. rewrite elem_of_cons. intros [Hk|Hk]; auto.
Qed.

Lemma dict_set_NoDup {V : Type} (d : list (string * V)) k v :
  NoDup (map fst d) -> NoDup (map fst (Syntax.dict_set d k v)).
Proof.
  intros Hd. rewrite dict_set_keys. destruct (decide _) as [Hin|Hout]; [done|].
  apply NoDup_app. split; [done|]. split; [|apply NoDup_singleton].
  intros x Hx. rewrite list_elem_of_singleton. by intros ->.
Qed.

Lemma dict_get_set {V : Type} (d : list (string * V)) k v k' :
  Syntax.dict_get (Syntax.dict_set d k v) k'
  = if decide (k = k') then Some v else Syntax.dict_get d k'.
Proof.
  unfold Syntax.dict_get. induction d as [|[k0 v0] d IH]; simpl.
  - destruct (String.eqb_spec k k'); by destruct (decide _).
  - destruct (String.eqb_spec k0 k) as [->|Hne]; simpl.
    + destruct (String.eqb_spec k k'); by destruct (decide _).
    + destruct (String.eqb_spec k0 k') as [->|Hne']; simpl.
      * by rewrite decide_False by done.
      * exact IH.
Qed.

Lemma ordered_by_snoc {A : Type} (key : A -> string) (items : list A) (x : A) :
  Loading.ordered_by key (items ++ [x])
  = Syntax.dict_set (Loading.ordered_by key items) (key x) x.
Proof. unfold Loading.ordered_by. by rewrite fold_left_app. Qed.

Lemma ordered_by_NoDup {A : Type} (key : A -> string) (items : list A) :
  NoDup (map fst (Loading.ordered_by key items)).
Proof.
  induction items as [|x items IH] using rev_ind; [constructor|].
  rewrite ordered_by_snoc. by apply dict_set_NoDup.
Qed.

Lemma ordered_by_get {A : Type} (key : A -> string) (items : list A) k :
  Syntax.dict_get (Loading.ordered_by key items) k = Events.idx_by key items !! k.
Proof.
  induction items as [|x items IH] using rev_ind; [done|].
  rewrite ordered_by_snoc, idx_by_snoc, dict_get_set, IH.
  destruct (decide (key x = k)) as [<-|Hne].
  - by rewrite lookup_insert_eq.
  - by rewrite lookup_insert_ne.
Qed.

(** X6.  The dictionaries of [create_lookups], which are those of
    [load_data]: a practice, a patient and an appointment are found
    under their id, the last record of the list when several carry it;
    and the appointment dictionary, which the engines iterate, lists
    every id once. *)
Theorem create_lookups_keeps_last practices patients appointments intakes events k :
  let dc := Loading.load_data practices patients appointments intakes events in
  Loading.create_lookups practices patients appointments intakes
  = (LLM.practices dc, LLM.patients dc, LLM.appointments dc, LLM.intakes dc)
  /\ LLM.practices dc !! k = last (filter (fun p => practice_id p = k) practices)
  /\ LLM.patients dc !! k = last (filter (fun p => patient_id p = k) patients)
  /\ LLM.appointments_get (LLM.appointments dc) k
     = last (filter (fun a => appt_id a = k) appointments)
  /\ NoDup (map fst (LLM.appointments dc)).
Proof.
  simpl. split; [done|].
  split; [apply idx_by_last|]. split; [apply idx_by_last|].
  split; [|apply ordered_by_NoDup].
  rewrite <- idx_by_last. apply ordered_by_get.
Qed.

Section NoRepeat.
Context `{PyRuntime}.

(** X7.  On an engine whose data [load_data] loaded, no appointment is
    reported twice by [evaluate_rule]. *)
Theorem no_appointment_twice practices patients appointments intakes events
        self text limit res self' :
  reachable self ->
  LLM.data_cache self = Loading.load_data practices patients appointments intakes events ->
  LLM.evaluate_rule self text limit = Ok (res, self') ->
  NoDup (map LLM.appointment_id res).
Proof.
  intros Hr Hd E.
  destruct (evaluate_rule_uncached _ _ _ _ _ Hr E) as [Hu|[_ ->]]; [|constructor].
  unfold LLM.evaluate_uncached in Hu.
  destruct (LLM.semantic_parse text) as [rule|]; [|done].
  destruct (LLM.collect_matches _ _ _ _ _) as [ms|] eqn:Ec; [|done].
  simpl in Hu. injection Hu as <-.
  apply collect_matches_order in Ec as (new & -> & Hsub). simpl.
  destruct (slice_to_take limit (LLM.sort_desc new)) as [n ->].
  apply (sublist_NoDup _ (map LLM.appointment_id (LLM.sort_desc new)));
    [|apply map_sublist, sublist_take].
  rewrite sort_desc_perm.
  apply (sublist_NoDup _ (map fst (LLM.appointments (LLM.data_cache self)))); [|done].
  rewrite Hd. apply ordered_by_NoDup.
Qed.

End NoRepeat.

(** ** Letter case and margins *)

Lemma all_in_app p a b : all_in p (a +:+ b) <-> all_in p a /\ all_in p b.
Proof.
  induction a as [|c a IH]; [simpl; tauto|].
  rewrite append_cons. simpl. rewrite IH. tauto.
Qed.

Lemma lower_char_idem c : PyStr.lower_char (PyStr.lower_char c) = PyStr.lower_char c.
Proof. by destruct c as [[] [] [] [] [] [] [] []]. Qed.

Lemma lower_char_space c : PyStr.is_space (PyStr.lower_char c) = PyStr.is_space c.
Proof. by destruct c as [[] [] [] [] [] [] [] []]. Qed.

Lemma lower_idem s : PyStr.lower (PyStr.lower s) = PyStr.lower s.
Proof. induction s as [|c s IH]; [done|]. simpl. by rewrite lower_char_idem, IH. Qed.

Lemma lower_app a b : PyStr.lower (a +:+ b) = PyStr.lower a +:+ PyStr.lower b.
Proof. induction a as [|c a IH]; [done|]. rewrite !append_cons. simpl. by rewrite IH. Qed.

Lemma lower_lstrip s : PyStr.lower (PyStr.lstrip s) = PyStr.lstrip (PyStr.lower s).
Proof.
  induction s as [|c s IH]; [done|]. simpl. rewrite lower_char_space.
  by destruct (PyStr.is_space c).
Qed.

Lemma lower_rev_onto s acc :
  PyStr.lower (PyStr.rev_onto s acc) = PyStr.rev_onto (PyStr.lower s) (PyStr.lower acc).
Proof. revert acc. induction s as [|c s IH]; intros acc; [done|]. simpl. by rewrite IH. Qed.

Lemma lower_strip s : PyStr.lower (PyStr.strip s) = PyStr.strip (PyStr.lower s).
Proof.
  unfold PyStr.strip, PyStr.rstrip, PyStr.rev.
  by rewrite lower_rev_onto, lower_lstrip, lower_rev_onto, lower_lstrip.
Qed.

Lemma rev_onto_app s acc : PyStr.rev_onto s acc = PyStr.rev s +:+ acc.
Proof.
  unfold PyStr.rev. revert acc. induction s as [|c s IH]; intros acc; [done|].
  simpl. rewrite (IH (String c "")), IH, append_assoc. done.
Qed.

Lemma rev_cons c s : PyStr.rev (String c s) = PyStr.rev s +:+ String c "".
Proof. exact (rev_onto_app s (String c "")). Qed.

Lemma rev_app a b : PyStr.rev (a +:+ b) = PyStr.rev b +:+ PyStr.rev a.
Proof.
  induction a as [|c a IH]; [by rewrite append_nil_r|].
  by rewrite append_cons, !rev_cons, IH, append_assoc.
Qed.

Lemma rev_rev s : PyStr.rev (PyStr.rev s) = s.
Proof.
  induction s as [|c s IH]; [done|].
  change (String c s) with (String c "" +:+ s) at 1.
  by rewrite rev_app, rev_app, IH.
Qed.

Lemma all_in_rev p s : all_in p s -> all_in p (PyStr.rev s).
Proof.
  induction s as [|c s IH]; [done|]. intros [Hc Hs].
  change (String c s) with (String c "" +:+ s).
  rewrite rev_app. apply all_in_app. split; [by apply IH|done].
Qed.

Lemma lstrip_spaces pre s : all_in PyStr.is_space pre -> PyStr.lstrip (pre +:+ s) = PyStr.lstrip s.
Proof.
  induction pre as [|c pre IH]; [done|]. intros [Hc Hp].
  rewrite append_cons. simpl. by rewrite Hc, IH.
Qed.

Lemma lstrip_nonempty s post :
  PyStr.lstrip s <> "" -> PyStr.lstrip (s +:+ post) = PyStr.lstrip s +:+ post.
Proof.
  induction s as [|x s IH]; [done|]. rewrite append_cons. simpl.
  destruct (PyStr.is_space x); [exact IH|done].
Qed.

Lemma rstrip_spaces s post : all_in PyStr.is_space post -> PyStr.rstrip (s +:+ post) = PyStr.rstrip s.
Proof.
  intros Hp. unfold PyStr.rstrip. rewrite rev_app, lstrip_spaces; [done|].
  by apply all_in_rev.
Qed.

Lemma lstrip_all_spaces s : all_in PyStr.is_space s -> PyStr.lstrip s = "".
Proof. induction s as [|c s IH]; [done|]. intros [Hc Hs]. simpl. by rewrite Hc, IH. Qed.

Lemma lstrip_empty_spaces s : PyStr.lstrip s = "" -> all_in PyStr.is_space s.
Proof.
  induction s as [|c s IH]; [done|]. simpl.
  destruct (PyStr.is_space c); [|done]. auto.
Qed.

Lemma strip_margins pre s post :
  all_in PyStr.is_space pre -> all_in PyStr.is_space post ->
  PyStr.strip (pre +:+ s +:+ post) = PyStr.strip s.
Proof.
  intros Hpre Hpost. unfold PyStr.strip. rewrite lstrip_spaces by done.
  destruct (PyStr.lstrip s) as [|c l] eqn:El.
  - assert (Hs : all_in PyStr.is_space (s +:+ post)).
    { apply all_in_app. split; [by apply lstrip_empty_spaces|done]. }
    by rewrite (lstrip_all_spaces _ Hs).
  - rewrite lstrip_nonempty by (by rewrite El).
    rewrite El. by apply rstrip_spaces.
Qed.

(** X8.  [semantic_parse] reads a rule text whatever its letter case and
    the white space around it: two texts that differ only in those parse
    to the same rule (or both fail to parse). *)
Theorem semantic_parse_ignores_case_and_margins text text' pre post :
  PyStr.lower text' = PyStr.lower text ->
  all_in PyStr.is_space pre -> all_in PyStr.is_space post ->
  LLM.semantic_parse (pre +:+ text' +:+ post) = LLM.semantic_parse text.
Proof.
  intros Hl Hpre Hpost. unfold LLM.semantic_parse.
  by rewrite strip_margins, !lower_strip, Hl.
Qed.

(** ** What a pattern captures *)

Section Captures.
Context (ic : bool) {R : Type} (P : ascii -> bool).

Lemma all_in_take n s : all_in P s -> all_in P (PyStr.take n s).
Proof.
  revert n. induction s as [|c s IH]; intros [|n]; simpl; try done.
  intros [Hc Hs]. auto.
Qed.

(** The groups of a match and the text after it are made of the
    characters of the text. *)
Lemma rmatch_keeps r : forall s caps (k : string -> list string -> option R) x,
  all_in P s -> Forall (all_in P) caps ->
  Re.rmatch ic r s caps k = Some x ->
  exists s' caps', all_in P s' /\ Forall (all_in P) caps' /\ k s' caps' = Some x.
Proof.
  induction r as [|c|p|r1 IH1 r2 IH2|r1 IH1 r2 IH2|r1 IH1|p|p|p|r1 IH1];
    intros s caps k x Hs Hcaps; simpl.
  - eauto.
  - destruct s as [|c' s]; [done|]. destruct (Re.char_eq ic c c'); [|done].
    destruct Hs as [_ Hs]. eauto.
  - destruct s as [|c' s]; [done|]. destruct (p c'); [|done].
    destruct Hs as [_ Hs]. eauto.
  - intros E. apply IH1 in E as (s1 & caps1 & Hs1 & Hc1 & E); [|done..].
    by apply IH2 in E.
  - destruct (Re.rmatch ic r1 s caps k) as [y|] eqn:E.
    + intros [= ->]. by apply IH1 in E.
    + by apply IH2.
  - destruct (Re.rmatch ic r1 s caps k) as [y|] eqn:E.
    + intros [= ->]. by apply IH1 in E.
    + eauto.
  - intros E. apply plus_greedy_sound in E as (a & b & -> & _ & _ & Hk).
    apply all_in_app in Hs as [_ Hb]. eauto.
  - intros E. apply plus_lazy_sound in E as (a & b & -> & _ & _ & Hk).
    apply all_in_app in Hs as [_ Hb]. eauto.
  - unfold Re.star_greedy.
    destruct (Re.plus_greedy p s (fun s' => k s' caps)) as [y|] eqn:E.
    + intros [= ->]. apply plus_greedy_sound in E as (a & b & -> & _ & _ & Hk).
      apply all_in_app in Hs as [_ Hb]. eauto.
    + eauto.
  - intros E. apply IH1 in E as (s1 & caps1 & Hs1 & Hc1 & E); [|done..].
    eexists _, _. split; [exact Hs1|]. split; [|exact E].
    apply Forall_app. split; [done|]. apply Forall_singleton. by apply all_in_take.
Qed.
End Captures.

Lemma search_keeps ic P r s m :
  all_in P s -> Re.search ic r s = Some m ->
  Forall (all_in P) (fst m) /\ all_in P (snd m).
Proof.
  assert (Hhere : forall t, all_in P t -> Re.rmatch_here ic r t = Some m ->
                            Forall (all_in P) (fst m) /\ all_in P (snd m)).
  { intros t Ht E. unfold Re.rmatch_here in E.
    apply (rmatch_keeps ic P) in E as (s' & caps' & Hs' & Hc' & [= <-]); [done|done|].
    constructor. }
  induction s as [|c s IH]; simpl; intros Hs.
  - destruct (Re.rmatch_here ic r "") as [m'|] eqn:E; [|done].
    intros [= ->]. by apply (Hhere "").
  - destruct (Re.rmatch_here ic r (String c s)) as [m'|] eqn:E.
    + intros [= ->]. by apply (Hhere (String c s)).
    + destruct Hs as [_ Hs]. by apply IH.
Qed.

Lemma group_keeps P i (m : list string * string) :
  Forall (all_in P) (fst m) -> all_in P (Re.group i m).
Proof.
  unfold Re.group. generalize (i - 1)%nat. intros n Hm. revert n.
  induction Hm as [|g caps Hg _ IH]; intros [|n]; simpl; auto.
Qed.

(** The lower-case characters. *)
Lemma lower_all_in s : all_in (fun c => Ascii.eqb (PyStr.lower_char c) c) (PyStr.lower s).
Proof.
  induction s as [|c s IH]; [done|]. simpl. split; [|done].
  rewrite lower_char_idem. apply Ascii.eqb_refl.
Qed.

Lemma all_in_lower s : all_in (fun c => Ascii.eqb (PyStr.lower_char c) c) s -> PyStr.lower s = s.
Proof.
  induction s as [|c s IH]; [done|]. intros [Hc Hs]. simpl.
  apply Ascii.eqb_eq in Hc. by rewrite Hc, IH.
Qed.

Lemma extract_custom_message_keeps P text m :
  all_in P text -> LLM._extract_custom_message text = Some m -> all_in P m.
Proof.
  intros Ht. unfold LLM._extract_custom_message.
  assert (Hk : forall keyword,
             Re.group 1 <$> Re.search false (LLM.quoted_after keyword) text = Some m ->
             all_in P m).
  { intros keyword. destruct (Re.search false _ text) as [g|] eqn:E; [|done].
    intros [= <-]. apply group_keeps. by apply (search_keeps _ P) in E as [Hg _]. }
  destruct (Re.group 1 <$> Re.search false (LLM.quoted_after "saying") text) eqn:E1.
  { intros [= <-]. by apply (Hk "saying"). }
  destruct (Re.group 1 <$> Re.search false (LLM.quoted_after "message") text) eqn:E2.
  { intros [= <-]. by apply (Hk "message"). }
  apply Hk.
Qed.

(** X9.  The semantic parser lower-cases the rule text before it looks
    for a quoted custom message, so the custom message of every parsed
    action is in lower case, whatever the case the user wrote it in. *)
Theorem custom_message_is_lower_case text rule a m :
  LLM.semantic_parse text = Some rule ->
  In a (LLM.actions rule) ->
  LLM.custom_message a = Some m ->
  PyStr.lower m = m.
Proof.
  unfold LLM.semantic_parse.
  destruct (Re.search false LLM.if_then_re _) as [g|] eqn:E; [|done].
  intros [= <-]. simpl.
  apply (search_keeps _ (fun c => Ascii.eqb (PyStr.lower_char c) c)) in E as [Hg _];
    [|apply lower_all_in].
  pose proof (group_keeps _ 2 g Hg) as Ht.
  intros Hin Hm. apply all_in_lower.
  apply (extract_custom_message_keeps _ (Re.group 2 g)); [done|].
  unfold LLM._parse_actions_semantic in Hin.
  rewrite !in_app_iff in Hin.
  destruct Hin as [Hin|[Hin|Hin]];
    match type of Hin with
    | In _ (if ?b then _ else _) => destruct b; [|done]
    end;
    destruct Hin as [<-|[]]; exact Hm.
Qed.

(** ** The range of the confidence *)

Lemma parsed_conditions_weights text :
  Forall weight_in_range (LLM._parse_conditions_semantic text).
Proof.
  assert (H7 : (7 # 10 <= 7 # 10 <= 9 # 10)%Q) by (split; discriminate).
  assert (H8 : (7 # 10 <= 8 # 10 <= 9 # 10)%Q) by (split; discriminate).
  assert (H9 : (7 # 10 <= 9 # 10 <= 9 # 10)%Q) by (split; discriminate).
  unfold LLM._parse_conditions_semantic. repeat rewrite Forall_app. repeat split.
  - unfold LLM.risk_conditions. destruct (PyStr.contains_any _ _); [|constructor].
    apply Forall_flat_map. intros level.
    destruct (PyStr.contains level text); [|constructor].
    apply Forall_singleton. unfold weight_in_range. simpl.
    by destruct (PyStr.contains _ text).
  - unfold LLM.time_conditions. apply Forall_flat_map. intros [r|r hours].
    + destruct (Re.search false r text); [|constructor]. by apply Forall_singleton.
    + destruct (Re.matches false r text); [|constructor]. by apply Forall_singleton.
  - unfold LLM.intake_conditions.
    repeat (case_match; try (by constructor)); by apply Forall_singleton.
  - unfold LLM.language_conditions.
    repeat (case_match; try (by constructor)); by apply Forall_singleton.
  - unfold LLM.appointment_type_conditions. apply Forall_flat_map. intros a.
    destruct (PyStr.contains _ _); [|constructor]. by apply Forall_singleton.
Qed.

Lemma sum_weights_range l :
  Forall weight_in_range l ->
  ((7 # 10) * LLM.count_q (length l) <= sum_q (map LLM.confidence l)
   <= (9 # 10) * LLM.count_q (length l))%Q.
Proof.
  unfold LLM.count_q.
  induction 1 as [|c l [Hlo Hhi] _ [IHlo IHhi]].
  - split; discriminate.
  - cbn [length map sum_q fold_right]. fold (sum_q (map LLM.confidence l)).
    rewrite Nat2Z.inj_succ, <- Z.add_1_r, inject_Z_plus.
    change (inject_Z 1) with 1%Q.
    generalize dependent (inject_Z (Z.of_nat (length l))).
    generalize dependent (sum_q (map LLM.confidence l)).
    intros total n ? ?. split; lra.
Qed.

Lemma filter_length_le {A : Type} (f : A -> bool) l :
  (length (List.filter f l) <= length l)%nat.
Proof. induction l as [|x l IH]; simpl; [done|]. destruct (f x); simpl; lia. Qed.

Section Range.
Context `{PyRuntime}.

(** X10.  The confidence of every match of a parsed rule lies above 0
    and at most at 0.9. *)
Theorem match_confidence_range text rule dc appt_id t m :
  LLM.semantic_parse text = Some rule ->
  LLM._evaluate_appointment dc appt_id rule t = Ok (Some m) ->
  (0 < LLM.match_confidence m <= 9 # 10)%Q.
Proof.
  intros Hp Hm.
  destruct (evaluate_appointment_inv _ _ _ _ _ Hm) as (context & Hctx & _).
  pose proof (evaluate_appointment_spec dc appt_id rule t context Hctx
                (parsed_rule_no_raise _ _ _ _ _ _ Hp Hctx)) as Hs.
  assert (Hw : Forall weight_in_range (LLM.conditions rule)).
  { revert Hp. unfold LLM.semantic_parse.
    destruct (Re.search false LLM.if_then_re _); [|done].
    intros [= <-]. apply parsed_conditions_weights. }
  unfold spec_confidence in Hs.
  pose proof (filter_length_le (satisfied context) (LLM.conditions rule)) as Hlen.
  assert (Hsat : Forall weight_in_range (List.filter (satisfied context) (LLM.conditions rule))).
  { apply List.Forall_forall. intros c Hc. apply filter_In in Hc as [Hc _].
    rewrite List.Forall_forall in Hw. by apply Hw. }
  apply sum_weights_range in Hsat.
  destruct (List.filter (satisfied context) (LLM.conditions rule)) as [|c sat] eqn:Ef.
  { rewrite Hm in Hs. done. }
  destruct Hs as (m' & Em & Hc & _). rewrite Hm in Em. injection Em as <-.
  rewrite Hc. clear Hc Hm.
  set (total := sum_q (map LLM.confidence (c :: sat))) in *.
  set (k := LLM.count_q (length (c :: sat))) in *.
  set (n := LLM.count_q (length (LLM.conditions rule))).
  assert (Hk : (1 <= k)%Q).
  { unfold k, LLM.count_q. change 1%Q with (inject_Z 1).
    rewrite <- Zle_Qle. simpl length. lia. }
  assert (Hkn : (k <= n)%Q).
  { unfold k, n, LLM.count_q. rewrite <- Zle_Qle. lia. }
  assert (Hn : (0 < n)%Q) by lra.
  destruct Hsat as [Hlo Hhi].
  assert (Ha : (0 < total / n <= 9 # 10)%Q).
  { split.
    - apply Qlt_shift_div_l; [done|]. lra.
    - apply Qle_shift_div_r; [done|]. nra. }
  assert (Hb : (0 < k / n <= 1)%Q).
  { split.
    - apply Qlt_shift_div_l; [done|]. lra.
    - apply Qle_shift_div_r; [done|]. lra. }
  split; nra.
Qed.

End Range.

(** ** The hours until an appointment *)

Section HoursFacts.
Context `{PyRuntime}.

(** X11.  In every context that [_build_context] returns, [hours_until]
    is a number that is not negative. *)
Theorem hours_until_is_not_negative dc appt_id t context :
  LLM._build_context dc appt_id t = Some context ->
  exists v q, context !! "hours_until" = Some v
              /\ Py.to_float v = Ok q /\ (0 <= q)%Q.
Proof.
  intros Hctx. apply build_context_hours in Hctx as (appt & _ & Hh).
  exists (LLM.hours_until_of t appt). rewrite Hh.
  unfold LLM.hours_until_of, LLM.max0.
  assert (H24 : exists q, Py.to_float (VInt 24) = Ok q /\ (0 <= q)%Q).
  { exists (inject_Z 24). split; [done|]. discriminate. }
  destruct (fromisoformat _) as [current_dt|]; [|destruct H24 as (q & ? & ?); eauto].
  destruct (start_time appt ≫= fromisoformat) as [appt_dt|];
    [|destruct H24 as (q & ? & ?); eauto].
  destruct (seconds_between appt_dt current_dt) as [secs|];
    [|destruct H24 as (q & ? & ?); eauto].
  destruct (Qle_bool (secs / 3600) 0) eqn:E.
  - exists (inject_Z 0). split; [done|]. split; [done|discriminate].
  - exists (secs / 3600)%Q. split; [done|]. split; [done|].
    destruct (Qlt_le_dec 0 (secs / 3600)) as [Hlt|Hle]; [by apply Qlt_le_weak|].
    apply Qle_bool_iff in Hle. congruence.
Qed.


End HoursFacts.

(** ** Templates *)

Lemma drop_all s : PyStr.drop (String.length s) s = "".
Proof. induction s as [|c s IH]; [done|]. exact IH. Qed.

Section TemplateFacts.
Context `{PyRuntime}.

Lemma render_pieces_plain names kw ps :
  plain_fields names ps = true ->
  (forall name, In name names -> is_Some (kw !! name)) ->
  is_ok (Py.render_pieces kw ps) = true.
Proof.
  intros Hp Hk. induction ps as [|[c|body] ps IH]; simpl in *; [done| |].
  - destruct (Py.render_pieces kw ps); [done|]. by apply IH.
  - apply andb_true_iff in Hp as [Hb Hp].
    apply andb_true_iff in Hb as [Hb Hin]. apply andb_true_iff in Hb as [Ha Hd].
    apply String.eqb_eq in Ha. apply negb_true_iff in Hd.
    apply existsb_exists in Hin as (name & Hin & Hn). apply String.eqb_eq in Hn. subst name.
    destruct (Hk body Hin) as [v Hv].
    unfold Py.render_field. rewrite Ha, Hd, Hv, drop_all. simpl.
    destruct (Py.render_pieces kw ps); [done|]. by apply IH.
Qed.

Lemma format_plain names kw tpl ps :
  Py.parse_format tpl = Some ps ->
  plain_fields names ps = true ->
  (forall name, In name names -> is_Some (kw !! name)) ->
  is_ok (Py.format tpl kw) = true.
Proof.
  intros Hp Hf Hk. unfold Py.format. rewrite Hp. by eapply render_pieces_plain.
Qed.

Lemma build_context_canned dc appt_id t context :
  LLM._build_context dc appt_id t = Some context ->
  (forall name, In name canned_names -> is_Some (context !! name))
  /\ context !! "action_needed" = None.
Proof.
  unfold LLM._build_context.
  destruct (LLM.appointments_get (LLM.appointments dc) appt_id) as [appt|]; [|done].
  intros E. apply (inj Some) in E. subst context. split.
  - intros name [<-|[<-|[<-|[]]]]; eexists; vm_compute; reflexivity.
  - vm_compute. reflexivity.
Qed.

(** X13.  Of the twelve canned templates, every one but the urgent SMS
    renders on every context of [_build_context]; the urgent SMS names
    the field [action_needed], which no context holds, so it never
    renders and a rule that asks for an urgent SMS without a custom
    message sends no SMS. *)
Theorem canned_templates_render dc appt_id t context a tone :
  LLM._build_context dc appt_id t = Some context ->
  is_ok (Py.format (LLM.base_templates a tone) context)
  = match a, tone with
    | LLM.SMS, LLM.Urgent => false
    | _, _ => true
    end.
Proof.
  intros Hctx. apply build_context_canned in Hctx as [Hin Hout].
  assert (Hplain : forall tpl ps,
             Py.parse_format tpl = Some ps -> plain_fields canned_names ps = true ->
             is_ok (Py.format tpl context) = true).
  { intros tpl ps Hp Hf. by eapply format_plain. }
  destruct a, tone;
    try (eapply Hplain; vm_compute; reflexivity).
  rewrite (format_missing _ context "action_needed"); [done| |done].
  vm_compute. tauto.
Qed.

Lemma scan_brace_free kw t :
  brace_free t ->
  exists ps, Py.scan Py.SText t = Some ps /\ Py.render_pieces kw ps = Ok t.
Proof.
  intros [Hl Hr]. induction t as [|c t IH]; [by exists []|].
  simpl in Hl, Hr. apply orb_false_iff in Hl as [Hl Hl'].
  apply orb_false_iff in Hr as [Hr Hr'].
  destruct (IH Hl' Hr') as (ps & Hs & Hp).
  exists (Py.Lit c :: ps). cbn [Py.scan]. rewrite Hl, Hr, Hs. split; [done|].
  simpl. by rewrite Hp.
Qed.

Lemma format_brace_free kw t : brace_free t -> Py.format t kw = Ok t.
Proof.
  intros Ht. destruct (scan_brace_free kw t Ht) as (ps & Hs & Hp).
  unfold Py.format, Py.parse_format. by rewrite Hs.
Qed.

(** X14.  A template without braces (a custom message that names no
    field) is delivered word for word, whatever the context holds. *)
Theorem brace_free_template_is_verbatim context a t :
  LLM.template a = LLM.TStr t ->
  brace_free t ->
  LLM.render_action context a
  = Ok (match LLM.action_type a with
        | LLM.SMS => LLM.RSms (LLM.get_or_none context "patient_phone") t
        | LLM.EMAIL =>
            LLM.REmail (LLM.get_or_none context "patient_email")
                       (LLM.or_else (LLM.subject a) "Appointment Reminder") t
        | LLM.CALL => LLM.RCall (LLM.get_or_none context "patient_phone") t
        end).
Proof.
  intros Ht Hb. unfold LLM.render_action. rewrite Ht.
  rewrite (format_brace_free context t Hb). by destruct (LLM.action_type a).
Qed.

End TemplateFacts.

(** ** The conditions of the pattern table *)

Lemma fold_dict_set_get {V X : Type} (g : X -> V) fld xs (d : list (string * V)) k :
  Syntax.dict_get (fold_left (fun d x => Syntax.dict_set d fld (g x)) xs d) k
  = match (if String.eqb fld k then last (map g xs) else None) with
    | Some v => Some v
    | None => Syntax.dict_get d k
    end.
Proof.
  revert d. induction xs as [|x xs IH] using rev_ind; intros d.
  - simpl. by destruct (String.eqb fld k).
  - rewrite fold_left_app. simpl. rewrite dict_get_set, map_app. simpl.
    rewrite last_snoc, IH.
    destruct (String.eqb_spec fld k) as [->|Hne].
    + by rewrite decide_True.
    + by rewrite decide_False.
Qed.

Lemma fold_dict_set_keys {V X : Type} (g : X -> V) fld xs (d : list (string * V)) :
  NoDup (map fst d) ->
  NoDup (map fst (fold_left (fun d x => Syntax.dict_set d fld (g x)) xs d))
  /\ forall k, k ∈ map fst (fold_left (fun d x => Syntax.dict_set d fld (g x)) xs d) ->
               k ∈ map fst d \/ k = fld.
Proof.
  revert d. induction xs as [|x xs IH]; intros d Hd; simpl; [auto|].
  destruct (IH (Syntax.dict_set d fld (g x)) (dict_set_NoDup _ _ _ Hd)) as [Hn Hk].
  split; [done|]. intros k Hin. apply Hk in Hin as [Hin|Hin]; [|auto].
  rewrite dict_set_keys in Hin. destruct (decide _); [auto|].
  apply elem_of_app in Hin as [Hin|Hin]; [auto|].
  apply list_elem_of_singleton in Hin. auto.
Qed.

Lemma extract_conditions_fold table text d fld :
  NoDup (map fst d) ->
  let step := fun (conds : list (string * Syntax.cond_value))
                  '(pattern, f, converter) =>
    fold_left (fun conds m =>
      Syntax.dict_set conds f
        (converter (match fst m with [] => "" | _ => Re.group 1 m end)))
      (Syntax.finditer (String.length text) pattern text) conds in
  let values :=
    flat_map (fun '(pattern, f, converter) =>
                if String.eqb f fld then
                  map (fun m => converter (match fst m with [] => "" | _ => Re.group 1 m end))
                      (Syntax.finditer (String.length text) pattern text)
                else []) table in
  Syntax.dict_get (fold_left step table d) fld
  = match last values with Some v => Some v | None => Syntax.dict_get d fld end
  /\ NoDup (map fst (fold_left step table d))
  /\ forall k, k ∈ map fst (fold_left step table d) ->
               k ∈ map fst d \/ k ∈ map (fun p => snd (fst p)) table.
Proof.
  intros Hd step values. subst step values.
  revert d Hd. induction table as [|[[pattern f] converter] table IH]; intros d Hd.
  - simpl. split; [done|]. split; [done|]. auto.
  - cbn [fold_left flat_map map fst snd].
    set (d' := fold_left _ (Syntax.finditer _ pattern text) d).
    destruct (fold_dict_set_keys
                (fun m : list string * string =>
                   converter (match fst m with [] => "" | _ => Re.group 1 m end))
                f (Syntax.finditer (String.length text) pattern text) d Hd) as [Hn Hk].
    fold d' in Hn, Hk.
    destruct (IH d' Hn) as (Hget & Hnd & Hkeys).
    split; [|split; [done|]].
    + rewrite Hget, last_app. unfold d'. rewrite fold_dict_set_get.
      destruct (last (flat_map _ table)); [done|].
      by destruct (String.eqb f fld).
    + intros k Hin. apply Hkeys in Hin as [Hin|Hin].
      * apply Hk in Hin as [Hin|Hin]; [auto|]. right. apply elem_of_cons. auto.
      * right. apply elem_of_cons. auto.
Qed.

(** X15.  [extract_conditions] keeps one condition for a field, on one
    of the eight fields of the table, and the value it keeps is the last
    one assigned: of the patterns that match, the one latest in the
    table decides, and of its matches the rightmost. *)
Theorem extract_conditions_last_wins text fld :
  Syntax.dict_get (Syntax.extract_conditions text) fld = last (assignments text fld)
  /\ NoDup (map fst (Syntax.extract_conditions text))
  /\ forall k, k ∈ map fst (Syntax.extract_conditions text) -> k ∈ condition_fields.
Proof.
  destruct (extract_conditions_fold Syntax.condition_patterns (PyStr.lower text) [] fld)
    as (Hget & Hn & Hk); [constructor|].
  unfold Syntax.extract_conditions, assignments. split; [|split; [exact Hn|]].
  - rewrite Hget. by destruct (last _).
  - intros k Hin. apply Hk in Hin as [Hin|Hin]; [by apply elem_of_nil in Hin|].
    revert Hin. vm_compute map. rewrite !elem_of_cons, elem_of_nil.
    unfold condition_fields. rewrite !elem_of_cons, elem_of_nil. tauto.
Qed.

(** ** The actions of the pattern table *)

Lemma or_else_filled custom dflt : dflt <> "" -> LLM.or_else custom dflt <> "".
Proof.
  intros Hd. unfold LLM.or_else. destruct custom as [s|]; [|done].
  by destruct (String.eqb_spec s "").
Qed.

Lemma extract_actions_templates text acts tpls :
  Syntax.extract_actions text = (acts, tpls) ->
  acts `sublist_of` ["SMS"; "EMAIL"; "CALL"]
  /\ forall action, In action acts ->
       exists tpl, Syntax.dict_get tpls action = Some tpl /\ filled tpl.
Proof.
  unfold Syntax.extract_actions, Syntax.action_patterns. cbn [fold_left].
  assert (Hs : forall c d, d <> "" -> filled (Syntax.TStr (LLM.or_else c d))).
  { intros c d Hd [= E]. by apply (or_else_filled c d). }
  repeat match goal with
         | |- context [Re.matches false ?r ?t] => destruct (Re.matches false r t)
         end;
    intros [= <- <-]; (split; [repeat constructor|]); simpl;
    intros action Hin; repeat destruct Hin as [<-|Hin]; try done;
    eexists; (split; [reflexivity|]); try (by apply Hs); done.
Qed.

(** X16.  A rule that [parse_rule] returns names each of the actions
    SMS, EMAIL and CALL at most once, in this order whatever the order
    of the text, and holds for each of them a template that is not
    empty: [trigger_actions] never skips an action of a parsed rule for
    want of a template. *)
Theorem parsed_actions_have_templates text rule :
  Syntax.parse_rule text = Some rule ->
  Syntax.actions rule `sublist_of` ["SMS"; "EMAIL"; "CALL"]
  /\ forall action, In action (Syntax.actions rule) ->
       exists tpl, Syntax.dict_get (Syntax.templates rule) action = Some tpl /\ filled tpl.
Proof.
  unfold Syntax.parse_rule.
  destruct (match Re.rmatch_here _ _ _ with Some _ => _ | None => _ end) as [rid content].
  destruct (List.fold_right _ _ _) as [conditions_text actions_text].
  destruct (_ || _); [done|].
  destruct (Syntax.extract_actions actions_text) as [acts tpls] eqn:E.
  apply extract_actions_templates in E.
  destruct acts; [done|]. by intros [= <-].
Qed.

(** ** Rules without quoted text *)

Lemma all_in_lstrip P s : all_in P s -> all_in P (PyStr.lstrip s).
Proof.
  induction s as [|c s IH]; [done|]. intros [Hc Hs]. simpl.
  destruct (PyStr.is_space c); [by apply IH|done].
Qed.

Lemma all_in_strip P s : all_in P s -> all_in P (PyStr.strip s).
Proof.
  intros Hs. unfold PyStr.strip, PyStr.rstrip.
  by apply all_in_rev, all_in_lstrip, all_in_rev, all_in_lstrip.
Qed.

Lemma rmatch_here_keeps ic P r s m :
  all_in P s -> Re.rmatch_here ic r s = Some m -> Forall (all_in P) (fst m).
Proof.
  intros Hs E. unfold Re.rmatch_here in E.
  apply (rmatch_keeps ic P) in E as (s' & caps' & Hs' & Hc' & [= <-]); [done|done|].
  constructor.
Qed.

(** The text that [parse_rule] hands to [extract_actions] is made of
    the characters of the rule text. *)
Lemma parse_rule_actions_text P text rule :
  Syntax.parse_rule text = Some rule ->
  all_in P text ->
  exists actions_text,
    all_in P actions_text
    /\ Syntax.extract_actions actions_text = (Syntax.actions rule, Syntax.templates rule).
Proof.
  unfold Syntax.parse_rule. intros E Ht.
  assert (Hstrip : all_in P (PyStr.strip text)) by by apply all_in_strip.
  destruct (Re.rmatch_here false Syntax.rule_id_re (PyStr.strip text)) as [m|] eqn:Em.
  - apply (rmatch_here_keeps _ P) in Em; [|done].
    revert E. generalize ("rule_" +:+ Re.group 1 m). intros rid.
    pose proof (group_keeps P 2 m Em) as Hc. revert Hc.
    generalize (Re.group 2 m). intros content Hc.
    destruct (List.fold_right _ _ _) as [conditions_text actions_text] eqn:Ef.
    assert (Ha : all_in P actions_text).
    { revert Ef. unfold Syntax.if_then_patterns. cbn [List.fold_right].
      repeat match goal with
             | |- context [Re.search true ?r content] =>
                 let Es := fresh "Es" in
                 destruct (Re.search true r content) as [g|] eqn:Es;
                   [apply (search_keeps _ P) in Es as [Hg _]; [|done];
                    intros [= <- <-]; by apply all_in_strip, group_keeps|]
             end.
      by intros [= <- <-]. }
    destruct (_ || _); [done|].
    destruct (Syntax.extract_actions actions_text) as [acts tpls] eqn:Ee.
    destruct acts; [done|]. intros [= <-]. by exists actions_text.
  - revert E. generalize "user_rule". intros rid.
    destruct (List.fold_right _ _ _) as [conditions_text actions_text] eqn:Ef.
    assert (Ha : all_in P actions_text).
    { revert Ef. unfold Syntax.if_then_patterns. cbn [List.fold_right].
      repeat match goal with
             | |- context [Re.search true ?r (PyStr.strip text)] =>
                 let Es := fresh "Es" in
                 destruct (Re.search true r (PyStr.strip text)) as [g|] eqn:Es;
                   [apply (search_keeps _ P) in Es as [Hg _]; [|done];
                    intros [= <- <-]; by apply all_in_strip, group_keeps|]
             end.
      by intros [= <- <-]. }
    destruct (_ || _); [done|].
    destruct (Syntax.extract_actions actions_text) as [acts tpls] eqn:Ee.
    destruct acts; [done|]. intros [= <-]. by exists actions_text.
Qed.

Lemma quoted_needs_quote ic s : lang ic Syntax.quoted s -> ~ quote_free s.
Proof.
  unfold Syntax.quoted. cbn [Re.RCat lang].
  intros (a & b & -> & (c & -> & Hc) & _) Hq.
  rewrite append_cons in Hq. destruct Hq as [Hq _]. by rewrite Hc in Hq.
Qed.

Lemma before_quoted_fails ic r text :
  quote_free text -> Re.search ic (Re.RSeq r Syntax.quoted) text = None.
Proof.
  intros Hq. apply search_none. intros pre a post -> (x & y & -> & _ & Hy).
  apply (quoted_needs_quote ic y); [done|].
  apply all_in_app in Hq as [_ Hq]. apply all_in_app in Hq as [Hq _].
  by apply all_in_app in Hq as [_ Hq].
Qed.

Lemma before_quoted_fails2 ic r1 r2 text :
  quote_free text -> Re.search ic (Re.RSeq r1 (Re.RSeq r2 Syntax.quoted)) text = None.
Proof.
  intros Hq. apply search_none. intros pre a post -> (x & y & -> & _ & y1 & y2 & -> & _ & Hy).
  apply (quoted_needs_quote ic y2); [done|].
  apply all_in_app in Hq as [_ Hq]. apply all_in_app in Hq as [Hq _].
  apply all_in_app in Hq as [_ Hq]. by apply all_in_app in Hq as [_ Hq].
Qed.

Lemma syntax_no_custom_message text action_type :
  quote_free text -> Syntax.extract_custom_message text action_type = None.
Proof.
  intros Hq. unfold Syntax.extract_custom_message. cbn [List.fold_right Re.RCat].
  rewrite before_quoted_fails2 by done.
  by rewrite !before_quoted_fails.
Qed.

Lemma syntax_no_subject text :
  quote_free text -> Syntax.extract_email_subject text = None.
Proof.
  intros Hq. unfold Syntax.extract_email_subject. cbn [Re.RCat].
  by rewrite before_quoted_fails.
Qed.

Lemma extract_actions_defaults text acts tpls :
  quote_free text ->
  Syntax.extract_actions text = (acts, tpls) ->
  forall action, In action acts ->
    In action ["SMS"; "EMAIL"; "CALL"]
    /\ Syntax.dict_get tpls action = Some (default_template action).
Proof.
  intros Hq. unfold Syntax.extract_actions, Syntax.action_patterns. cbn [fold_left].
  repeat match goal with
         | |- context [Re.matches false ?r ?t] => destruct (Re.matches false r t)
         end;
    cbn beta iota zeta;
    rewrite ?syntax_no_custom_message, ?syntax_no_subject by done;
    intros [= <- <-]; simpl;
    intros action Hin; repeat destruct Hin as [<-|Hin]; try done;
    (split; [simpl; tauto|reflexivity]).
Qed.

Section TriggerFacts.
Context `{PyRuntime}.

Lemma format_returns names kw tpl ps :
  Py.parse_format tpl = Some ps ->
  plain_fields names ps = true ->
  (forall name, In name names -> is_Some (kw !! name)) ->
  exists s, Py.format tpl kw = Ok s.
Proof.
  intros Hp Hf Hk. pose proof (format_plain names kw tpl ps Hp Hf Hk) as Hok.
  destruct (Py.format tpl kw) as [s|]; [eauto|done].
Qed.

(** A default template renders on every dictionary that holds the six
    placeholders. *)
Lemma trigger_one_default tpls patient placeholders action :
  In action ["SMS"; "EMAIL"; "CALL"] ->
  Syntax.dict_get tpls action = Some (default_template action) ->
  (forall name, In name placeholder_names -> is_Some (placeholders !! name)) ->
  exists r, Syntax.trigger_one tpls patient placeholders action = Some r
            /\ kind_of r = action.
Proof.
  intros Hin Ht Hk. unfold Syntax.trigger_one. rewrite Ht.
  assert (Hf : forall tpl ps,
             Py.parse_format tpl = Some ps -> plain_fields placeholder_names ps = true ->
             exists s, Py.format tpl placeholders = Ok s).
  { intros tpl ps Hp Hpl. by eapply format_returns. }
  destruct Hin as [<-|[<-|[<-|[]]]]; cbn -[Py.format LLM.base_templates].
  - edestruct Hf as [s ->]; [vm_compute; reflexivity..|]. simpl. eauto.
  - edestruct (Hf "Appointment Reminder") as [s ->]; [vm_compute; reflexivity..|].
    edestruct (Hf (LLM.base_templates LLM.EMAIL LLM.Default)) as [b ->];
      [vm_compute; reflexivity..|].
    simpl. eauto.
  - edestruct Hf as [s ->]; [vm_compute; reflexivity..|]. simpl. eauto.
Qed.

Lemma omap_kinds (f : string -> option LLM.Rendered) acts :
  (forall action, In action acts -> exists r, f action = Some r /\ kind_of r = action) ->
  map kind_of (omap f acts) = acts.
Proof.
  induction acts as [|a acts IH]; intros Hf; [done|].
  destruct (Hf a) as (r & Hr & Hk); [by left|].
  cbn [omap list_omap]. rewrite Hr. cbn [map]. rewrite Hk. f_equal.
  apply IH. intros action Hin. apply Hf. by right.
Qed.

Lemma simple_datetime_diff_int current_str appt_str :
  exists z, Py.to_int (Syntax.simple_datetime_diff current_str appt_str) = Ok z.
Proof.
  unfold Syntax.simple_datetime_diff, LLM.max0.
  repeat (case_match; simpl; eauto).
Qed.

(** What [build_context] puts under the keys [trigger_actions] reads
    before it formats. *)
Lemma syntax_build_context_inv appt_id t ad pd prd idd context :
  Syntax.build_context appt_id t ad pd prd idd = Ok (Some context) ->
  (exists start, Syntax.fields context !! "hours_until"
                 = Some (Syntax.simple_datetime_diff t start))
  /\ Syntax.fields context !! "patient_dnc"
     = Some (match Syntax.patient context with
             | Some p => of_opt_bool (dnc p)
             | None => VBool false
             end).
Proof.
  unfold Syntax.build_context.
  destruct (Syntax.dict_get ad appt_id) as [appt|]; [|done].
  destruct (start_time appt) as [start|]; [|done].
  intros [= <-]. cbn [Syntax.fields Syntax.patient]. split.
  - exists start. vm_compute. reflexivity.
  - vm_compute. reflexivity.
Qed.

Lemma syntax_build_context_returns appt_id t ad pd prd idd appt start :
  Syntax.dict_get ad appt_id = Some appt ->
  start_time appt = Some start ->
  exists context,
    Syntax.build_context appt_id t ad pd prd idd = Ok (Some context)
    /\ Syntax.patient context = pd !! appt_patient_id appt
    /\ Syntax.practice context = prd !! appt_practice_id appt.
Proof.
  intros Ha Hs. unfold Syntax.build_context. rewrite Ha, Hs.
  eexists. split; [reflexivity|]. split; reflexivity.
Qed.

(** X17.  A rule of [parse_rule] whose text holds no quote (so no
    custom message and no subject) triggers every one of its actions, in
    their order, for an appointment whose patient and practice are known
    and whose patient is not on do-not-contact: none of the default
    templates fails on the placeholders of [trigger_actions]. *)
Theorem quote_free_rule_triggers_all text rule appt_id t ad pd prd idd context p pr :
  Syntax.parse_rule text = Some rule ->
  quote_free text ->
  Syntax.build_context appt_id t ad pd prd idd = Ok (Some context) ->
  Syntax.patient context = Some p ->
  Syntax.practice context = Some pr ->
  dnc p <> Some true ->
  exists triggered,
    Syntax.trigger_actions rule context = Ok triggered
    /\ map kind_of triggered = Syntax.actions rule.
Proof.
  intros Hp Hq Hctx Hpat Hprac Hdnc.
  destruct (parse_rule_actions_text _ _ _ Hp Hq) as (actions_text & Ha & He).
  pose proof (extract_actions_defaults _ _ _ Ha He) as Hd.
  destruct (syntax_build_context_inv _ _ _ _ _ _ _ Hctx) as [[start Hh] Hf].
  unfold Syntax.trigger_actions. rewrite Hpat, Hprac, Hf, Hh, Hpat. simpl.
  assert (Hflag : Py.truthy (of_opt_bool (dnc p)) = false).
  { destruct (dnc p) as [[]|]; done. }
  rewrite Hflag.
  destruct (simple_datetime_diff_int t start) as [z ->]. simpl.
  eexists. split; [reflexivity|].
  apply omap_kinds. intros action Hin.
  destruct (Hd action Hin) as [Hin3 Ht].
  apply trigger_one_default; [done|done|].
  intros name Hn. unfold placeholder_names in Hn.
  repeat destruct Hn as [<-|Hn]; try done; eexists; vm_compute; reflexivity.
Qed.

End TriggerFacts.

(** ** The context and the loop of the pattern-table engine *)

Section SyntaxRun.
Context `{PyRuntime}.

(** X18.  An appointment without [start_time]: [build_context] of the
    pattern-table engines raises on the subscript, where
    [_build_context] of the semantic engine returns a context with the
    fallbacks, 24 hours and the words for the time. *)
Theorem missing_start_time dc appt_id t appt :
  LLM.appointments_get (LLM.appointments dc) appt_id = Some appt ->
  start_time appt = None ->
  Syntax.build_context appt_id t (LLM.appointments dc) (LLM.patients dc)
                       (LLM.practices dc) (LLM.intakes dc) = Raise
  /\ exists context,
       LLM._build_context dc appt_id t = Some context
       /\ context !! "hours_until" = Some (VInt 24)
       /\ context !! "appointment_formatted_time" = Some (VStr "your appointment time").
Proof.
  intros Ha Hs. split.
  - unfold Syntax.build_context.
    change (Syntax.dict_get (LLM.appointments dc) appt_id)
      with (LLM.appointments_get (LLM.appointments dc) appt_id).
    by rewrite Ha, Hs.
  - unfold LLM._build_context. rewrite Ha. eexists. split; [reflexivity|].
    assert (Hh : LLM.hours_until_of t appt = VInt 24).
    { apply hours_until_fallback. right. by rewrite Hs. }
    assert (Hf : LLM.formatted_time_of appt = "your appointment time").
    { unfold LLM.formatted_time_of. by rewrite Hs. }
    split.
    + transitivity (Some (LLM.hours_until_of t appt)); [vm_compute; reflexivity|by rewrite Hh].
    + transitivity (Some (VStr (LLM.formatted_time_of appt)));
        [vm_compute; reflexivity|by rewrite Hf].
Qed.

End SyntaxRun.

Lemma startswith_refl s : PyStr.startswith s s = true.
Proof. induction s as [|c s IH]; [done|]. simpl. by rewrite Ascii.eqb_refl. Qed.

Lemma contains_refl s : PyStr.contains s s = true.
Proof. destruct s; simpl; [done|]. by rewrite Ascii.eqb_refl, startswith_refl. Qed.

(** X19.  A text condition of the pattern-table engines is a test for a
    substring, letter case apart: it holds exactly when the context
    holds a text under the key and the condition's value occurs in it
    (the second test of the code, for equality, adds nothing). *)
Theorem text_condition_is_containment context key s :
  Syntax.condition_holds context key (Syntax.CStr s) = true
  <-> exists c, context !! key = Some (VStr c)
                /\ PyStr.contains (PyStr.lower s) (PyStr.lower c) = true.
Proof.
  unfold Syntax.condition_holds.
  destruct (context !! key) as [[| | | |c|]|]; try (split; [done|by intros (c' & [= ] & _)]).
  split.
  - intros Hc. exists c. split; [done|].
    apply orb_true_iff in Hc as [Hc|Hc]; [done|].
    apply String.eqb_eq in Hc. rewrite Hc. apply contains_refl.
  - intros (c' & [= <-] & Hc). by rewrite Hc.
Qed.

(** On a rule that names none of the four record-valued keys, as every
    rule of [parse_rule] does, the test is [evaluate_rule] on the other
    entries. *)
Lemma evaluate_in_fields rule context :
  (forall k v, In (k, v) (Syntax.conditions rule) ->
               ~ In k ["appointment"; "patient"; "practice"; "intake"]) ->
  Syntax.evaluate_in rule context = Syntax.evaluate_rule rule (Syntax.fields context).
Proof.
  unfold Syntax.evaluate_in, Syntax.evaluate_rule. intros Hk.
  assert (E : forallb (fun '(k, v) => Syntax.holds_in context k v) (Syntax.conditions rule)
              = forallb (fun '(k, v) => Syntax.condition_holds (Syntax.fields context) k v)
                        (Syntax.conditions rule)).
  { induction (Syntax.conditions rule) as [|[k v] conds IH]; [done|]. simpl.
    rewrite IH by (intros k' v' Hin; apply (Hk k' v'); by right). f_equal.
    specialize (Hk k v (or_introl eq_refl)). unfold Syntax.holds_in.
    repeat match goal with
           | |- context [String.eqb k ?name] =>
               destruct (String.eqb_spec k name) as [->|_]; [exfalso; apply Hk; simpl; tauto|]
           end.
    done. }
  rewrite E. by destruct (Syntax.conditions rule).
Qed.

Section Loop.
Context `{PyRuntime}.

Lemma print_actions_count actions n shown n' :
  (n < Syntax.max_outputs)%nat ->
  Syntax.print_actions actions n = (shown, n') ->
  n' = (n + length shown)%nat /\ (n' <= Syntax.max_outputs)%nat
  /\ exists rest, actions = shown ++ rest.
Proof.
  revert n shown n'. induction actions as [|a actions IH]; intros n shown n' Hn;
    cbn [Syntax.print_actions].
  - intros [= <- <-]. simpl. split; [lia|]. split; [lia|]. by exists [].
  - destruct (Nat.leb_spec Syntax.max_outputs (S n)) as [Hle|Hlt].
    + intros [= <- <-]. simpl. split; [lia|]. split; [lia|]. by exists actions.
    + destruct (Syntax.print_actions actions (S n)) as [shown' k] eqn:E.
      intros [= <- <-]. destruct (IH _ _ _ Hlt E) as (-> & Hk & rest & ->).
      simpl. split; [lia|]. split; [done|]. by exists rest.
Qed.

Lemma process_count rule t ad pd prd idd ids n :
  (n <= Syntax.max_outputs)%nat ->
  let out := Syntax.process rule t ad pd prd idd ids n in
  Syntax.total out = (n + length (Syntax.printed out))%nat
  /\ (Syntax.total out <= Syntax.max_outputs)%nat.
Proof.
  revert n. induction ids as [|appt_id ids IH]; intros n Hn; cbn [Syntax.process].
  - simpl. lia.
  - destruct (Nat.leb_spec Syntax.max_outputs n) as [Hle|Hlt]; simpl; [lia|].
    destruct (Syntax.build_context appt_id t ad pd prd idd) as [[context|]|]; simpl;
      [| by apply IH | lia].
    destruct (Syntax.evaluate_in rule context); [|by apply IH].
    destruct (Syntax.trigger_actions rule context) as [actions|]; simpl; [|lia].
    destruct (Syntax.print_actions actions n) as [shown k] eqn:E.
    destruct (print_actions_count _ _ _ _ Hlt E) as (-> & Hk & _).
    destruct (IH (n + length shown)%nat Hk) as [Ht Hm]. simpl.
    rewrite length_app. split; [lia|done].
Qed.

(** X20.  The loop of [main] over the appointments prints at most ten
    actions for a rule, and the total it reports is the number of
    actions it printed (not of appointments matched). *)
Theorem main_prints_at_most_ten rule t ad pd prd idd ids :
  let out := Syntax.process rule t ad pd prd idd ids 0 in
  Syntax.total out = length (Syntax.printed out)
  /\ (length (Syntax.printed out) <= 10)%nat.
Proof.
  destruct (process_count rule t ad pd prd idd ids 0) as [Ht Hm].
  { unfold Syntax.max_outputs. lia. }
  simpl in *. unfold Syntax.max_outputs in Hm. split; [done|]. by rewrite <- Ht.
Qed.

End Loop.

(** ** The event-driven engine *)

Lemma split_on_cons c s : exists part parts, PyStr.split_on c s = part :: parts.
Proof.
  induction s as [|x s (part & parts & IH)]; simpl; [eauto|].
  destruct (Ascii.eqb x c); [eauto|]. rewrite IH. eauto.
Qed.

Lemma split_on_app c a b :
  PyStr.split_on c (a +:+ String c b) = PyStr.split_on c a ++ PyStr.split_on c b.
Proof.
  induction a as [|x a IH].
  - rewrite append_nil. simpl. by rewrite Ascii.eqb_refl.
  - rewrite append_cons. simpl. rewrite IH.
    destruct (Ascii.eqb x c); [done|].
    by destruct (split_on_cons c a) as (part & parts & ->).
Qed.

Lemma walk_null parts : Events.walk JNull parts = JNull.
Proof. by destruct parts. Qed.

Lemma walk_app obj l1 l2 : Events.walk obj (l1 ++ l2) = Events.walk (Events.walk obj l1) l2.
Proof.
  revert obj. induction l1 as [|part l1 IH]; intros obj; [done|]. simpl.
  destruct obj; try (by rewrite walk_null). apply IH.
Qed.

(** X21.  [deep_get] follows a dotted path step by step: the value at
    the path [p.q] is the value at [q] of the value at [p], and [None]
    when the value at [p] is [None] or no dictionary. *)
Theorem deep_get_composes obj p q :
  Events.deep_get obj (p +:+ "." +:+ q) = Events.deep_get (Events.deep_get obj p) q
  /\ ((forall d, Events.deep_get obj p <> JDict d) ->
      Events.deep_get obj (p +:+ "." +:+ q) = JNull).
Proof.
  unfold Events.deep_get.
  change ("." +:+ q) with (String "." q).
  rewrite split_on_app, walk_app. split; [done|].
  intros Hd. destruct (split_on_cons "." q) as (part & parts & ->).
  destruct (Events.walk obj (PyStr.split_on "." p)) as [| | | | |d]; try done.
  by destruct (Hd d).
Qed.

Section EventFacts.
Context `{PyRuntime}.

Lemma run_tests_only_logic event ctx conds :
  (forall k v, In (k, v) conds -> k = "logic") ->
  Events.run_tests event ctx conds = Ok [].
Proof.
  induction conds as [|[k v] conds IH]; intros Hk; [done|]. simpl.
  rewrite (Hk k v) by (by left). simpl. apply IH. intros k' v' Hin. apply (Hk k' v'). by right.
Qed.

(** X22.  A rule without a condition (its [conditions] missing, empty
    or holding the key [logic] only) matches every event when its logic
    is [ALL], which is the default and is read whatever its letter case,
    and no event for every other word. *)
Theorem event_rule_without_conditions rule event ctx :
  (forall k v, In (k, v) (Events.conditions rule) -> k = "logic") ->
  Events.match_conditions rule event ctx
  = match Json.get (Events.conditions rule) "logic" with
    | None => Ok true
    | Some (JStr s) => Ok (String.eqb (PyStr.upper s) "ALL")
    | Some _ => Raise
    end.
Proof.
  intros Hk. unfold Events.match_conditions.
  rewrite (run_tests_only_logic _ _ _ Hk).
  destruct (Json.get (Events.conditions rule) "logic") as [[| | |s| |]|]; try done.
  simpl. by destruct (String.eqb (PyStr.upper s) "ALL").
Qed.

Lemma run_tests_in event ctx conds k v checks :
  In (k, v) conds -> k <> "logic" ->
  Events.run_tests event ctx conds = Ok checks ->
  exists check, Events.test event ctx k v = Ok check /\ In check checks.
Proof.
  intros Hin Hk. revert checks.
  induction conds as [|[k' v'] conds IH]; intros checks; [done|]. simpl.
  destruct Hin as [[= -> ->]|Hin].
  - apply String.eqb_neq in Hk. rewrite Hk.
    destruct (Events.test event ctx k v) as [check|]; [|done]. simpl.
    destruct (Events.run_tests event ctx conds) as [rest|]; [|done]. simpl.
    intros [= <-]. exists check. split; [done|by left].
  - destruct (String.eqb k' "logic"); [by apply IH|].
    destruct (Events.test event ctx k' v') as [check'|]; [|done]. simpl.
    destruct (Events.run_tests event ctx conds) as [rest|] eqn:E; [|done]. simpl.
    intros [= <-]. destruct (IH Hin rest eq_refl) as (check & Hc & Hi).
    exists check. split; [done|by right].
Qed.

Lemma run_tests_raise event ctx conds k v :
  In (k, v) conds -> k <> "logic" ->
  Events.test event ctx k v = Raise ->
  Events.run_tests event ctx conds = Raise.
Proof.
  intros Hin Hk Ht.
  destruct (Events.run_tests event ctx conds) as [checks|] eqn:E; [|done].
  destruct (run_tests_in _ _ _ _ _ _ Hin Hk E) as (check & Hc & _). congruence.
Qed.

Lemma forallb_id_false checks : In false checks -> forallb id checks = false.
Proof.
  induction checks as [|[] checks IH]; simpl; [done| |done].
  intros [|Hin]; [done|]. by apply IH.
Qed.

(** X23.  An appointment that started before the event occurred never
    satisfies the condition [appointment_hours_until] of the
    event-driven engine, whatever the bound: the hours are negative and
    the test asks for hours from zero up.  A rule of logic [ALL] with
    this condition does not fire on such an event. *)
Theorem started_appointment_never_matches rule event ctx expected appt start
        now_dt start_dt secs :
  Json.get (Events.conditions rule) "logic" = None ->
  In ("appointment_hours_until", expected) (Events.conditions rule) ->
  Events.resolve_appointment event ctx = Some appt ->
  start_time appt = Some start ->
  Events.parse_iso (occurred_at event) = Some now_dt ->
  Events.parse_iso (Some start) = Some start_dt ->
  seconds_between start_dt now_dt = Some secs ->
  (secs < 0)%Q ->
  Events.test event ctx "appointment_hours_until" expected = Ok false
  /\ Events.match_conditions rule event ctx <> Ok true.
Proof.
  intros Hl Hin Ha Hs Hn Hd Hsec Hneg.
  assert (Ht : Events.test event ctx "appointment_hours_until" expected = Ok false).
  { unfold Events.test. cbn [String.eqb Ascii.eqb Bool.eqb]. cbv iota beta.
    rewrite Ha, Hs, Hn, Hd. cbn [Events.hours_until]. rewrite Hsec. simpl.
    destruct (Json.to_float expected) as [target|]; [|done].
    assert (Hq : Qle_bool 0 (secs / 3600) = false).
    { destruct (Qle_bool 0 (secs / 3600)) eqn:E; [|done].
      apply Qle_bool_iff in E.
      assert (secs / 3600 < 0)%Q; [|lra].
      apply Qlt_shift_div_r; [done|]. by rewrite Qmult_0_l. }
    by rewrite Hq. }
  split; [done|].
  unfold Events.match_conditions. rewrite Hl. simpl.
  destruct (Events.run_tests event ctx (Events.conditions rule)) as [checks|] eqn:E; [|done].
  simpl. destruct (run_tests_in _ _ _ _ _ _ Hin ltac:(done) E) as (check & Hc & Hi).
  rewrite Ht in Hc. injection Hc as <-.
  by rewrite (forallb_id_false _ Hi).
Qed.

(** X24.  The subtraction of [hours_until] is not guarded: when the
    event's time stamp and the appointment's start cannot be subtracted
    (one carries a UTC offset, as a stamp that ends in [Z] does, and the
    other none), the condition [appointment_hours_until] raises, and so
    do [match_conditions] and [evaluate_rule_over_events] for every list
    of events that holds such an event. *)
Theorem mixed_time_stamps_raise self rule event events expected appt start
        now_dt start_dt :
  In ("appointment_hours_until", expected) (Events.conditions rule) ->
  Events.resolve_appointment event self = Some appt ->
  start_time appt = Some start ->
  Events.parse_iso (occurred_at event) = Some now_dt ->
  Events.parse_iso (Some start) = Some start_dt ->
  seconds_between start_dt now_dt = None ->
  In event events ->
  Events.match_conditions rule event self = Raise
  /\ Events.evaluate_rule_over_events self rule events = Raise.
Proof.
  intros Hin Ha Hs Hn Hd Hsec Hev.
  assert (Ht : Events.test event self "appointment_hours_until" expected = Raise).
  { unfold Events.test. cbn [String.eqb Ascii.eqb Bool.eqb]. cbv iota beta.
    rewrite Ha, Hs, Hn, Hd. cbn [Events.hours_until]. by rewrite Hsec. }
  assert (Hm : Events.match_conditions rule event self = Raise).
  { unfold Events.match_conditions.
    rewrite (run_tests_raise _ _ _ _ _ Hin ltac:(done) Ht).
    by destruct (match Json.get _ _ with None => _ | Some _ => _ end). }
  split; [done|].
  induction events as [|ev events IH]; [done|]. simpl.
  destruct Hev as [->|Hev].
  - by rewrite Hm.
  - rewrite IH by done.
    destruct (Events.match_conditions rule ev self) as [b|]; [|done]. simpl.
    by destruct (if b then _ else _).
Qed.

(** X25.  [evaluate_rule_over_events] treats the events one by one: the
    log of two lists of events, one after the other, is the log of the
    first followed by the log of the second, and it raises when either
    does. *)
Theorem evaluate_rule_over_events_app self rule events1 events2 :
  Events.evaluate_rule_over_events self rule (events1 ++ events2)
  = (logs1 ← Events.evaluate_rule_over_events self rule events1;
     logs2 ← Events.evaluate_rule_over_events self rule events2;
     Ok (logs1 ++ logs2)).
Proof.
  induction events1 as [|ev events1 IH]; simpl.
  - by destruct (Events.evaluate_rule_over_events self rule events2).
  - destruct (Events.match_conditions rule ev self) as [b|]; [|done]. simpl.
    destruct (if b then _ else _) as [lines|]; [|done]. simpl.
    rewrite IH.
    destruct (Events.evaluate_rule_over_events self rule events1) as [logs1|]; [|done].
    simpl.
    destruct (Events.evaluate_rule_over_events self rule events2) as [logs2|]; [|done].
    simpl. by rewrite app_assoc.
Qed.

End EventFacts.

(** ** The intakes without an appointment *)

Lemma forallb_has_id_false intakes :
  forallb (fun d => bool_decide (is_Some (doc_appointment_id d))) intakes = false
  <-> exists d, In d intakes /\ doc_appointment_id d = None.
Proof.
  induction intakes as [|d intakes IH]; simpl.
  - split; [done|]. by intros (d & [] & _).
  - destruct (doc_appointment_id d) as [k|] eqn:Ed.
    + rewrite bool_decide_true by eauto. simpl. rewrite IH. split.
      * intros (d' & Hin & Hd). eauto.
      * intros (d' & [<-|Hin] & Hd); [congruence|eauto].
    + rewrite bool_decide_false by (by intros [? ?]). simpl. split; [eauto|done].
Qed.

(** X26.  An intake that lacks the key [appointment_id]: [create_lookups]
    and [load_data] leave it out and index the others, while
    [RulesEngine.__init__] raises on it. *)
Theorem intake_without_appointment practice patients appointments intakes k :
  (Loading.create_lookups practice patients appointments intakes).2 !! k
  = last (filter (fun i => intake_appointment_id i = k) (omap intake_of_doc intakes))
  /\ (Events.RulesEngine_init practice patients appointments intakes = Raise
      <-> exists d, In d intakes /\ doc_appointment_id d = None).
Proof.
  split; [apply idx_by_last|].
  unfold Events.RulesEngine_init. rewrite <- forallb_has_id_false.
  by destruct (forallb _ intakes).
Qed.

(** X27.  On the dictionaries of [RulesEngine.__init__] an event
    resolves to the appointment whose id it names: the record found
    under an id carries that id, so the intake that
    [render_action_messages] and [match_conditions] look up under the
    appointment's own id is the intake of the id the event names. *)
Theorem resolved_appointment_has_the_id practice patients appointments intakes ctx
        event appt :
  Events.RulesEngine_init practice patients appointments intakes = Ok ctx ->
  Events.resolve_appointment event ctx = Some appt ->
  payload event ≫= payload_appointment_id = Some (appt_id appt)
  /\ In appt appointments
  /\ Events.intakes_by_appt ctx !! appt_id appt
     = last (filter (fun i => intake_appointment_id i = appt_id appt)
                    (omap intake_of_doc intakes)).
Proof.
  unfold Events.RulesEngine_init. destruct (forallb _ intakes); [|done].
  intros [= <-]. unfold Events.resolve_appointment. simpl.
  destruct (payload event ≫= payload_appointment_id) as [k|]; [|done]. simpl.
  intros Hl. apply idx_by_lookup in Hl as [<- Hin].
  split; [done|]. split; [by apply list_elem_of_In|]. apply idx_by_last.
Qed.

(** ** [render_template] over the keys *)

Lemma replace_empty old new : PyStr.replace old new "" = "".
Proof. done. Qed.

Lemma render_fold_empty (data : list (string * string)) :
  fold_left (fun out '(k, v) => PyStr.replace ("{{" +:+ k +:+ "}}") v out) data "" = "".
Proof. induction data as [|[k v] data IH]; [done|]. exact IH. Qed.

Lemma render_template_fold tpl data :
  Events.render_template tpl data
  = fold_left (fun out '(k, v) => PyStr.replace ("{{" +:+ k +:+ "}}") v out) data tpl.
Proof.
  unfold Events.render_template. destruct (String.eqb_spec tpl "") as [->|]; [|done].
  by rewrite render_fold_empty.
Qed.

(** X28.  [render_template] substitutes the keys one after the other, in
    the order of the dictionary: rendering with the entries of two
    dictionaries in a row is rendering the result of the first with the
    second, so a value put in for an earlier key is itself searched for
    the placeholders of the later keys. *)
Theorem render_template_is_sequential tpl data1 data2 :
  Events.render_template tpl (data1 ++ data2)
  = Events.render_template (Events.render_template tpl data1) data2.
Proof. by rewrite !render_template_fold, fold_left_app. Qed.

(** ** The actions of a match *)

Lemma parse_actions_kinds text :
  map LLM.action_type (LLM._parse_actions_semantic text)
  `sublist_of` [LLM.SMS; LLM.EMAIL; LLM.CALL].
Proof.
  unfold LLM._parse_actions_semantic.
  destruct (PyStr.contains_any _ text), (PyStr.contains "email" text),
    (PyStr.contains_any _ text); simpl; repeat constructor.
Qed.

Section MatchActions.
Context `{PyRuntime}.

Lemma render_action_kind context a r :
  LLM.render_action context a = Ok r ->
  kind_of r = match LLM.action_type a with
              | LLM.SMS => "SMS" | LLM.EMAIL => "EMAIL" | LLM.CALL => "CALL"
              end.
Proof.
  unfold LLM.render_action.
  destruct (LLM.action_type a), (LLM.template a) as [tpl|subj body]; try done;
    repeat match goal with
           | |- context [Py.format ?x context] => destruct (Py.format x context); [|done]
           end;
    simpl; by intros [= <-].
Qed.

Lemma render_each_kinds context actions :
  map kind_of (LLM.render_each context actions)
  `sublist_of`
  map (fun a => match LLM.action_type a with
                | LLM.SMS => "SMS" | LLM.EMAIL => "EMAIL" | LLM.CALL => "CALL"
                end) actions.
Proof.
  induction actions as [|a actions IH]; simpl; [constructor|].
  destruct (LLM.render_action context a) as [r|] eqn:E.
  - simpl. rewrite (render_action_kind _ _ _ E). by constructor.
  - by constructor.
Qed.

(** X29.  A match of a parsed rule carries at most one SMS, one e-mail
    and one call, in this order, whatever the order and the number of
    the channels the rule text names. *)
Theorem match_actions_are_ordered text rule dc appt_id t m :
  LLM.semantic_parse text = Some rule ->
  LLM._evaluate_appointment dc appt_id rule t = Ok (Some m) ->
  map kind_of (LLM.triggered_actions m) `sublist_of` ["SMS"; "EMAIL"; "CALL"].
Proof.
  intros Hp Hm.
  destruct (evaluate_appointment_inv _ _ _ _ _ Hm) as (context & _ & _ & -> & _).
  assert (Hk : map LLM.action_type (LLM.actions rule)
               `sublist_of` [LLM.SMS; LLM.EMAIL; LLM.CALL]).
  { revert Hp. unfold LLM.semantic_parse.
    destruct (Re.search false LLM.if_then_re _); [|done].
    intros [= <-]. apply parse_actions_kinds. }
  unfold LLM._generate_actions. destruct (Py.truthy _); [apply sublist_nil_l|].
  etrans; [apply render_each_kinds|].
  apply (map_sublist (fun ty => match ty with
                                | LLM.SMS => "SMS" | LLM.EMAIL => "EMAIL" | LLM.CALL => "CALL"
                                end)) in Hk.
  rewrite map_map in Hk. exact Hk.
Qed.

End MatchActions.

(** ** The further properties on the worked inputs *)

Section FurtherWorked.
#[local] Existing Instance Sample.runtime.
Import Inputs.

Lemma sample_context3 :
  LLM._build_context Sample.store "appt_0003" LLM.current_time = Some context3.
Proof.
  destruct (build_context_total Sample.store "appt_0003" LLM.current_time
              Sample.appt3 eq_refl) as [context Hc].
  unfold context3. by rewrite Hc.
Qed.

Lemma evaluate_rule_again_witness :
  LLM.evaluate_rule (snd top1) high_risk_text 1 = Ok (fst top1, snd top1).
Proof.
  apply (evaluate_rule_again Sample.engine high_risk_text 1 (fst top1) (snd top1)).
  vm_compute. reflexivity.
Defined.

Lemma rule_cache_is_transparent_witness :
  returned (LLM.evaluate_rule (snd top1) high_risk_text 1)
  = returned (LLM.evaluate_rule
                {| LLM.data_cache := LLM.data_cache (snd top1); LLM.rule_cache := ∅ |}
                high_risk_text 1).
Proof.
  apply rule_cache_is_transparent.
  apply (reach_call Sample.engine high_risk_text 1 (fst top1) (snd top1)).
  - apply reach_fresh.
  - vm_compute. reflexivity.
Defined.



Lemma no_appointment_twice_witness :
  exists res self',
    LLM.evaluate_rule loaded_engine high_risk_text 2 = Ok (res, self')
    /\ NoDup (map LLM.appointment_id res).
Proof.
  assert (E : exists r, LLM.evaluate_rule loaded_engine high_risk_text 2 = Ok r)
    by (eexists; vm_compute; reflexivity).
  destruct E as [[res self'] E]. exists res, self'. split; [exact E|].
  apply (no_appointment_twice [Sample.practice1]
           [Sample.pt_dnc; Sample.pt_two; Sample.pt_three]
           [Sample.appt1; Sample.appt2; Sample.appt3] [] []
           loaded_engine high_risk_text 2 res self').
  - apply reach_fresh.
  - reflexivity.
  - exact E.
Defined.

Lemma semantic_parse_ignores_case_witness :
  LLM.semantic_parse ("  " +:+ "IF Risk Is High THEN Call Patient" +:+ " ")
  = LLM.semantic_parse "if risk is high then call patient".
Proof.
  apply semantic_parse_ignores_case_and_margins.
  - vm_compute. reflexivity.
  - repeat split.
  - repeat split.
Defined.

Lemma custom_message_is_lower_case_witness :
  PyStr.lower "see you soon" = "see you soon".
Proof.
  apply (custom_message_is_lower_case shouted_text shouted_rule shouted_sms).
  - vm_compute. reflexivity.
  - by left.
  - reflexivity.
Defined.

Lemma match_confidence_range_witness :
  exists m,
    LLM._evaluate_appointment Sample.store "appt_0002" high_risk_rule LLM.current_time
    = Ok (Some m)
    /\ (0 < LLM.match_confidence m <= 9 # 10)%Q.
Proof.
  assert (E : exists m, LLM._evaluate_appointment Sample.store "appt_0002" high_risk_rule
                          LLM.current_time = Ok (Some m))
    by (eexists; vm_compute; reflexivity).
  destruct E as [m E]. exists m. split; [exact E|].
  apply (match_confidence_range high_risk_text high_risk_rule Sample.store "appt_0002"
           LLM.current_time m).
  - vm_compute. reflexivity.
  - exact E.
Defined.

Lemma hours_until_is_not_negative_witness :
  exists v q, context1 !! "hours_until" = Some v
              /\ Py.to_float v = Ok q /\ (0 <= q)%Q.
Proof.
  exact (hours_until_is_not_negative Sample.store "appt_0001" LLM.current_time context1
           sample_context1).
Defined.


Lemma canned_templates_render_witness :
  is_ok (Py.format (LLM.base_templates LLM.SMS LLM.Urgent) context1) = false
  /\ is_ok (Py.format (LLM.base_templates LLM.CALL LLM.Urgent) context1) = true.
Proof.
  split.
  - exact (canned_templates_render Sample.store "appt_0001" LLM.current_time context1
             LLM.SMS LLM.Urgent sample_context1).
  - exact (canned_templates_render Sample.store "appt_0001" LLM.current_time context1
             LLM.CALL LLM.Urgent sample_context1).
Defined.

Lemma brace_free_template_is_verbatim_witness :
  LLM.render_action context2 shouted_sms
  = Ok (LLM.RSms (LLM.get_or_none context2 "patient_phone") "see you soon").
Proof.
  exact (brace_free_template_is_verbatim context2 shouted_sms "see you soon"
           eq_refl (conj eq_refl eq_refl)).
Defined.

Lemma parsed_actions_have_templates_witness :
  Syntax.actions table_rule `sublist_of` ["SMS"; "EMAIL"; "CALL"]
  /\ forall action, In action (Syntax.actions table_rule) ->
       exists tpl, Syntax.dict_get (Syntax.templates table_rule) action = Some tpl
                   /\ filled tpl.
Proof.
  apply (parsed_actions_have_templates table_text table_rule).
  vm_compute. reflexivity.
Defined.

Lemma quote_free_rule_triggers_all_witness :
  exists context triggered,
    Syntax.build_context "appt_0002" Syntax.current_time (LLM.appointments Sample.store)
      (LLM.patients Sample.store) (LLM.practices Sample.store) (LLM.intakes Sample.store)
    = Ok (Some context)
    /\ Syntax.trigger_actions table_rule context = Ok triggered
    /\ map kind_of triggered = ["CALL"].
Proof.
  destruct (syntax_build_context_returns "appt_0002" Syntax.current_time
              (LLM.appointments Sample.store) (LLM.patients Sample.store)
              (LLM.practices Sample.store) (LLM.intakes Sample.store)
              Sample.appt2 "2025-09-11T09:30:00" eq_refl eq_refl)
    as (context & Hctx & Hpat & Hprac).
  destruct (quote_free_rule_triggers_all table_text table_rule "appt_0002"
              Syntax.current_time (LLM.appointments Sample.store)
              (LLM.patients Sample.store) (LLM.practices Sample.store)
              (LLM.intakes Sample.store) context Sample.pt_two Sample.practice1)
    as (triggered & Ht & Hk).
  - vm_compute. reflexivity.
  - repeat split.
  - exact Hctx.
  - rewrite Hpat. vm_compute. reflexivity.
  - rewrite Hprac. vm_compute. reflexivity.
  - discriminate.
  - exists context, triggered. auto.
Defined.

Lemma missing_start_time_witness :
  Syntax.build_context "appt_0004" LLM.current_time (LLM.appointments undated_store)
    (LLM.patients undated_store) (LLM.practices undated_store) (LLM.intakes undated_store)
  = Raise
  /\ exists context,
       LLM._build_context undated_store "appt_0004" LLM.current_time = Some context
       /\ context !! "hours_until" = Some (VInt 24)
       /\ context !! "appointment_formatted_time" = Some (VStr "your appointment time").
Proof.
  exact (missing_start_time undated_store "appt_0004" LLM.current_time undated
           eq_refl eq_refl).
Defined.

Lemma event_rule_without_conditions_witness :
  Events.match_conditions any_event_rule (event_for "appt_0001") event_ctx = Ok true.
Proof.
  apply (event_rule_without_conditions any_event_rule (event_for "appt_0001") event_ctx).
  intros k v [[= <- _]|[]]. reflexivity.
Defined.

Lemma started_appointment_never_matches_witness :
  Events.test late_event event_ctx "appointment_hours_until" (JNum 24) = Ok false
  /\ Events.match_conditions within_a_day late_event event_ctx <> Ok true.
Proof.
  eapply (started_appointment_never_matches within_a_day late_event event_ctx (JNum 24)
            Sample.appt1 "2025-09-10T18:00:00").
  - reflexivity.
  - by left.
  - vm_compute. reflexivity.
  - reflexivity.
  - vm_compute. reflexivity.
  - vm_compute. reflexivity.
  - reflexivity.
  - vm_compute. reflexivity.
Defined.

Lemma mixed_time_stamps_raise_witness :
  Events.match_conditions (H:=Sample.runtime_with_offsets) within_a_day
    (event_for "appt_0001") event_ctx = Raise
  /\ Events.evaluate_rule_over_events (H:=Sample.runtime_with_offsets) event_ctx
       within_a_day [event_for "appt_0002"; event_for "appt_0001"] = Raise.
Proof.
  eapply (mixed_time_stamps_raise (H:=Sample.runtime_with_offsets) event_ctx within_a_day
            (event_for "appt_0001") [event_for "appt_0002"; event_for "appt_0001"]
            (JNum 24) Sample.appt1 "2025-09-10T18:00:00").
  - by left.
  - vm_compute. reflexivity.
  - reflexivity.
  - vm_compute. reflexivity.
  - vm_compute. reflexivity.
  - reflexivity.
  - right. by left.
Defined.

Lemma resolved_appointment_has_the_id_witness :
  exists ctx,
    Events.RulesEngine_init [Sample.practice1] [Sample.pt_dnc; Sample.pt_two]
      [Sample.appt1; Sample.appt2] [] = Ok ctx
    /\ payload (event_for "appt_0001") ≫= payload_appointment_id
       = Some (appt_id Sample.appt1)
    /\ In Sample.appt1 [Sample.appt1; Sample.appt2]
    /\ Events.intakes_by_appt ctx !! appt_id Sample.appt1
       = last (filter (fun i => intake_appointment_id i = appt_id Sample.appt1)
                      (omap intake_of_doc [])).
Proof.
  eexists. split; [reflexivity|].
  apply (resolved_appointment_has_the_id [Sample.practice1] [Sample.pt_dnc; Sample.pt_two]
           [Sample.appt1; Sample.appt2] [] _ (event_for "appt_0001") Sample.appt1).
  - reflexivity.
  - vm_compute. reflexivity.
Defined.
Lemma match_actions_are_ordered_witness :
  exists m,
    LLM._evaluate_appointment Sample.store "appt_0002" high_risk_rule LLM.current_time
    = Ok (Some m)
    /\ map kind_of (LLM.triggered_actions m) `sublist_of` ["SMS"; "EMAIL"; "CALL"].
Proof.
  assert (E : exists m, LLM._evaluate_appointment Sample.store "appt_0002" high_risk_rule
                          LLM.current_time = Ok (Some m))
    by (eexists; vm_compute; reflexivity).
  destruct E as [m E]. exists m. split; [exact E|].
  apply (match_actions_are_ordered high_risk_text high_risk_rule Sample.store "appt_0002"
           LLM.current_time m).
  - vm_compute. reflexivity.
  - exact E.
Defined.
End FurtherWorked.
